(** * Room optimizer: a shallow embedding of [src/core/room_optimizer.py]

    The optimizer assigns lessons to rooms with a CP-SAT model: one boolean
    variable per (lesson, room) pair, capacity and no-overlap constraints,
    and an integral objective made of three weighted score families.

    Conventions of the embedding:
    - Python [float] values (temperatures, weights, ratios, scores) are exact
      rationals [Q]; Python [int] values are [Z]; indices are [nat].
    - Exceptions are an explicit [result] type threaded through the code
      that can raise.
    - The mutable optimizer object [self] is a record passed from step to
      step; dictionaries are stdpp finite maps.
    - Everything outside the optimizer (clock, interpreter version, the
      pickled regression model, the forecast pipeline, the CP-SAT solver)
      is gathered in a [World] record that the functions take as argument. *)

From Stdlib Require Import ZArith QArith Qround Qabs Qminmax List String Lia Lqa.
From stdpp Require Import gmap strings.

Open Scope Q_scope.

(** ** Exceptions *)

Inductive exn : Type :=
| ValueError
| TypeError
| KeyError (key : string).

Inductive result (A : Type) : Type :=
| Ok (a : A)
| Raise (e : exn).

Arguments Ok {A} a.
Arguments Raise {A} e.

Definition bind {A B : Type} (m : result A) (k : A -> result B) : result B :=
  match m with
  | Ok a => k a
  | Raise e => Raise e
  end.

Notation "'do' x <- m ; k" := (bind m (fun x => k))
  (at level 10, x name, m at level 100, k at level 200).

(** A loop whose body may raise: the first exception leaves the loop. *)
Fixpoint foldM {A B : Type} (f : B -> A -> result B) (l : list A) (b : B)
  : result B :=
  match l with
  | [] => Ok b
  | x :: l' =>
      match f b x with
      | Ok b' => foldM f l' b'
      | Raise e => Raise e
      end
  end.

Fixpoint mapM {A B : Type} (f : A -> result B) (l : list A) : result (list B) :=
  match l with
  | [] => Ok []
  | x :: l' =>
      do y <- f x;
      do ys <- mapM f l';
      Ok (y :: ys)
  end.

(** [enumerate(l)] *)
Fixpoint enumerate_from {A : Type} (n : nat) (l : list A) : list (nat * A) :=
  match l with
  | [] => []
  | x :: l' => (n, x) :: enumerate_from (S n) l'
  end.

Definition enumerate {A : Type} (l : list A) : list (nat * A) :=
  enumerate_from 0 l.

(** ** Numbers: comparisons, [int()], [round(_, 3)], [max], [min] *)

Definition Qlt_bool (x y : Q) : bool := negb (Qle_bool y x).

(** [int(x)] on a float truncates toward zero. *)
Definition py_int (x : Q) : Z := Z.quot (Qnum x) (Zpos (Qden x)).

(** [max(a, b)] returns [a] unless [b > a]; [min(a, b)] returns [a] unless
    [b < a]. *)
Definition py_max (a b : Q) : Q := if Qlt_bool a b then b else a.
Definition py_min (a b : Q) : Q := if Qlt_bool b a then b else a.

(** Nearest integer, ties to the even one. *)
Definition round_half_even (x : Q) : Z :=
  let f := Qfloor x in
  let r := x - inject_Z f in
  if Qlt_bool r (1 # 2) then f
  else if Qlt_bool (1 # 2) r then (f + 1)%Z
  else if Z.even f then f else (f + 1)%Z.

(** [round(x, 3)] *)
Definition py_round3 (x : Q) : Q := round_half_even (x * 1000) # 1000.

(** ** Timestamps

    A lesson carries its times as ISO-8601 strings.  The embedding keeps the
    parsed date-time fields as a count of microseconds and the time-zone
    designator that ends the string, which is all the optimizer looks at. *)

Inductive tz_designator : Type :=
| NoTz                       (* "2025-01-06T09:00:00" *)
| Zulu                       (* "2025-01-06T09:00:00Z" *)
| UtcOffset (minutes : Z).   (* "2025-01-06T09:00:00+01:00" *)

Record iso_string : Type := {
  iso_wall : Z;
  iso_tz : tz_designator
}.

(** A [datetime]: naive when [utcoffset] is [None], aware otherwise. *)
Record datetime : Type := {
  wall : Z;
  utcoffset : option Z
}.

(** [s.replace("Z", "+00:00")] *)
Definition replace_Z (s : iso_string) : iso_string :=
  match iso_tz s with
  | Zulu => {| iso_wall := iso_wall s; iso_tz := UtcOffset 0 |}
  | _ => s
  end.

(** [a < b] on datetimes: naive against aware raises [TypeError]. *)
Definition dt_lt (a b : datetime) : result bool :=
  match utcoffset a, utcoffset b with
  | None, None => Ok (wall a <? wall b)%Z
  | Some oa, Some ob =>
      Ok (wall a - oa * 60000000 <? wall b - ob * 60000000)%Z
  | _, _ => Raise TypeError
  end.

Definition dt_gt (a b : datetime) : result bool := dt_lt b a.

(** [timedelta(days=7)] in microseconds *)
Definition seven_days : Z := 7 * 86400 * 1000000.

(** ** Rooms, lessons, preferences *)

Record Room : Type := {
  room_name : string;
  capacity : Z;
  hasAC : option bool;       (* read with [room.get("hasAC", False)] *)
  hasHeater : option bool    (* read with [room.get("hasHeater", False)] *)
}.

Record Lesson : Type := {
  title : string;
  start_time : iso_string;
  end_time : iso_string;
  student_count : option Z   (* read with [lesson.get("student_count", 0)] *)
}.

Definition get_student_count (lesson : Lesson) : Z :=
  default 0%Z (student_count lesson).

Definition get_hasAC (room : Room) : bool := default false (hasAC room).
Definition get_hasHeater (room : Room) : bool := default false (hasHeater room).

(** [d[key]] on a dictionary of weights *)
Definition getitem (d : gmap string Q) (key : string) : result Q :=
  match d !! key with
  | Some w => Ok w
  | None => Raise (KeyError key)
  end.

Definition default_preferences : gmap string Q :=
  <["temperature_weight"%string := 0.3]>
  (<["equipment_weight"%string := 0.2]>
  (<["capacity_weight"%string := 0.5]> ∅)).

(** ** The CP-SAT model *)

(** The variable named [lesson_i_room_j]. *)
Definition BoolVar : Type := (nat * nat)%type.

Inductive Constraint : Type :=
| EqZero (x : BoolVar)                (* [Add(x == 0)] *)
| ExactlyOne (xs : list BoolVar)      (* [AddExactlyOne(xs)] *)
| SumAtMostOne (x y : BoolVar).       (* [Add(x + y <= 1)] *)

(** [score * x] *)
Record Term : Type := {
  coef : Z;
  tvar : BoolVar
}.

Record CpModel : Type := {
  variables : list BoolVar;
  constraints : list Constraint;
  objective : list Term
}.

Definition empty_model : CpModel :=
  {| variables := []; constraints := []; objective := [] |}.

Definition NewBoolVar (m : CpModel) (x : BoolVar) : CpModel :=
  {| variables := variables m ++ [x];
     constraints := constraints m;
     objective := objective m |}.

Definition Add (m : CpModel) (c : Constraint) : CpModel :=
  {| variables := variables m;
     constraints := constraints m ++ [c];
     objective := objective m |}.

Definition Maximize (m : CpModel) (terms : list Term) : CpModel :=
  {| variables := variables m;
     constraints := constraints m;
     objective := terms |}.

Inductive CpStatus : Type :=
| UNKNOWN
| MODEL_INVALID
| FEASIBLE
| INFEASIBLE
| OPTIMAL.

Record SolverResponse : Type := {
  status : CpStatus;
  Value : BoolVar -> bool;      (* the 0/1 value of a boolean variable *)
  NumConflicts : Z;
  NumBranches : Z;
  WallTime : Q
}.

(** What it means for an assignment of the variables to meet a constraint. *)
Definition holds (sol : BoolVar -> bool) (c : Constraint) : Prop :=
  match c with
  | EqZero x => sol x = false
  | ExactlyOne xs => length (List.filter sol xs) = 1%nat
  | SumAtMostOne x y => (Z.b2z (sol x) + Z.b2z (sol y) <= 1)%Z
  end.

Definition satisfies (sol : BoolVar -> bool) (m : CpModel) : Prop :=
  Forall (holds sol) (constraints m).

Definition holdsb (sol : BoolVar -> bool) (c : Constraint) : bool :=
  match c with
  | EqZero x => negb (sol x)
  | ExactlyOne xs => Nat.eqb (length (List.filter sol xs)) 1
  | SumAtMostOne x y => (Z.b2z (sol x) + Z.b2z (sol y) <=? 1)%Z
  end.

Definition satisfiesb (sol : BoolVar -> bool) (m : CpModel) : bool :=
  forallb (holdsb sol) (constraints m).

(** ** The world around the optimizer *)

Record World : Type := {
  (* [datetime.now()], a naive datetime *)
  now : Z;
  (* whether [datetime.fromisoformat] reads a trailing "Z" (it does from
     Python 3.11 on, and raises [ValueError] before) *)
  accepts_zulu : bool;
  (* [joblib.load(model_path)]; [None] when it raises *)
  regression_model : Type;
  joblib_load : option regression_model;
  (* the body of the per-pair [try] block up to the list [temperatures]:
     sensor lookup, regression forecast and the walk over the lesson's
     hours *)
  forecast_temperatures :
    regression_model -> nat -> Lesson -> nat -> Room -> datetime ->
    result (list Q);
  (* [CpSolver.Solve] *)
  Solve : CpModel -> SolverResponse
}.

(** [datetime.fromisoformat(s)] *)
Definition fromisoformat (E : World) (s : iso_string) : result datetime :=
  match iso_tz s with
  | NoTz => Ok {| wall := iso_wall s; utcoffset := None |}
  | UtcOffset m => Ok {| wall := iso_wall s; utcoffset := Some m |}
  | Zulu =>
      if accepts_zulu E
      then Ok {| wall := iso_wall s; utcoffset := Some 0%Z |}
      else Raise ValueError
  end.

(** ** The optimizer object *)

Record RoomOptimizer : Type := {
  rooms : list Room;
  lessons : list Lesson;
  preferences : gmap string Q;
  model : CpModel;
  temperature_predictions : gmap (nat * nat) Q;
  seven_days_from_now : datetime
}.

Definition set_model (self : RoomOptimizer) (m : CpModel) : RoomOptimizer :=
  {| rooms := rooms self;
     lessons := lessons self;
     preferences := preferences self;
     model := m;
     temperature_predictions := temperature_predictions self;
     seven_days_from_now := seven_days_from_now self |}.

Definition set_prediction (self : RoomOptimizer) (k : nat * nat) (t : Q)
  : RoomOptimizer :=
  {| rooms := rooms self;
     lessons := lessons self;
     preferences := preferences self;
     model := model self;
     temperature_predictions := <[k := t]> (temperature_predictions self);
     seven_days_from_now := seven_days_from_now self |}.

(** [preferences or {...}]: [None] and the empty dictionary are falsy. *)
Definition __init__ (E : World) (rooms0 : list Room) (lessons0 : list Lesson)
    (preferences0 : option (gmap string Q)) : RoomOptimizer :=
  {| rooms := rooms0;
     lessons := lessons0;
     preferences :=
       match preferences0 with
       | None => default_preferences
       | Some d => if Nat.eqb (size d) 0 then default_preferences else d
       end;
     model := empty_model;
     temperature_predictions := ∅;
     seven_days_from_now :=
       {| wall := (now E + seven_days)%Z; utcoffset := None |} |}.

(** [self.temperature_predictions.get((i, j), 21.0)] *)
Definition get_prediction (self : RoomOptimizer) (i j : nat) : Q :=
  default 21 (temperature_predictions self !! (i, j)).

(** ** Building the model *)

(** [_create_assignment_variables]: one variable per (lesson, room) pair.
    The returned dictionary maps [(i, j)] to the variable of that name, so
    [assignments[(i, j)]] is written [(i, j)] below. *)
Definition _create_assignment_variables (self : RoomOptimizer) : RoomOptimizer :=
  set_model self
    (fold_left
       (fun m il =>
          fold_left (fun m' jr => NewBoolVar m' (fst il, fst jr))
                    (enumerate (rooms self)) m)
       (enumerate (lessons self)) (model self)).

(** The body of the loop over rooms in [_add_capacity_constraints]; the
    state is the list [valid_rooms] and the model. *)
Definition capacity_room_step (i : nat) (count : Z)
    (st : list BoolVar * CpModel) (jr : nat * Room) : list BoolVar * CpModel :=
  if (capacity (snd jr) >=? count)%Z
  then (fst st ++ [(i, fst jr)], snd st)
  else (fst st, Add (snd st) (EqZero (i, fst jr))).

(** The body of the loop over lessons in [_add_capacity_constraints].  With
    no valid room only a warning is logged. *)
Definition capacity_lesson_step (rs : list Room) (m : CpModel)
    (il : nat * Lesson) : CpModel :=
  let count := get_student_count (snd il) in
  let st := fold_left (capacity_room_step (fst il) count) (enumerate rs) ([], m) in
  match fst st with
  | [] => snd st
  | _ :: _ => Add (snd st) (ExactlyOne (fst st))
  end.

Definition _add_capacity_constraints (self : RoomOptimizer) : RoomOptimizer :=
  set_model self
    (fold_left (capacity_lesson_step (rooms self))
               (enumerate (lessons self)) (model self)).

(** The interval of a lesson, read with [fromisoformat] on the raw strings. *)
Definition lesson_interval (E : World) (lesson : Lesson)
  : result (datetime * datetime) :=
  do start <- fromisoformat E (start_time lesson);
  do end_ <- fromisoformat E (end_time lesson);
  Ok (start, end_).

(** The innermost body of [_add_no_overlap_constraints]. *)
Definition overlap_pair_step (j : nat) (a : nat * (datetime * datetime))
    (m : CpModel) (b : nat * (datetime * datetime)) : result CpModel :=
  if (fst a <? fst b)%nat then
    do c1 <- dt_lt (fst (snd a)) (snd (snd b));
    if c1 then
      do c2 <- dt_lt (fst (snd b)) (snd (snd a));
      if c2
      then Ok (Add m (SumAtMostOne (fst a, j) (fst b, j)))
      else Ok m
    else Ok m
  else Ok m.

Definition overlap_room_step (intervals : list (datetime * datetime))
    (m : CpModel) (jr : nat * Room) : result CpModel :=
  foldM (fun m1 a => foldM (overlap_pair_step (fst jr) a) (enumerate intervals) m1)
        (enumerate intervals) m.

Definition _add_no_overlap_constraints (E : World) (self : RoomOptimizer)
  : result RoomOptimizer :=
  do lesson_intervals <- mapM (lesson_interval E) (lessons self);
  do m <- foldM (overlap_room_step lesson_intervals)
                (enumerate (rooms self)) (model self);
  Ok (set_model self m).

(** ** Objective terms *)

(** [student_count / room["capacity"] if room["capacity"] > 0 else 0] *)
Definition capacity_ratio (count cap : Z) : Q :=
  if (cap >? 0)%Z then inject_Z count / inject_Z cap else 0.

Definition capacity_fit_room_step (prefs : gmap string Q) (i : nat) (count : Z)
    (terms : list Term) (jr : nat * Room) : result (list Term) :=
  if (capacity (snd jr) >=? count)%Z then
    do w <- getitem prefs "capacity_weight";
    let score := py_int (capacity_ratio count (capacity (snd jr)) * 100 * w) in
    Ok (terms ++ [{| coef := score; tvar := (i, fst jr) |}])
  else Ok terms.

Definition _add_capacity_fit_objective (self : RoomOptimizer)
  : result (list Term) :=
  foldM (fun terms il =>
           foldM (capacity_fit_room_step (preferences self) (fst il)
                    (get_student_count (snd il)))
                 (enumerate (rooms self)) terms)
        (enumerate (lessons self)) [].

(** The score of a room reached through the static branch (lesson beyond
    the horizon). *)
Definition static_equipment_score (room : Room) : Z :=
  ((if get_hasAC room then 20 else 0) + (if get_hasHeater room then 20 else 0))%Z.

(** The score of a room reached through the forecast branch. *)
Definition forecast_equipment_score (room : Room) (predicted_temp : Q) : Z :=
  ((if get_hasAC room then
      if Qlt_bool 25 predicted_temp then 50
      else if Qlt_bool 23 predicted_temp then 30
      else if Qlt_bool 21 predicted_temp then 10
      else 0
    else 0)
   +
   (if get_hasHeater room then
      if Qlt_bool predicted_temp 17 then 50
      else if Qlt_bool predicted_temp 19 then 30
      else if Qlt_bool predicted_temp 21 then 10
      else 0
    else 0))%Z.

Definition equipment_room_step (self : RoomOptimizer) (i : nat)
    (lesson_datetime : datetime) (terms : list Term) (jr : nat * Room)
  : result (list Term) :=
  do beyond <- dt_gt lesson_datetime (seven_days_from_now self);
  let equipment_score :=
    if beyond then static_equipment_score (snd jr)
    else forecast_equipment_score (snd jr) (get_prediction self i (fst jr)) in
  do w <- getitem (preferences self) "equipment_weight";
  let weighted_score := py_int (inject_Z equipment_score * w) in
  Ok (terms ++ [{| coef := weighted_score; tvar := (i, fst jr) |}]).

Definition _add_equipment_objective (E : World) (self : RoomOptimizer)
  : result (list Term) :=
  foldM (fun terms il =>
           do lesson_datetime <- fromisoformat E (replace_Z (start_time (snd il)));
           foldM (equipment_room_step self (fst il) lesson_datetime)
                 (enumerate (rooms self)) terms)
        (enumerate (lessons self)) [].

(** The comfort band of a predicted temperature. *)
Definition temp_score (predicted_temp : Q) : Q :=
  if Qle_bool 20 predicted_temp && Qle_bool predicted_temp 22 then 100
  else if Qle_bool 19 predicted_temp && Qle_bool predicted_temp 23 then 90
  else if Qle_bool 18 predicted_temp && Qle_bool predicted_temp 24 then 70
  else if Qle_bool 17 predicted_temp && Qle_bool predicted_temp 25 then 50
  else py_max 0 (30 - Qabs (predicted_temp - 21) * 5).

Definition temperature_room_step (self : RoomOptimizer) (i : nat)
    (terms : list Term) (jr : nat * Room) : result (list Term) :=
  let predicted_temp := get_prediction self i (fst jr) in
  do w <- getitem (preferences self) "temperature_weight";
  let weighted_score := py_int (temp_score predicted_temp * w) in
  Ok (terms ++ [{| coef := weighted_score; tvar := (i, fst jr) |}]).

Definition _add_temperature_objective (self : RoomOptimizer)
  : result (list Term) :=
  foldM (fun terms il =>
           foldM (temperature_room_step self (fst il))
                 (enumerate (rooms self)) terms)
        (enumerate (lessons self)) [].

(** ** Temperature predictions *)

(** [sum(temperatures) / len(temperatures)] *)
Definition average (temperatures : list Q) : Q :=
  fold_left Qplus temperatures 0 / inject_Z (Z.of_nat (length temperatures)).

(** One pair inside the [try] block: whatever goes wrong, the pair gets the
    default. *)
Definition predict_room_step (E : World) (mdl : regression_model E) (i : nat)
    (lesson : Lesson) (lesson_datetime : datetime)
    (self : RoomOptimizer) (jr : nat * Room) : RoomOptimizer :=
  match forecast_temperatures E mdl i lesson (fst jr) (snd jr) lesson_datetime with
  | Ok [] => set_prediction self (i, fst jr) 21
  | Ok (t :: ts) => set_prediction self (i, fst jr) (average (t :: ts))
  | Raise _ => set_prediction self (i, fst jr) 21
  end.

Definition predict_lesson_step (E : World) (mdl : regression_model E)
    (self : RoomOptimizer) (il : nat * Lesson) : result RoomOptimizer :=
  do lesson_datetime <- fromisoformat E (replace_Z (start_time (snd il)));
  do beyond <- dt_gt lesson_datetime (seven_days_from_now self);
  if beyond
  then Ok (fold_left (fun s j => set_prediction s (fst il, j) 21)
                     (seq 0 (length (rooms self))) self)
  else Ok (fold_left (predict_room_step E mdl (fst il) (snd il) lesson_datetime)
                     (enumerate (rooms self)) self).

(** When the model cannot be loaded the method logs a warning and returns
    at once. *)
Definition _calculate_all_temperature_predictions (E : World)
    (self : RoomOptimizer) : result RoomOptimizer :=
  match joblib_load E with
  | None => Ok self
  | Some mdl => foldM (predict_lesson_step E mdl) (enumerate (lessons self)) self
  end.

(** ** Results *)

Record Scores : Type := {
  capacity_fit : Q;
  equipment : Q;
  temperature : Q;
  overall : Q
}.

Record Assignment : Type := {
  lesson_of : Lesson;
  assigned_room : Room;
  scores : Scores
}.

Record SolverStats : Type := {
  conflicts : Z;
  branches : Z;
  wall_time : Q
}.

Record OptimizationResult : Type := {
  result_status : string;
  assignments : list Assignment;
  message : option string;
  solver_stats : option SolverStats
}.

Definition stats_of (r : SolverResponse) : SolverStats :=
  {| conflicts := NumConflicts r;
     branches := NumBranches r;
     wall_time := WallTime r |}.

(** The inner loop of [_extract_solution]: the first room whose variable
    reads 1. *)
Definition find_assigned_room (self : RoomOptimizer) (r : SolverResponse)
    (i : nat) : option Room :=
  snd <$> List.find (fun jr => Value r (i, fst jr)) (enumerate (rooms self)).

(** [min(student_count / capacity, 1.0) if capacity > 0 else 0] *)
Definition reported_capacity_fit (count cap : Z) : Q :=
  if (cap >? 0)%Z then py_min (inject_Z count / inject_Z cap) 1 else 0.

Definition reported_equipment (room : Room) : Q :=
  0.5 + (if get_hasAC room then 0.25 else 0)
      + (if get_hasHeater room then 0.25 else 0).

Definition extract_lesson_step (self : RoomOptimizer) (r : SolverResponse)
    (out : list Assignment) (il : nat * Lesson) : result (list Assignment) :=
  match find_assigned_room self r (fst il) with
  | Some room =>
      let fit := reported_capacity_fit (get_student_count (snd il)) (capacity room) in
      let equipment_score := reported_equipment room in
      do cw <- getitem (preferences self) "capacity_weight";
      do ew <- getitem (preferences self) "equipment_weight";
      do tw <- getitem (preferences self) "temperature_weight";
      Ok (out ++
          [{| lesson_of := snd il;
              assigned_room := room;
              scores :=
                {| capacity_fit := py_round3 fit;
                   equipment := py_round3 equipment_score;
                   temperature := 0.8;
                   overall :=
                     py_round3 (fit * cw + equipment_score * ew + 0.8 * tw) |} |}])
  | None => Ok out
  end.

Definition _extract_solution (self : RoomOptimizer) (r : SolverResponse)
  : result OptimizationResult :=
  do optimized_assignments <-
    foldM (extract_lesson_step self r) (enumerate (lessons self)) [];
  Ok {| result_status :=
          match status r with OPTIMAL => "optimal" | _ => "feasible" end;
        assignments := optimized_assignments;
        message := None;
        solver_stats := Some (stats_of r) |}.

Definition _format_empty_result : OptimizationResult :=
  {| result_status := "empty";
     assignments := [];
     message := Some "No lessons to optimize"%string;
     solver_stats := None |}.

Definition _format_infeasible_result (r : SolverResponse) : OptimizationResult :=
  {| result_status := "infeasible";
     assignments := [];
     message :=
       Some "No feasible room assignment found. Check constraints."%string;
     solver_stats := Some (stats_of r) |}.

(** ** [optimize] *)

(** The optimizer as it stands when the solver is called. *)
Definition prepare (E : World) (self : RoomOptimizer) : result RoomOptimizer :=
  do self1 <- _calculate_all_temperature_predictions E self;
  let self2 := _create_assignment_variables self1 in
  let self3 := _add_capacity_constraints self2 in
  do self4 <- _add_no_overlap_constraints E self3;
  do t1 <- _add_capacity_fit_objective self4;
  do t2 <- _add_equipment_objective E self4;
  do t3 <- _add_temperature_objective self4;
  Ok (set_model self4 (Maximize (model self4) (t1 ++ t2 ++ t3))).

Definition optimize (E : World) (self : RoomOptimizer)
  : result OptimizationResult :=
  match lessons self with
  | [] => Ok _format_empty_result
  | _ :: _ =>
      do ready <- prepare E self;
      let r := Solve E (model ready) in
      match status r with
      | OPTIMAL | FEASIBLE => _extract_solution ready r
      | _ => Ok (_format_infeasible_result r)
      end
  end.

(** ** Notions used to state the properties *)

(** The variables of lesson [i] whose room has at least [count] seats, and
    the constraints that [_add_capacity_constraints] adds for the lesson. *)
Definition valid_vars (i : nat) (count : Z) (jrs : list (nat * Room))
  : list BoolVar :=
  map (fun jr => (i, fst jr))
      (List.filter (fun jr => (capacity (snd jr) >=? count)%Z) jrs).

Definition invalid_vars (i : nat) (count : Z) (jrs : list (nat * Room))
  : list BoolVar :=
  map (fun jr => (i, fst jr))
      (List.filter (fun jr => negb (capacity (snd jr) >=? count)%Z) jrs).

Definition lesson_capacity_constraints (rs : list Room) (il : nat * Lesson)
  : list Constraint :=
  let count := get_student_count (snd il) in
  map EqZero (invalid_vars (fst il) count (enumerate rs))
  ++ match valid_vars (fst il) count (enumerate rs) with
     | [] => []
     | x :: xs => [ExactlyOne (x :: xs)]
     end.

(** Two optimizer states that differ at most in their model and in their
    predictions. *)
Definition same_inputs (s s' : RoomOptimizer) : Prop :=
  rooms s' = rooms s /\ lessons s' = lessons s /\
  preferences s' = preferences s /\
  seven_days_from_now s' = seven_days_from_now s.

(** The half-open intervals of two lessons overlap. *)
Definition overlapping (E : World) (l1 l2 : Lesson) : Prop :=
  exists s1 e1 s2 e2,
    lesson_interval E l1 = Ok (s1, e1) /\
    lesson_interval E l2 = Ok (s2, e2) /\
    dt_lt s1 e2 = Ok true /\ dt_lt s2 e1 = Ok true.

(** The datetime that [fromisoformat] reads once a trailing "Z" has been
    replaced, and the value that the prediction pass stores for a pair of a
    lesson within the horizon. *)
Definition start_datetime (lesson : Lesson) : datetime :=
  {| wall := iso_wall (start_time lesson);
     utcoffset :=
       match iso_tz (start_time lesson) with
       | NoTz => None
       | Zulu => Some 0%Z
       | UtcOffset m => Some m
       end |}.

Definition pair_forecast (E : World) (mdl : regression_model E) (i : nat)
    (lesson : Lesson) (j : nat) (room : Room) : Q :=
  match forecast_temperatures E mdl i lesson j room (start_datetime lesson) with
  | Ok (t :: ts) => average (t :: ts)
  | _ => 21
  end.

(** A solver is sound when the values it reports with the status OPTIMAL or
    FEASIBLE meet every constraint of the model. *)
Definition sound_solver (E : World) : Prop :=
  forall m,
    match status (Solve E m) with
    | OPTIMAL | FEASIBLE => satisfies (Value (Solve E m)) m
    | _ => True
    end.

(** ** Date utilities: [src/utils/date_utils.py]

    A datetime built from a date is written with [wall] counted in
    microseconds from midnight of the day of ordinal 0, so that the day of
    proleptic Gregorian ordinal [n] (1 for 0001-01-01, as [toordinal]
    counts) starts at [n * day_us]. *)

Definition day_us : Z := 86400 * 1000000.

(** [date.max.toordinal()], the ordinal of 9999-12-31 *)
Definition max_ordinal : Z := 3652059.

(** the largest magnitude of [timedelta(days=...)] *)
Definition max_timedelta_days : Z := 999999999.

(** The number of days before January 1st of [year], as the [datetime]
    module counts them. *)
Definition days_before_year (year : Z) : Z :=
  let y := (year - 1)%Z in
  (y * 365 + y / 4 - y / 100 + y / 400)%Z.

(** [datetime(year, 1, 1).toordinal()] *)
Definition ordinal_jan_first (year : Z) : Z := (days_before_year year + 1)%Z.

(** [d.toordinal()] and [d.weekday()] (Monday is 0) *)
Definition toordinal (d : datetime) : Z := (wall d / day_us)%Z.
Definition weekday (d : datetime) : Z := ((toordinal d + 6) mod 7)%Z.

Definition midnight_of_ordinal (n : Z) : datetime :=
  {| wall := (n * day_us)%Z; utcoffset := None |}.

Inductive date_exn : Type :=
| DateValueError        (* [ValueError]: year out of range *)
| DateOverflowError.    (* [OverflowError]: timedelta or result out of range *)

(** [d + timedelta(days=n)] on a naive datetime *)
Definition add_days (d : datetime) (n : Z) : date_exn + datetime :=
  if (Z.abs n >? max_timedelta_days)%Z then inl DateOverflowError
  else
    let ordinal := (toordinal d + n)%Z in
    if ((0 <? ordinal) && (ordinal <=? max_ordinal))%Z
    then inr {| wall := (wall d + n * day_us)%Z; utcoffset := utcoffset d |}
    else inl DateOverflowError.

Definition get_week_dates (year week_number : Z)
  : date_exn + (datetime * datetime) :=
  if ((1 <=? year) && (year <=? 9999))%Z then
    let jan_first := midnight_of_ordinal (ordinal_jan_first year) in
    let days_to_week := ((week_number - 1) * 7)%Z in
    match add_days jan_first (days_to_week - weekday jan_first) with
    | inl e => inl e
    | inr week_start =>
        match add_days week_start 6 with
        | inl e => inl e
        | inr week_end => inr (week_start, week_end)
        end
    end
  else inl DateValueError.

(** [d.replace(hour=0, minute=0, second=0, microsecond=0)] and
    [d.replace(hour=23, minute=59, second=59, microsecond=999999)] *)
Definition start_of_day (d : datetime) : datetime :=
  {| wall := (toordinal d * day_us)%Z; utcoffset := utcoffset d |}.

Definition end_of_day (d : datetime) : datetime :=
  {| wall := (toordinal d * day_us + (day_us - 1))%Z; utcoffset := utcoffset d |}.

Definition parse_date_range (E : World) (start_date_str end_date_str : iso_string)
  : result (datetime * datetime) :=
  do start_date <- fromisoformat E start_date_str;
  do end_date <- fromisoformat E end_date_str;
  Ok (start_of_day start_date, end_of_day end_date).

(** ** The planning route: [src/api/routes/optimization.py]

    The handler reads the JSON body of the request, asks the lesson and
    room services for the data, runs the optimizer and writes the rooms
    back.  The services talk to the database; they are parameters here,
    over an abstract database state.  A call that raises is [None]. *)

(** The value found under a date key of the body. *)
Inductive json_date : Type :=
| IsoText (s : iso_string)   (* a string that [fromisoformat] can read *)
| OtherText                  (* any other string: [ValueError] *)
| NotText.                   (* not a string: [TypeError] *)

Record RequestData : Type := {
  start_date_field : option json_date;
  end_date_field : option json_date;
  (* absent key, [null], or an object of weights *)
  preferences_field : option (option (gmap string Q))
}.

(** The columns of a lesson row and of a room row that reach the optimizer.
    Timestamps come out of the database as datetimes, naive or aware as the
    column is. *)
Record LessonRow : Type := {
  row_title : string;
  row_start_time : datetime;
  row_end_time : datetime;
  row_student_count : Z
}.

Record RoomRow : Type := {
  row_name : string;
  row_capacity : Z;
  ac_count : Z;
  heater_count : Z
}.

(** [d.isoformat()]: the offset is written as "+HH:MM", never as "Z". *)
Definition isoformat (d : datetime) : iso_string :=
  {| iso_wall := wall d;
     iso_tz := match utcoffset d with
               | None => NoTz
               | Some m => UtcOffset m
               end |}.

(** The dictionary that [LessonService.get_lessons_for_date_range] builds
    from a row, and the one that [RoomService.get_all_rooms] builds. *)
Definition lesson_of_row (row : LessonRow) : Lesson :=
  {| title := row_title row;
     start_time := isoformat (row_start_time row);
     end_time := isoformat (row_end_time row);
     student_count := Some (row_student_count row) |}.

Definition room_of_row (row : RoomRow) : Room :=
  {| room_name := row_name row;
     capacity := row_capacity row;
     hasAC := Some (ac_count row >? 0)%Z;
     hasHeater := Some (heater_count row >? 0)%Z |}.

Record Services (Db : Type) : Type := {
  (* the SELECT of [get_lessons_for_date_range] and of [get_all_rooms] *)
  query_lessons : Db -> datetime -> datetime -> option (list LessonRow);
  query_rooms : Db -> option (list RoomRow);
  (* [update_lesson_room]: the state after the call, and whether a row was
     updated *)
  update_lesson_room : Db -> Lesson -> Room -> Db * option bool
}.

Arguments query_lessons {Db} _ _ _ _.
Arguments query_rooms {Db} _ _.
Arguments update_lesson_room {Db} _ _ _ _.

Definition get_lessons_for_date_range {Db : Type} (svc : Services Db) (db : Db)
    (start_date end_date : datetime) : option (list Lesson) :=
  map lesson_of_row <$> query_lessons svc db start_date end_date.

Definition get_all_rooms {Db : Type} (svc : Services Db) (db : Db)
  : option (list Room) :=
  map room_of_row <$> query_rooms svc db.

Inductive ResponseBody : Type :=
| MissingFieldsBody
| ExceptionBody
| NoLessonsBody (range_start range_end : datetime)
| OptimizedBody (status_text : string) (lessonsOptimized totalLessons : nat)
                (solverStats : option SolverStats)
| FailedBody (status_text : string) (solverStats : option SolverStats).

Definition Response : Type := (ResponseBody * Z)%type.

Definition json_fromisoformat (E : World) (v : json_date) : result datetime :=
  match v with
  | IsoText s => fromisoformat E s
  | OtherText => Raise ValueError
  | NotText => Raise TypeError
  end.

(** [data.get("preferences", {})] *)
Definition get_preferences (data : RequestData) : option (gmap string Q) :=
  match preferences_field data with
  | None => Some ∅
  | Some v => v
  end.

(** The loop that writes the assigned rooms back, counting the updates that
    changed a row. *)
Fixpoint update_rooms {Db : Type} (svc : Services Db) (db : Db)
    (todo : list Assignment) (updated_count : nat) : Db * option nat :=
  match todo with
  | [] => (db, Some updated_count)
  | a :: rest =>
      match update_lesson_room svc db (lesson_of a) (assigned_room a) with
      | (db', Some true) => update_rooms svc db' rest (S updated_count)
      | (db', Some false) => update_rooms svc db' rest updated_count
      | (db', None) => (db', None)
      end
  end.

Definition is_success_status (s : string) : bool :=
  String.eqb s "optimal" || String.eqb s "feasible".

(** The body of the [try] block; [None] stands for an exception. *)
Definition planning_try {Db : Type} (E : World) (svc : Services Db) (db : Db)
    (request_json : option RequestData) : Db * option Response :=
  match request_json with
  | None => (db, None)
  | Some data =>
      match start_date_field data, end_date_field data with
      | Some sd, Some ed =>
          match json_fromisoformat E sd with
          | Raise _ => (db, None)
          | Ok start_date =>
              match json_fromisoformat E ed with
              | Raise _ => (db, None)
              | Ok end_date =>
                  let preferences0 := get_preferences data in
                  match get_lessons_for_date_range svc db start_date end_date with
                  | None => (db, None)
                  | Some [] => (db, Some (NoLessonsBody start_date end_date, 200%Z))
                  | Some (l :: ls) =>
                      match get_all_rooms svc db with
                      | None => (db, None)
                      | Some rooms0 =>
                          let optimizer :=
                            __init__ E rooms0 (l :: ls) preferences0 in
                          match optimize E optimizer with
                          | Raise _ => (db, None)
                          | Ok optimization_result =>
                              if is_success_status (result_status optimization_result)
                              then
                                match update_rooms svc db
                                        (assignments optimization_result) 0 with
                                | (db', Some updated_count) =>
                                    (db',
                                     Some (OptimizedBody
                                             (result_status optimization_result)
                                             updated_count
                                             (length (l :: ls))
                                             (solver_stats optimization_result),
                                           200%Z))
                                | (db', None) => (db', None)
                                end
                              else
                                (db,
                                 Some (FailedBody
                                         (result_status optimization_result)
                                         (solver_stats optimization_result),
                                       400%Z))
                          end
                      end
                  end
              end
          end
      | _, _ => (db, Some (MissingFieldsBody, 400%Z))
      end
  end.

(** [optimize_weekly_planning]: any exception becomes a 500 response. *)
Definition optimize_weekly_planning {Db : Type} (E : World) (svc : Services Db)
    (db : Db) (request_json : option RequestData) : Db * Response :=
  match planning_try E svc db request_json with
  | (db', Some response) => (db', response)
  | (db', None) => (db', (ExceptionBody, 500%Z))
  end.

(** ** Sensor data: [src/services/sensor_data_service.py]

    The queries are parameters; a query that raises is [None], a query that
    finds no row answers [Some None].  A value that is NULL in the database
    is [None] inside the row. *)

Inductive sensor_table : Type :=
| TemperatureTable
| HumidityTable
| PressureTable.

Record Reading : Type := {
  reading_data : option Q;
  saved_at : datetime
}.

Record HourAggregate : Type := {
  avg_temperature : option Q;
  min_temperature : option Q;
  max_temperature : option Q
}.

Record SensorDb : Type := {
  (* the latest row of a table for a room before an instant *)
  select_latest : sensor_table -> string -> datetime -> option (option Reading);
  (* the average outdoor temperature of a date *)
  select_weather : Z -> option (option (option Q));
  (* the aggregates of the temperature table over an hour *)
  select_hour_temperature :
    string -> datetime -> datetime -> option (option HourAggregate);
  (* the average of another table over an hour *)
  select_hour_average :
    sensor_table -> string -> datetime -> datetime -> option (option (option Q))
}.

Record LatestData : Type := {
  latest_temperature : option Q;
  latest_humidity : option Q;
  latest_airPressure : option Q;
  latest_temperature_outdoor : option Q;
  temperature_saved_at : option datetime;
  humidity_saved_at : option datetime;
  pressure_saved_at : option datetime
}.

Record HourData : Type := {
  hour_temperature : Q;
  hour_humidity : Q;
  hour_airPressure : Q;
  hour_min_temperature : option Q;
  hour_max_temperature : option Q
}.

(** The dictionary returned by the [except] branch. *)
Definition default_latest_data : LatestData :=
  {| latest_temperature := Some 21;
     latest_humidity := Some 50;
     latest_airPressure := Some 1013;
     latest_temperature_outdoor := Some 15;
     temperature_saved_at := None;
     humidity_saved_at := None;
     pressure_saved_at := None |}.

(** [row.data if row else default] *)
Definition data_or (row : option Reading) (default_value : Q) : option Q :=
  match row with
  | Some r => reading_data r
  | None => Some default_value
  end.

Definition get_latest_room_data (db : SensorDb) (now0 : datetime)
    (room_id : string) (before_datetime : option datetime) : LatestData :=
  let before := default now0 before_datetime in
  match select_latest db TemperatureTable room_id before with
  | None => default_latest_data
  | Some temp_result =>
      match select_latest db HumidityTable room_id before with
      | None => default_latest_data
      | Some humidity_result =>
          match select_latest db PressureTable room_id before with
          | None => default_latest_data
          | Some pressure_result =>
              match select_weather db (toordinal before) with
              | None => default_latest_data
              | Some weather_result =>
                  {| latest_temperature := data_or temp_result 21;
                     latest_humidity := data_or humidity_result 50;
                     latest_airPressure := data_or pressure_result 1013;
                     latest_temperature_outdoor :=
                       match weather_result with
                       | Some avg_temp => avg_temp
                       | None => Some 15
                       end;
                     temperature_saved_at := saved_at <$> temp_result;
                     humidity_saved_at := saved_at <$> humidity_result;
                     pressure_saved_at := saved_at <$> pressure_result |}
              end
          end
      end
  end.

(** A number counts as true unless it is zero; [None] counts as false. *)
Definition truthy (x : option Q) : option Q :=
  match x with
  | Some v => if Qeq_bool v 0 then None else Some v
  | None => None
  end.

Definition hour_us : Z := 3600 * 1000000.

(** [d.replace(minute=0, second=0, microsecond=0)] *)
Definition start_of_hour (d : datetime) : datetime :=
  {| wall := (wall d / hour_us * hour_us)%Z; utcoffset := utcoffset d |}.

(** [d + timedelta(hours=1)], which raises past the last representable
    instant *)
Definition add_hour (d : datetime) : date_exn + datetime :=
  if (wall d + hour_us <? (max_ordinal + 1) * day_us)%Z
  then inr {| wall := (wall d + hour_us)%Z; utcoffset := utcoffset d |}
  else inl DateOverflowError.

Definition get_room_data_for_hour (db : SensorDb) (now0 : datetime)
    (room_id : string) (target_datetime : datetime)
  : date_exn + (HourData + LatestData) :=
  let hour_start := start_of_hour target_datetime in
  match add_hour hour_start with
  | inl e => inl e
  | inr hour_end =>
      let fallback :=
        inr (inr (get_latest_room_data db now0 room_id (Some target_datetime))) in
      match select_hour_temperature db room_id hour_start hour_end with
      | None => fallback
      | Some temp_result =>
          match select_hour_average db HumidityTable room_id hour_start hour_end with
          | None => fallback
          | Some humidity_result =>
              match select_hour_average db PressureTable room_id
                      hour_start hour_end with
              | None => fallback
              | Some pressure_result =>
                  match temp_result with
                  | Some agg =>
                      match avg_temperature agg with
                      | Some avg =>
                          inr (inl
                            {| hour_temperature :=
                                 default 21 (truthy (Some avg));
                               hour_humidity :=
                                 default 50 (truthy (humidity_result ≫= id));
                               hour_airPressure :=
                                 default 1013 (truthy (pressure_result ≫= id));
                               hour_min_temperature :=
                                 truthy (min_temperature agg);
                               hour_max_temperature :=
                                 truthy (max_temperature agg) |})
                      | None =>
                          inr (inr (get_latest_room_data db now0 room_id
                                      (Some hour_start)))
                      end
                  | None =>
                      inr (inr (get_latest_room_data db now0 room_id
                                  (Some hour_start)))
                  end
              end
          end
      end
  end.

(** ** A small timetable, used to run the definitions *)

Definition hour : Z := 3600 * 1000000.

Definition ex_room_large : Room :=
  {| room_name := "A101"; capacity := 30;
     hasAC := Some true; hasHeater := Some false |}.

Definition ex_room_small : Room :=
  {| room_name := "B007"; capacity := 10;
     hasAC := None; hasHeater := Some true |}.

Definition ex_lesson_math : Lesson :=
  {| title := "Mathematics";
     start_time := {| iso_wall := 9 * hour; iso_tz := NoTz |};
     end_time := {| iso_wall := 10 * hour; iso_tz := NoTz |};
     student_count := Some 25%Z |}.

Definition ex_lesson_physics : Lesson :=
  {| title := "Physics";
     start_time := {| iso_wall := 9 * hour + hour / 2; iso_tz := NoTz |};
     end_time := {| iso_wall := 10 * hour + hour / 2; iso_tz := NoTz |};
     student_count := Some 8%Z |}.

Definition ex_lesson_assembly : Lesson :=
  {| title := "Assembly";
     start_time := {| iso_wall := 14 * hour; iso_tz := NoTz |};
     end_time := {| iso_wall := 15 * hour; iso_tz := NoTz |};
     student_count := Some 100%Z |}.

Definition ex_lesson_zulu : Lesson :=
  {| title := "Chemistry";
     start_time := {| iso_wall := 9 * hour; iso_tz := Zulu |};
     end_time := {| iso_wall := 10 * hour; iso_tz := Zulu |};
     student_count := Some 25%Z |}.

Definition ex_rooms : list Room := [ex_room_large; ex_room_small].

Definition ex_lessons : list Lesson :=
  [ex_lesson_math; ex_lesson_physics; ex_lesson_assembly].

(** Mathematics in the large room, Physics in the small one. *)
Definition ex_values (x : BoolVar) : bool :=
  match x with
  | (0, 0)%nat => true
  | (1, 1)%nat => true
  | _ => false
  end.

(** A solver that proposes fixed values and reports them only when they
    meet every constraint of the model. *)
Definition checking_solver (values : BoolVar -> bool) (m : CpModel)
  : SolverResponse :=
  {| status := if satisfiesb values m then OPTIMAL else INFEASIBLE;
     Value := values;
     NumConflicts := 0;
     NumBranches := 0;
     WallTime := 0 |}.

Definition ex_world (loaded : bool) (zulu : bool) : World :=
  {| now := 0;
     accepts_zulu := zulu;
     regression_model := unit;
     joblib_load := if loaded then Some tt else None;
     forecast_temperatures :=
       fun _ i _ _ _ _ =>
         if Nat.eqb i 0 then Ok [20; 23] else Raise ValueError;
     Solve := checking_solver ex_values |}.

Definition ex_optimizer : RoomOptimizer :=
  __init__ (ex_world true true) ex_rooms ex_lessons None.

Definition ex_ready : RoomOptimizer :=
  match prepare (ex_world true true) ex_optimizer with
  | Ok ready => ready
  | Raise _ => ex_optimizer
  end.

Definition ex_response : SolverResponse :=
  Solve (ex_world true true) (model ex_ready).

Definition ex_partial_preferences : gmap string Q :=
  <["capacity_weight"%string := 0.7]> ∅.

Definition ex_predicted : RoomOptimizer :=
  match _calculate_all_temperature_predictions (ex_world true true) ex_optimizer with
  | Ok s => s
  | Raise _ => ex_optimizer
  end.

Definition ex_result : OptimizationResult :=
  match _extract_solution ex_ready ex_response with
  | Ok res => res
  | Raise _ => _format_empty_result
  end.

(** ** Further examples *)

(** One room for two overlapping lessons. *)
Definition ex_single_room_optimizer : RoomOptimizer :=
  __init__ (ex_world true true) [ex_room_large]
    [ex_lesson_math; ex_lesson_physics] None.

Definition ex_single_room_ready : RoomOptimizer :=
  match prepare (ex_world true true) ex_single_room_optimizer with
  | Ok ready => ready
  | Raise _ => ex_single_room_optimizer
  end.

Definition ex_overlap_checked : RoomOptimizer :=
  match _add_no_overlap_constraints (ex_world true true) ex_optimizer with
  | Ok s => s
  | Raise _ => ex_optimizer
  end.

Definition ex_ready_no_model : RoomOptimizer :=
  match prepare (ex_world false true)
          (__init__ (ex_world false true) ex_rooms ex_lessons None) with
  | Ok ready => ready
  | Raise _ => ex_optimizer
  end.

Definition ex_optimized : OptimizationResult :=
  match optimize (ex_world true true) ex_optimizer with
  | Ok res => res
  | Raise _ => _format_empty_result
  end.

(** 2024-03-04, the Monday of week 10 of 2024, and the Sunday after it. *)
Definition ex_week_start : datetime := midnight_of_ordinal 738949.
Definition ex_week_end : datetime := midnight_of_ordinal 738955.

(** The database rows behind the example timetable, and services that
    count the rooms they write back. *)
Definition ex_row_math : LessonRow :=
  {| row_title := "Mathematics";
     row_start_time := {| wall := 9 * hour; utcoffset := None |};
     row_end_time := {| wall := 10 * hour; utcoffset := None |};
     row_student_count := 25 |}.

Definition ex_row_physics : LessonRow :=
  {| row_title := "Physics";
     row_start_time := {| wall := 9 * hour + hour / 2; utcoffset := None |};
     row_end_time := {| wall := 10 * hour + hour / 2; utcoffset := None |};
     row_student_count := 8 |}.

Definition ex_row_aware : LessonRow :=
  {| row_title := "Chemistry";
     row_start_time := {| wall := 9 * hour; utcoffset := Some 0%Z |};
     row_end_time := {| wall := 10 * hour; utcoffset := Some 0%Z |};
     row_student_count := 25 |}.

Definition ex_room_rows : list RoomRow :=
  [{| row_name := "A101"; row_capacity := 30; ac_count := 1; heater_count := 0 |};
   {| row_name := "B007"; row_capacity := 10; ac_count := 0; heater_count := 2 |}].

Definition ex_services (rows : list LessonRow) : Services nat :=
  {| query_lessons := fun _ _ _ => Some rows;
     query_rooms := fun _ => Some ex_room_rows;
     update_lesson_room := fun written _ _ => (S written, Some true) |}.

Definition ex_request : RequestData :=
  {| start_date_field := Some (IsoText {| iso_wall := 0; iso_tz := NoTz |});
     end_date_field := Some (IsoText {| iso_wall := 7 * day_us; iso_tz := NoTz |});
     preferences_field := None |}.

(** A sensor database with one temperature reading of 0 degrees in the
    hour, and no humidity or pressure reading. *)
Definition ex_sensor_db : SensorDb :=
  {| select_latest := fun _ _ _ => Some None;
     select_weather := fun _ => None;
     select_hour_temperature :=
       fun _ _ _ =>
         Some (Some {| avg_temperature := Some 0;
                       min_temperature := Some 0;
                       max_temperature := Some 0 |});
     select_hour_average := fun _ _ _ _ => Some (Some None) |}.

Definition ex_instant : datetime :=
  {| wall := 738949 * day_us + 10 * hour + hour / 4; utcoffset := None |}.

(** * Properties *)

(** ** Loops and enumeration *)

Lemma in_enumerate_from {A : Type} (l : list A) (n i : nat) (x : A) :
  In (i, x) (enumerate_from n l) <-> (n <= i)%nat /\ l !! (i - n)%nat = Some x.
Proof.
  revert n. induction l as [|y l IH]; intros n; simpl.
  - split; [tauto | intros [_ H]; discriminate].
  - split.
    + intros [H | H].
      * inversion H; subst. split; [lia |].
        now rewrite Nat.sub_diag.
      * apply IH in H as [H1 H2]. split; [lia |].
        replace (i - n)%nat with (S (i - S n)) by lia. exact H2.
    + intros [Hle Hl]. destruct (Nat.eq_dec i n) as [-> | Hne].
      * left. rewrite Nat.sub_diag in Hl. simpl in Hl. congruence.
      * right. apply IH. split; [lia |].
        replace (i - n)%nat with (S (i - S n)) in Hl by lia. exact Hl.
Qed.

Lemma in_enumerate {A : Type} (l : list A) (i : nat) (x : A) :
  In (i, x) (enumerate l) <-> l !! i = Some x.
Proof.
  unfold enumerate. rewrite in_enumerate_from, Nat.sub_0_r.
  split; [tauto | intros H; split; [lia | exact H]].
Qed.

(** A loop that only appends to its accumulator. *)
Lemma foldM_append {A T : Type} (f : list T -> A -> result (list T))
    (g : A -> list T) (l : list A) :
  (forall acc x, In x l -> f acc x = Ok (acc ++ g x)) ->
  forall acc, foldM f l acc = Ok (acc ++ flat_map g l).
Proof.
  induction l as [|x l IH]; intros Hf acc; simpl.
  - now rewrite app_nil_r.
  - rewrite Hf by (now left).
    rewrite IH by (intros; apply Hf; now right).
    now rewrite <- app_assoc.
Qed.

(** A property of the loop state that every iteration keeps and that the
    iteration at [x] sets up holds when the loop ends. *)
Lemma foldM_establish {A B : Type} (P : B -> Prop) (f : B -> A -> result B)
    (l : list A) (x : A) :
  (forall b y b', f b y = Ok b' -> P b -> P b') ->
  (forall b b', f b x = Ok b' -> P b') ->
  In x l ->
  forall b b', foldM f l b = Ok b' -> P b'.
Proof.
  intros Hkeep Hset. induction l as [|y l IH]; intros Hin b b' Hrun.
  - destruct Hin.
  - simpl in Hrun. destruct (f b y) as [b1|e] eqn:Hstep; [|discriminate].
    destruct Hin as [-> | Hin].
    + clear IH. apply Hset in Hstep. revert b1 Hstep Hrun.
      induction l as [|z l IHl]; intros b1 Hb1 Hrun; simpl in Hrun.
      * now inversion Hrun; subst.
      * destruct (f b1 z) as [b2|e] eqn:Hz; [|discriminate].
        eapply IHl; [|exact Hrun]. eapply Hkeep; eauto.
    + eapply IH; eauto.
Qed.

Lemma foldM_keep {A B : Type} (P : B -> Prop) (f : B -> A -> result B)
    (l : list A) :
  (forall b y b', f b y = Ok b' -> P b -> P b') ->
  forall b b', foldM f l b = Ok b' -> P b -> P b'.
Proof.
  intros Hkeep. induction l as [|y l IH]; intros b b' Hrun Hb; simpl in Hrun.
  - now inversion Hrun; subst.
  - destruct (f b y) as [b1|e] eqn:Hstep; [|discriminate].
    eapply IH; eauto.
Qed.

(** ** Numbers *)

Lemma Qlt_bool_iff (x y : Q) : Qlt_bool x y = true <-> x < y.
Proof.
  unfold Qlt_bool. rewrite negb_true_iff.
  split.
  - intros H. apply Qnot_le_lt. intros Hle.
    apply Qle_bool_iff in Hle. congruence.
  - intros H. destruct (Qle_bool y x) eqn:Hb; [|reflexivity].
    apply Qle_bool_iff in Hb. lra.
Qed.

Lemma Qlt_bool_false_iff (x y : Q) : Qlt_bool x y = false <-> y <= x.
Proof.
  unfold Qlt_bool. rewrite negb_false_iff. apply Qle_bool_iff.
Qed.

Lemma Qle_bool_false_iff (x y : Q) : Qle_bool x y = false <-> y < x.
Proof.
  rewrite <- Qlt_bool_iff. unfold Qlt_bool.
  destruct (Qle_bool x y); simpl; intuition congruence.
Qed.


Lemma py_max_0_nonneg (x : Q) : 0 <= py_max 0 x.
Proof.
  unfold py_max. destruct (Qlt_bool 0 x) eqn:H.
  - apply Qlt_bool_iff in H. lra.
  - lra.
Qed.



Lemma temp_score_nonneg (p : Q) : 0 <= temp_score p.
Proof.
  unfold temp_score.
  repeat match goal with
         | |- context [if ?b then _ else _] => destruct b
         end; try lra.
  apply py_max_0_nonneg.
Qed.

Ltac qbool :=
  repeat match goal with
    | H : Qle_bool _ _ = true |- _ => apply Qle_bool_iff in H
    | H : Qle_bool _ _ = false |- _ => apply Qle_bool_false_iff in H
    | H : Qlt_bool _ _ = true |- _ => apply Qlt_bool_iff in H
    | H : Qlt_bool _ _ = false |- _ => apply Qlt_bool_false_iff in H
    end.

(** Case analysis on one comparison at a time, dropping the cases that the
    facts at hand exclude. *)
Ltac qstep :=
  match goal with
  | |- context [Qle_bool ?a ?b] =>
      destruct (Qle_bool a b) eqn:?; qbool; try (exfalso; lra); cbn [andb]
  | |- context [Qlt_bool ?a ?b] =>
      destruct (Qlt_bool a b) eqn:?; qbool; try (exfalso; lra); cbn [andb]
  end.


(** ** Objective terms, pair by pair *)

Lemma foldM_append_ok {A T : Type} (f : list T -> A -> result (list T))
    (g : A -> list T) (l : list A) :
  (forall acc x r, In x l -> f acc x = Ok r -> r = acc ++ g x) ->
  forall acc r, foldM f l acc = Ok r -> r = acc ++ flat_map g l.
Proof.
  induction l as [|x l IH]; intros Hf acc r Hrun; simpl in Hrun |- *.
  - inversion Hrun. now rewrite app_nil_r.
  - destruct (f acc x) as [r1|e] eqn:Hstep; [|discriminate].
    apply Hf in Hstep; [|now left]. subst r1.
    apply IH in Hrun; [|intros; eapply Hf; eauto; now right].
    now rewrite Hrun, <- app_assoc.
Qed.

Lemma in_pairs {A B T : Type} (la : list A) (lb : list B)
    (g : nat -> A -> nat -> B -> list T) (t : T) :
  In t (flat_map
          (fun il => flat_map (fun jr => g (fst il) (snd il) (fst jr) (snd jr))
                              (enumerate lb))
          (enumerate la))
  <-> exists i a j b, la !! i = Some a /\ lb !! j = Some b /\ In t (g i a j b).
Proof.
  rewrite in_flat_map. split.
  - intros [[i a] [Hi Ht]]. apply in_flat_map in Ht as [[j b] [Hj Ht]].
    apply in_enumerate in Hi. apply in_enumerate in Hj.
    exists i, a, j, b. auto.
  - intros (i & a & j & b & Hi & Hj & Ht).
    exists (i, a). split; [now apply in_enumerate |].
    apply in_flat_map. exists (j, b). split; [now apply in_enumerate | exact Ht].
Qed.

Lemma getitem_Some (d : gmap string Q) (key : string) (w : Q) :
  d !! key = Some w -> getitem d key = Ok w.
Proof. intros H. unfold getitem. now rewrite H. Qed.

Lemma temperature_objective_closed (self : RoomOptimizer) (w : Q) :
  preferences self !! "temperature_weight"%string = Some w ->
  _add_temperature_objective self =
  Ok (flat_map
        (fun il =>
           flat_map
             (fun jr =>
                [{| coef := py_int (temp_score (get_prediction self (fst il) (fst jr)) * w);
                    tvar := (fst il, fst jr) |}])
             (enumerate (rooms self)))
        (enumerate (lessons self))).
Proof.
  intros Hw. unfold _add_temperature_objective.
  rewrite foldM_append with (g := fun il =>
    flat_map (fun jr =>
      [{| coef := py_int (temp_score (get_prediction self (fst il) (fst jr)) * w);
          tvar := (fst il, fst jr) |}]) (enumerate (rooms self))).
  - reflexivity.
  - intros acc il _. apply foldM_append. intros acc' jr _.
    unfold temperature_room_step. now rewrite (getitem_Some _ _ _ Hw).
Qed.




Lemma capacity_ratio_nonneg (count cap : Z) :
  (0 <= count)%Z -> 0 <= capacity_ratio count cap.
Proof.
  intros Hc. unfold capacity_ratio. destruct (cap >? 0)%Z eqn:Hcap; [|lra].
  apply Z.gtb_lt in Hcap. unfold Qdiv.
  apply Qmult_le_0_compat.
  - unfold Qle. simpl. lia.
  - apply Qinv_le_0_compat. unfold Qle. simpl. lia.
Qed.

Lemma capacity_fit_objective_closed (self : RoomOptimizer) (w : Q) :
  preferences self !! "capacity_weight"%string = Some w ->
  _add_capacity_fit_objective self =
  Ok (flat_map
        (fun il =>
           flat_map
             (fun jr =>
                if (capacity (snd jr) >=? get_student_count (snd il))%Z
                then [{| coef :=
                           py_int (capacity_ratio (get_student_count (snd il))
                                                  (capacity (snd jr)) * 100 * w);
                         tvar := (fst il, fst jr) |}]
                else [])
             (enumerate (rooms self)))
        (enumerate (lessons self))).
Proof.
  intros Hw. unfold _add_capacity_fit_objective.
  rewrite foldM_append with (g := fun il =>
    flat_map (fun jr =>
      if (capacity (snd jr) >=? get_student_count (snd il))%Z
      then [{| coef :=
                 py_int (capacity_ratio (get_student_count (snd il))
                                        (capacity (snd jr)) * 100 * w);
               tvar := (fst il, fst jr) |}]
      else []) (enumerate (rooms self))).
  - reflexivity.
  - intros acc il _. apply foldM_append. intros acc' jr _.
    unfold capacity_fit_room_step.
    destruct (capacity (snd jr) >=? get_student_count (snd il))%Z.
    + now rewrite (getitem_Some _ _ _ Hw).
    + now rewrite app_nil_r.
Qed.


Lemma foldM_step_ok {A B : Type} (f : B -> A -> result B) (l : list A) (x : A) :
  In x l ->
  forall b r, foldM f l b = Ok r -> exists b1 r1, f b1 x = Ok r1.
Proof.
  induction l as [|y l IH]; intros Hin b r Hrun; [destruct Hin |].
  simpl in Hrun. destruct (f b y) as [b1|e] eqn:Hstep; [|discriminate].
  destruct Hin as [-> | Hin]; eauto.
Qed.

Lemma static_equipment_score_nonneg (room : Room) :
  (0 <= static_equipment_score room)%Z.
Proof.
  unfold static_equipment_score.
  destruct (get_hasAC room), (get_hasHeater room); lia.
Qed.

Lemma forecast_equipment_score_nonneg (room : Room) (p : Q) :
  (0 <= forecast_equipment_score room p)%Z.
Proof.
  unfold forecast_equipment_score.
  repeat match goal with
         | |- context [if ?b then _ else _] => destruct b
         end; lia.
Qed.

(** The terms that the equipment loop adds for one pair. *)
Lemma equipment_objective_ok (E : World) (self : RoomOptimizer) (w : Q)
    (terms : list Term) :
  preferences self !! "equipment_weight"%string = Some w ->
  _add_equipment_objective E self = Ok terms ->
  terms =
  flat_map
    (fun il =>
       flat_map
         (fun jr =>
            match fromisoformat E (replace_Z (start_time (snd il))) with
            | Ok dt =>
                match dt_gt dt (seven_days_from_now self) with
                | Ok beyond =>
                    [{| coef :=
                          py_int
                            (inject_Z
                               (if beyond then static_equipment_score (snd jr)
                                else forecast_equipment_score (snd jr)
                                       (get_prediction self (fst il) (fst jr)))
                             * w);
                        tvar := (fst il, fst jr) |}]
                | Raise _ => []
                end
            | Raise _ => []
            end)
         (enumerate (rooms self)))
    (enumerate (lessons self)).
Proof.
  intros Hw Hrun. unfold _add_equipment_objective in Hrun.
  eapply foldM_append_ok in Hrun; [exact Hrun |].
  intros acc il r _ Hstep. cbv beta in Hstep.
  destruct (fromisoformat E (replace_Z (start_time (snd il)))) as [dt|e] eqn:Hdt;
    [|discriminate].
  simpl in Hstep.
  eapply foldM_append_ok in Hstep; [exact Hstep |].
  intros acc' jr r' _ Hroom. unfold equipment_room_step in Hroom.
  cbv beta. rewrite Hdt.
  destruct (dt_gt dt (seven_days_from_now self)) as [beyond|e]; [|discriminate].
  simpl in Hroom. rewrite (getitem_Some _ _ _ Hw) in Hroom. simpl in Hroom.
  now inversion Hroom.
Qed.

Lemma equipment_objective_steps (E : World) (self : RoomOptimizer)
    (terms : list Term) (i j : nat) (lesson : Lesson) (room : Room) :
  _add_equipment_objective E self = Ok terms ->
  lessons self !! i = Some lesson -> rooms self !! j = Some room ->
  exists dt beyond,
    fromisoformat E (replace_Z (start_time lesson)) = Ok dt /\
    dt_gt dt (seven_days_from_now self) = Ok beyond.
Proof.
  intros Hrun Hi Hj. unfold _add_equipment_objective in Hrun.
  apply (foldM_step_ok _ _ (i, lesson)) in Hrun as (acc & r & Hstep);
    [| now apply in_enumerate].
  cbv beta in Hstep. simpl in Hstep.
  destruct (fromisoformat E (replace_Z (start_time lesson))) as [dt|e] eqn:Hdt;
    [|discriminate].
  simpl in Hstep.
  apply (foldM_step_ok _ _ (j, room)) in Hstep as (acc' & r' & Hroom);
    [| now apply in_enumerate].
  unfold equipment_room_step in Hroom.
  destruct (dt_gt dt (seven_days_from_now self)) as [beyond|e] eqn:Hb;
    [|discriminate].
  exists dt, beyond. split; [reflexivity | exact Hb].
Qed.



(** ** Capacity constraints *)

Lemma capacity_room_loop (i : nat) (count : Z) (jrs : list (nat * Room)) :
  forall vs m,
    fst (fold_left (capacity_room_step i count) jrs (vs, m))
    = vs ++ valid_vars i count jrs /\
    constraints (snd (fold_left (capacity_room_step i count) jrs (vs, m)))
    = constraints m ++ map EqZero (invalid_vars i count jrs).
Proof.
  unfold valid_vars, invalid_vars.
  induction jrs as [|jr jrs IH]; intros vs m; simpl.
  - now rewrite !app_nil_r.
  - unfold capacity_room_step at 2 4.
    destruct (capacity (snd jr) >=? count)%Z; simpl.
    + destruct (IH (vs ++ [(i, fst jr)]) m) as [-> ->].
      now rewrite <- app_assoc.
    + destruct (IH vs (Add m (EqZero (i, fst jr)))) as [-> ->].
      simpl. now rewrite <- app_assoc.
Qed.

Lemma capacity_lesson_step_constraints (rs : list Room) (m : CpModel)
    (il : nat * Lesson) :
  constraints (capacity_lesson_step rs m il)
  = constraints m ++ lesson_capacity_constraints rs il.
Proof.
  unfold capacity_lesson_step, lesson_capacity_constraints.
  destruct (capacity_room_loop (fst il) (get_student_count (snd il))
              (enumerate rs) [] m) as [Hv Hc].
  simpl in Hv. rewrite Hv.
  destruct (valid_vars (fst il) (get_student_count (snd il)) (enumerate rs));
    simpl; rewrite Hc.
  - now rewrite app_nil_r.
  - now rewrite <- app_assoc.
Qed.

Lemma capacity_constraints_closed (self : RoomOptimizer) :
  constraints (model (_add_capacity_constraints self))
  = constraints (model self)
    ++ flat_map (lesson_capacity_constraints (rooms self))
                (enumerate (lessons self)).
Proof.
  unfold _add_capacity_constraints. simpl.
  generalize (model self) as m. generalize (enumerate (lessons self)) as ils.
  induction ils as [|il ils IH]; intros m; simpl.
  - now rewrite app_nil_r.
  - rewrite IH, capacity_lesson_step_constraints. now rewrite <- app_assoc.
Qed.

Lemma in_valid_vars (i : nat) (count : Z) (rs : list Room) (x : BoolVar) :
  In x (valid_vars i count (enumerate rs)) <->
  exists j room, x = (i, j) /\ rs !! j = Some room /\ (capacity room >= count)%Z.
Proof.
  unfold valid_vars. rewrite in_map_iff. split.
  - intros ([j room] & <- & Hin). apply filter_In in Hin as [Hin Hv].
    apply in_enumerate in Hin. apply Z.geb_le in Hv. simpl in Hv.
    exists j, room. simpl. repeat split; auto. lia.
  - intros (j & room & -> & Hj & Hv). exists (j, room). split; [reflexivity |].
    apply filter_In. split; [now apply in_enumerate |].
    simpl. apply Z.geb_le. lia.
Qed.

Lemma in_invalid_vars (i : nat) (count : Z) (rs : list Room) (x : BoolVar) :
  In x (invalid_vars i count (enumerate rs)) <->
  exists j room, x = (i, j) /\ rs !! j = Some room /\ (capacity room < count)%Z.
Proof.
  unfold invalid_vars. rewrite in_map_iff. split.
  - intros ([j room] & <- & Hin). apply filter_In in Hin as [Hin Hv].
    apply in_enumerate in Hin. apply negb_true_iff in Hv.
    simpl in Hv. rewrite Z.geb_leb in Hv. apply Z.leb_gt in Hv.
    exists j, room. simpl. repeat split; auto.
  - intros (j & room & -> & Hj & Hv). exists (j, room). split; [reflexivity |].
    apply filter_In. split; [now apply in_enumerate |].
    simpl. apply negb_true_iff. rewrite Z.geb_leb. apply Z.leb_gt. lia.
Qed.

Lemma valid_vars_NoDup (i : nat) (count : Z) (rs : list Room) :
  List.NoDup (valid_vars i count (enumerate rs)).
Proof.
  unfold valid_vars, enumerate. generalize 0%nat as n.
  induction rs as [|room rs IH]; intros n; simpl; [constructor |].
  destruct (capacity room >=? count)%Z; simpl; [| apply IH].
  constructor; [| apply IH].
  rewrite in_map_iff. intros ([j room'] & Heq & Hin).
  apply filter_In in Hin as [Hin _]. apply in_enumerate_from in Hin as [Hle _].
  simpl in Heq. inversion Heq. lia.
Qed.

Lemma exactly_one_unique {A : Type} (f : A -> bool) (l : list A) :
  List.NoDup l -> length (List.filter f l) = 1%nat ->
  exists x, In x l /\ f x = true /\
            forall y, In y l -> f y = true -> y = x.
Proof.
  induction l as [|a l IH]; intros Hnd Hlen; simpl in Hlen; [discriminate |].
  inversion Hnd as [|? ? Hnotin Hnd']; subst.
  destruct (f a) eqn:Hfa.
  - simpl in Hlen. exists a. split; [now left |]. split; [exact Hfa |].
    intros y [-> | Hy] Hfy; [reflexivity |].
    assert (Hin : In y (List.filter f l)) by (apply filter_In; auto).
    destruct (List.filter f l); [destruct Hin | discriminate].
  - destruct (IH Hnd' Hlen) as (x & Hx & Hfx & Huniq).
    exists x. split; [now right |]. split; [exact Hfx |].
    intros y [-> | Hy] Hfy; [congruence | auto].
Qed.

Lemma find_all_false {A : Type} (f : A -> bool) (l : list A) :
  (forall x, In x l -> f x = false) -> List.find f l = None.
Proof.
  induction l as [|a l IH]; intros H; simpl; [reflexivity |].
  rewrite (H a) by (now left). apply IH. intros x Hx. apply H. now right.
Qed.

(** ** What each step of [optimize] leaves untouched *)

Lemma fold_left_keep {A B : Type} (P : B -> Prop) (f : B -> A -> B) (l : list A) :
  (forall b x, P b -> P (f b x)) -> forall b, P b -> P (fold_left f l b).
Proof.
  intros Hf. induction l as [|x l IH]; intros b Hb; simpl; auto.
Qed.

Lemma same_inputs_refl (s : RoomOptimizer) : same_inputs s s.
Proof. now repeat split. Qed.

Lemma same_inputs_trans (s1 s2 s3 : RoomOptimizer) :
  same_inputs s1 s2 -> same_inputs s2 s3 -> same_inputs s1 s3.
Proof.
  unfold same_inputs. intros (-> & -> & -> & ->) (-> & -> & -> & ->).
  now repeat split.
Qed.

Lemma predictions_keep_inputs (E : World) (self s1 : RoomOptimizer) :
  _calculate_all_temperature_predictions E self = Ok s1 ->
  same_inputs self s1 /\ model s1 = model self.
Proof.
  unfold _calculate_all_temperature_predictions.
  destruct (joblib_load E) as [mdl|].
  - intros Hrun.
    apply (foldM_keep (fun s => same_inputs self s /\ model s = model self))
      in Hrun; [exact Hrun | | split; [apply same_inputs_refl | reflexivity]].
    intros b il b' Hstep Hb. unfold predict_lesson_step in Hstep.
    destruct (fromisoformat E (replace_Z (start_time (snd il)))) as [dt|e];
      [|discriminate].
    simpl in Hstep.
    destruct (dt_gt dt (seven_days_from_now b)) as [beyond|e]; [|discriminate].
    simpl in Hstep.
    destruct beyond; inversion Hstep; subst b'; clear Hstep;
      apply fold_left_keep; try exact Hb.
    + intros s j Hs. exact Hs.
    + intros s jr Hs. unfold predict_room_step.
      destruct (forecast_temperatures E mdl (fst il) (snd il) (fst jr) (snd jr) dt)
        as [[|t ts]|e]; exact Hs.
  - intros Hrun. inversion Hrun. split; [apply same_inputs_refl | reflexivity].
Qed.

Lemma create_variables_keeps (self : RoomOptimizer) :
  same_inputs self (_create_assignment_variables self) /\
  constraints (model (_create_assignment_variables self))
  = constraints (model self).
Proof.
  split; [now repeat split |].
  unfold _create_assignment_variables. simpl.
  apply (fold_left_keep (fun m => constraints m = constraints (model self)));
    [| reflexivity].
  intros m il Hm.
  apply (fold_left_keep (fun m => constraints m = constraints (model self)));
    [| exact Hm].
  intros m' jr Hm'. exact Hm'.
Qed.

(** ** No-overlap constraints *)

Lemma mapM_lookup {A B : Type} (f : A -> result B) (l : list A) (ys : list B) :
  mapM f l = Ok ys ->
  forall i x, l !! i = Some x -> exists y, ys !! i = Some y /\ f x = Ok y.
Proof.
  revert ys. induction l as [|a l IH]; intros ys Hrun i x Hi; [discriminate |].
  simpl in Hrun. destruct (f a) as [y|e] eqn:Hfa; [|discriminate].
  simpl in Hrun. destruct (mapM f l) as [ys'|e]; [|discriminate].
  simpl in Hrun. inversion Hrun; subst ys.
  destruct i as [|i]; simpl in Hi |- *.
  - inversion Hi; subst. eauto.
  - eapply IH; eauto.
Qed.

Lemma overlap_pair_step_grows (j : nat) (a b : nat * (datetime * datetime))
    (m m' : CpModel) (c : Constraint) :
  overlap_pair_step j a m b = Ok m' ->
  In c (constraints m) -> In c (constraints m').
Proof.
  unfold overlap_pair_step. intros Hstep Hc.
  destruct (fst a <? fst b)%nat; [| now inversion Hstep; subst].
  destruct (dt_lt (fst (snd a)) (snd (snd b))) as [[|]|e]; simpl in Hstep;
    try discriminate; [| now inversion Hstep; subst].
  destruct (dt_lt (fst (snd b)) (snd (snd a))) as [[|]|e]; simpl in Hstep;
    try discriminate; inversion Hstep; subst; [| exact Hc].
  simpl. apply in_or_app. now left.
Qed.

Lemma overlap_room_step_grows (intervals : list (datetime * datetime))
    (jr : nat * Room) (m m' : CpModel) (c : Constraint) :
  overlap_room_step intervals m jr = Ok m' ->
  In c (constraints m) -> In c (constraints m').
Proof.
  unfold overlap_room_step. intros Hrun Hc.
  eapply (foldM_keep (fun m => In c (constraints m))); [| exact Hrun | exact Hc].
  intros b a b' Hinner Hb.
  eapply (foldM_keep (fun m => In c (constraints m))); [| exact Hinner | exact Hb].
  intros b1 x b1' Hstep. eapply overlap_pair_step_grows; eauto.
Qed.

Lemma no_overlap_keeps (E : World) (self s' : RoomOptimizer) :
  _add_no_overlap_constraints E self = Ok s' ->
  same_inputs self s' /\
  temperature_predictions s' = temperature_predictions self /\
  forall c, In c (constraints (model self)) -> In c (constraints (model s')).
Proof.
  unfold _add_no_overlap_constraints. intros Hrun.
  destruct (mapM (lesson_interval E) (lessons self)) as [ivs|e]; [|discriminate].
  simpl in Hrun.
  destruct (foldM (overlap_room_step ivs) (enumerate (rooms self)) (model self))
    as [m|e] eqn:Hm; [|discriminate].
  simpl in Hrun. inversion Hrun; subst s'; clear Hrun.
  split; [now repeat split |]. split; [reflexivity |].
  intros c Hc. simpl.
  apply (foldM_keep (fun m => In c (constraints m))) in Hm; [exact Hm | | exact Hc].
  intros b jr b' Hstep. eapply overlap_room_step_grows; eauto.
Qed.

Lemma no_overlap_added (E : World) (self s' : RoomOptimizer)
    (j i1 i2 : nat) (room : Room) (l1 l2 : Lesson) :
  _add_no_overlap_constraints E self = Ok s' ->
  rooms self !! j = Some room ->
  lessons self !! i1 = Some l1 -> lessons self !! i2 = Some l2 ->
  (i1 < i2)%nat ->
  overlapping E l1 l2 ->
  In (SumAtMostOne (i1, j) (i2, j)) (constraints (model s')).
Proof.
  unfold _add_no_overlap_constraints.
  intros Hrun Hj Hi1 Hi2 Hlt (s1 & e1 & s2 & e2 & Hl1 & Hl2 & Hc1 & Hc2).
  destruct (mapM (lesson_interval E) (lessons self)) as [ivs|e] eqn:Hivs;
    [|discriminate].
  simpl in Hrun.
  destruct (foldM (overlap_room_step ivs) (enumerate (rooms self)) (model self))
    as [m|e] eqn:Hm; [|discriminate].
  simpl in Hrun. inversion Hrun; subst s'; clear Hrun. simpl.
  destruct (mapM_lookup _ _ _ Hivs i1 l1 Hi1) as (iv1 & Hiv1 & Heq1).
  destruct (mapM_lookup _ _ _ Hivs i2 l2 Hi2) as (iv2 & Hiv2 & Heq2).
  assert (iv1 = (s1, e1)) by congruence. subst iv1.
  assert (iv2 = (s2, e2)) by congruence. subst iv2.
  set (c := SumAtMostOne (i1, j) (i2, j)).
  apply (foldM_establish (fun m => In c (constraints m)) _ _ (j, room)) in Hm;
    [exact Hm | | | now apply in_enumerate].
  - intros b jr b' Hstep. eapply overlap_room_step_grows; eauto.
  - intros b b' Hroom. unfold overlap_room_step in Hroom.
    apply (foldM_establish (fun m => In c (constraints m)) _ _ (i1, (s1, e1)))
      in Hroom; [exact Hroom | | | now apply in_enumerate].
    + intros b1 a b1' Hinner Hb.
      eapply (foldM_keep (fun m => In c (constraints m)));
        [| exact Hinner | exact Hb].
      intros b2 x b2' Hstep. eapply overlap_pair_step_grows; eauto.
    + intros b1 b1' Hinner.
      apply (foldM_establish (fun m => In c (constraints m)) _ _ (i2, (s2, e2)))
        in Hinner; [exact Hinner | | | now apply in_enumerate].
      * intros b2 x b2' Hstep. eapply overlap_pair_step_grows; eauto.
      * intros b2 b2' Hstep. unfold overlap_pair_step in Hstep. simpl in Hstep.
        apply Nat.ltb_lt in Hlt. rewrite Hlt, Hc1 in Hstep. simpl in Hstep.
        rewrite Hc2 in Hstep. simpl in Hstep. inversion Hstep; subst b2'.
        simpl. apply in_or_app. right. now left.
Qed.

(** ** The model handed to the solver *)

Lemma satisfies_holds (sol : BoolVar -> bool) (m : CpModel) (c : Constraint) :
  satisfies sol m -> In c (constraints m) -> holds sol c.
Proof.
  unfold satisfies. intros Hall Hc.
  apply (proj1 (List.Forall_forall (holds sol) (constraints m)) Hall c Hc).
Qed.

Lemma prepare_model (E : World) (self ready : RoomOptimizer) :
  prepare E self = Ok ready ->
  same_inputs self ready /\
  (forall i lesson c,
      lessons self !! i = Some lesson ->
      In c (lesson_capacity_constraints (rooms self) (i, lesson)) ->
      In c (constraints (model ready))) /\
  (forall j room i1 i2 l1 l2,
      rooms self !! j = Some room ->
      lessons self !! i1 = Some l1 -> lessons self !! i2 = Some l2 ->
      (i1 < i2)%nat -> overlapping E l1 l2 ->
      In (SumAtMostOne (i1, j) (i2, j)) (constraints (model ready))).
Proof.
  unfold prepare. intros Hrun.
  destruct (_calculate_all_temperature_predictions E self) as [s1|e] eqn:H1;
    [|discriminate].
  simpl in Hrun.
  set (s3 := _add_capacity_constraints (_create_assignment_variables s1)) in *.
  destruct (_add_no_overlap_constraints E s3) as [s4|e] eqn:H4; [|discriminate].
  simpl in Hrun.
  destruct (_add_capacity_fit_objective s4) as [t1|e]; [|discriminate].
  destruct (_add_equipment_objective E s4) as [t2|e]; [|discriminate].
  destruct (_add_temperature_objective s4) as [t3|e]; [|discriminate].
  simpl in Hrun. inversion Hrun; subst ready; clear Hrun.
  apply predictions_keep_inputs in H1 as [(Hr1 & Hl1 & Hp1 & Hh1) Hm1].
  pose proof (no_overlap_keeps E s3 s4 H4) as ((Hr4 & Hl4 & Hp4 & Hh4) & _ & Hgrow).
  assert (Hr3 : rooms s3 = rooms self) by exact Hr1.
  assert (Hl3 : lessons s3 = lessons self) by exact Hl1.
  split.
  { unfold same_inputs. simpl. rewrite Hr4, Hl4, Hp4, Hh4.
    repeat split; assumption. }
  split.
  - intros i lesson c Hi Hc. simpl. apply Hgrow.
    unfold s3. rewrite capacity_constraints_closed.
    apply in_or_app. right. apply in_flat_map.
    exists (i, lesson). split.
    + apply in_enumerate. simpl. now rewrite Hl1.
    + simpl. now rewrite Hr1.
  - intros j room i1 i2 l1 l2 Hj Hi1 Hi2 Hlt Hov. simpl.
    apply (no_overlap_added E s3 s4 j i1 i2 room l1 l2 H4);
      [rewrite Hr3 | rewrite Hl3 | rewrite Hl3 | | ]; assumption.
Qed.

(** C1. In the model that [optimize] hands to the solver, for a lesson [i]:
    the variable of every room with fewer seats than the lesson has students
    is forced to 0; when some room is large enough, exactly one variable
    among the large-enough rooms is true in any solution of the model; and
    when no room is large enough, the extraction finds no room for the
    lesson and adds no assignment for it. *)
Theorem capacity_constraints_enforced (E : World) (self ready : RoomOptimizer)
    (r : SolverResponse) (i : nat) (lesson : Lesson)
    (Hready : prepare E self = Ok ready)
    (Hsol : satisfies (Value r) (model ready))
    (Hi : lessons self !! i = Some lesson) :
  (forall j room,
      rooms self !! j = Some room ->
      (capacity room < get_student_count lesson)%Z ->
      In (EqZero (i, j)) (constraints (model ready)) /\ Value r (i, j) = false) /\
  ((exists j room,
       rooms self !! j = Some room /\
       (capacity room >= get_student_count lesson)%Z) ->
   exists j room,
     rooms self !! j = Some room /\
     (capacity room >= get_student_count lesson)%Z /\
     Value r (i, j) = true /\
     forall j' room',
       rooms self !! j' = Some room' ->
       (capacity room' >= get_student_count lesson)%Z ->
       Value r (i, j') = true -> j' = j) /\
  ((forall j room,
       rooms self !! j = Some room ->
       (capacity room < get_student_count lesson)%Z) ->
   find_assigned_room ready r i = None /\
   forall out, extract_lesson_step ready r out (i, lesson) = Ok out).
Proof.
  destruct (prepare_model E self ready Hready) as ((Hr & Hl & Hp & Hh) & Hcap & _).
  assert (Hzero : forall j room,
             rooms self !! j = Some room ->
             (capacity room < get_student_count lesson)%Z ->
             In (EqZero (i, j)) (constraints (model ready))).
  { intros j room Hj Hlt. apply (Hcap i lesson _ Hi).
    unfold lesson_capacity_constraints. apply in_or_app. left.
    apply in_map. apply in_invalid_vars. exists j, room. auto. }
  split; [| split].
  - intros j room Hj Hlt. split; [now apply (Hzero j room) |].
    apply (satisfies_holds _ _ _ Hsol (Hzero j room Hj Hlt)).
  - intros (j0 & room0 & Hj0 & Hv0).
    assert (Hin0 : In (i, j0) (valid_vars i (get_student_count lesson)
                                 (enumerate (rooms self)))).
    { apply in_valid_vars. exists j0, room0. auto. }
    assert (Hex : In (ExactlyOne (valid_vars i (get_student_count lesson)
                                    (enumerate (rooms self))))
                     (constraints (model ready))).
    { apply (Hcap i lesson _ Hi).
      unfold lesson_capacity_constraints. apply in_or_app. right. simpl.
      destruct (valid_vars i (get_student_count lesson) (enumerate (rooms self)));
        [destruct Hin0 | now left]. }
    pose proof (satisfies_holds _ _ _ Hsol Hex) as Hone. simpl in Hone.
    destruct (exactly_one_unique _ _ (valid_vars_NoDup _ _ _) Hone)
      as (x & Hx & Htrue & Huniq).
    apply in_valid_vars in Hx as (j & room & -> & Hj & Hv).
    exists j, room. repeat split; try assumption.
    intros j' room' Hj' Hv' Htrue'.
    assert (Heq : (i, j') = (i, j)).
    { apply Huniq; [| exact Htrue']. apply in_valid_vars. exists j', room'. auto. }
    now inversion Heq.
  - intros Hnone.
    assert (Hfind : find_assigned_room ready r i = None).
    { unfold find_assigned_room. rewrite Hr.
      rewrite find_all_false; [reflexivity |].
      intros [j room] Hin. apply in_enumerate in Hin. simpl.
      apply (satisfies_holds _ _ _ Hsol (Hzero j room Hin (Hnone j room Hin))). }
    split; [exact Hfind |].
    intros out. unfold extract_lesson_step. simpl. now rewrite Hfind.
Qed.

(** C2. In the model that [optimize] hands to the solver, for every room [j]
    and every two lessons [i1 < i2] whose half-open intervals overlap, the
    constraint [x(i1,j) + x(i2,j) <= 1] is present, so no solution of the
    model gives both lessons the room. *)
Theorem no_overlap_enforced (E : World) (self ready : RoomOptimizer)
    (j i1 i2 : nat) (room : Room) (l1 l2 : Lesson)
    (Hready : prepare E self = Ok ready)
    (Hj : rooms self !! j = Some room)
    (Hi1 : lessons self !! i1 = Some l1)
    (Hi2 : lessons self !! i2 = Some l2)
    (Hlt : (i1 < i2)%nat)
    (Hov : overlapping E l1 l2) :
  In (SumAtMostOne (i1, j) (i2, j)) (constraints (model ready)) /\
  forall sol, satisfies sol (model ready) ->
              ~ (sol (i1, j) = true /\ sol (i2, j) = true).
Proof.
  destruct (prepare_model E self ready Hready) as (_ & _ & Hov').
  pose proof (Hov' j room i1 i2 l1 l2 Hj Hi1 Hi2 Hlt Hov) as Hin.
  split; [exact Hin |].
  intros sol Hsol [H1 H2].
  pose proof (satisfies_holds _ _ _ Hsol Hin) as Hle. simpl in Hle.
  rewrite H1, H2 in Hle. simpl in Hle. lia.
Qed.

(** ** Temperature predictions *)

Lemma fromisoformat_replace_Z (E : World) (lesson : Lesson) :
  fromisoformat E (replace_Z (start_time lesson)) = Ok (start_datetime lesson).
Proof.
  unfold fromisoformat, replace_Z, start_datetime.
  destruct (iso_tz (start_time lesson)) eqn:Htz; simpl; rewrite ?Htz; reflexivity.
Qed.

Lemma fold_left_keep_in {A B : Type} (P : B -> Prop) (f : B -> A -> B)
    (l : list A) :
  (forall b x, In x l -> P b -> P (f b x)) -> forall b, P b -> P (fold_left f l b).
Proof.
  induction l as [|x l IH]; intros Hf b Hb; simpl; [exact Hb |].
  apply IH.
  - intros b' y Hy. apply Hf. now right.
  - apply Hf; [now left | exact Hb].
Qed.

Lemma fold_left_establish {A B : Type} (P : B -> Prop) (f : B -> A -> B)
    (l : list A) (x : A) :
  (forall b y, In y l -> P b -> P (f b y)) ->
  (forall b, P (f b x)) ->
  In x l -> forall b, P (fold_left f l b).
Proof.
  induction l as [|y l IH]; intros Hkeep Hset Hin b; [destruct Hin |].
  simpl. destruct Hin as [-> | Hin].
  - apply fold_left_keep_in; [| apply Hset].
    intros b' z Hz. apply Hkeep. now right.
  - apply IH; auto. intros b' z Hz. apply Hkeep. now right.
Qed.

(** An invariant [I] that every iteration keeps, and a property [P] that
    the iteration at [x] sets up and the others keep. *)
Lemma foldM_inv_establish {A B : Type} (I P : B -> Prop)
    (f : B -> A -> result B) (l : list A) (x : A) :
  (forall b y b', In y l -> f b y = Ok b' -> I b -> I b' /\ (P b -> P b')) ->
  (forall b b', f b x = Ok b' -> I b -> P b') ->
  In x l ->
  forall b b', I b -> foldM f l b = Ok b' -> P b'.
Proof.
  induction l as [|y l IH]; intros Hkeep Hset Hin b b' Hb Hrun; [destruct Hin |].
  simpl in Hrun. destruct (f b y) as [b1|e] eqn:Hstep; [|discriminate].
  assert (Hkeep' : forall b y b', In y l -> f b y = Ok b' -> I b ->
                                  I b' /\ (P b -> P b')).
  { intros b0 z b0' Hz. apply Hkeep. now right. }
  destruct (Hkeep b y b1 (or_introl eq_refl) Hstep Hb) as [Hb1 _].
  destruct Hin as [-> | Hin].
  - pose proof (Hset b b1 Hstep Hb) as HP. clear IH Hstep Hset Hkeep.
    revert b1 Hb1 HP Hrun.
    induction l as [|z l IHl]; intros b1 Hb1 HP Hrun; simpl in Hrun.
    + now inversion Hrun; subst.
    + destruct (f b1 z) as [b2|e] eqn:Hz; [|discriminate].
      destruct (Hkeep' b1 z b2 (or_introl eq_refl) Hz Hb1) as [Hb2 HP2].
      apply (IHl (fun b0 y b0' Hy => Hkeep' b0 y b0' (or_intror Hy)) b2);
        auto.
  - apply (IH Hkeep' Hset Hin b1 b' Hb1 Hrun).
Qed.

Lemma predict_room_step_eq (E : World) (mdl : regression_model E) (i : nat)
    (lesson : Lesson) (s : RoomOptimizer) (jr : nat * Room) :
  predict_room_step E mdl i lesson (start_datetime lesson) s jr
  = set_prediction s (i, fst jr) (pair_forecast E mdl i lesson (fst jr) (snd jr)).
Proof.
  unfold predict_room_step, pair_forecast.
  now destruct (forecast_temperatures E mdl i lesson (fst jr) (snd jr)
                  (start_datetime lesson)) as [[|t ts]|e].
Qed.

Lemma enumerate_functional {A : Type} (l : list A) (i : nat) (x y : A) :
  In (i, x) (enumerate l) -> In (i, y) (enumerate l) -> x = y.
Proof.
  intros Hx Hy. apply in_enumerate in Hx. apply in_enumerate in Hy. congruence.
Qed.

(** The effect of one iteration of the loop over lessons. *)
Lemma predict_lesson_step_spec (E : World) (mdl : regression_model E)
    (s s' : RoomOptimizer) (i : nat) (lesson : Lesson) :
  predict_lesson_step E mdl s (i, lesson) = Ok s' ->
  same_inputs s s' /\
  (exists beyond,
      dt_gt (start_datetime lesson) (seven_days_from_now s) = Ok beyond /\
      forall j room,
        rooms s !! j = Some room ->
        temperature_predictions s' !! (i, j)
        = Some (if beyond then 21 else pair_forecast E mdl i lesson j room)) /\
  (forall i' j, i' <> i ->
      temperature_predictions s' !! (i', j) = temperature_predictions s !! (i', j)).
Proof.
  unfold predict_lesson_step. simpl. rewrite fromisoformat_replace_Z. simpl.
  destruct (dt_gt (start_datetime lesson) (seven_days_from_now s))
    as [beyond|e]; [|discriminate].
  simpl. intros Hs'.
  destruct beyond; inversion Hs'; subst s'; clear Hs'.
  - split; [| split].
    + apply fold_left_keep; [| apply same_inputs_refl].
      intros b j Hb. exact Hb.
    + exists true. split; [reflexivity |]. intros j room Hj.
      apply (fold_left_establish
               (fun s0 => temperature_predictions s0 !! (i, j) = Some 21) _ _ j).
      * intros b j' _ Hb. simpl.
        destruct (Nat.eq_dec j' j) as [-> | Hne].
        -- apply lookup_insert_eq.
        -- rewrite lookup_insert_ne; [exact Hb | congruence].
      * intros b. simpl. apply lookup_insert_eq.
      * apply in_seq. apply lookup_lt_Some in Hj. lia.
    + intros i' j Hne.
      apply (fold_left_keep
               (fun s0 => temperature_predictions s0 !! (i', j)
                          = temperature_predictions s !! (i', j)));
        [| reflexivity].
      intros b j' Hb. simpl. rewrite lookup_insert_ne; [exact Hb | congruence].
  - split; [| split].
    + apply fold_left_keep; [| apply same_inputs_refl].
      intros b jr Hb. rewrite predict_room_step_eq. exact Hb.
    + exists false. split; [reflexivity |]. intros j room Hj.
      apply (fold_left_establish
               (fun s0 => temperature_predictions s0 !! (i, j)
                          = Some (pair_forecast E mdl i lesson j room))
               _ _ (j, room)).
      * intros b [j' room'] Hin Hb. rewrite predict_room_step_eq. simpl.
        destruct (Nat.eq_dec j' j) as [-> | Hne].
        -- apply in_enumerate in Hin.
           assert (room' = room) by congruence. subst room'.
           apply lookup_insert_eq.
        -- rewrite lookup_insert_ne; [exact Hb | congruence].
      * intros b. rewrite predict_room_step_eq. simpl. apply lookup_insert_eq.
      * now apply in_enumerate.
    + intros i' j Hne.
      apply (fold_left_keep
               (fun s0 => temperature_predictions s0 !! (i', j)
                          = temperature_predictions s !! (i', j)));
        [| reflexivity].
      intros b jr Hb. rewrite predict_room_step_eq. simpl.
      rewrite lookup_insert_ne; [exact Hb | congruence].
Qed.

(** C6 (amended). After the prediction pass, with the regression model
    loaded, every (lesson, room) pair has an entry in the prediction map:
    21.0 for a lesson beyond the horizon, else the average of the forecast,
    or 21.0 when the forecast fails or is empty.  When the model cannot be
    loaded the pass changes nothing, so a fresh optimizer keeps an empty
    map; the objective reads a missing entry as 21.0. *)
Theorem predictions_defined (E : World) (self s1 : RoomOptimizer)
    (Hrun : _calculate_all_temperature_predictions E self = Ok s1) :
  (joblib_load E = None -> s1 = self) /\
  (forall mdl, joblib_load E = Some mdl ->
     forall i j lesson room,
       lessons self !! i = Some lesson -> rooms self !! j = Some room ->
       exists beyond,
         dt_gt (start_datetime lesson) (seven_days_from_now self) = Ok beyond /\
         temperature_predictions s1 !! (i, j)
         = Some (if beyond then 21 else pair_forecast E mdl i lesson j room)) /\
  (forall mdl i lesson j room,
      match forecast_temperatures E mdl i lesson j room (start_datetime lesson) with
      | Ok [] | Raise _ => pair_forecast E mdl i lesson j room = 21
      | Ok (t :: ts) => pair_forecast E mdl i lesson j room = average (t :: ts)
      end) /\
  (forall i j,
      temperature_predictions s1 !! (i, j) = None -> get_prediction s1 i j = 21).
Proof.
  unfold _calculate_all_temperature_predictions in Hrun.
  split; [| split; [| split]].
  - intros Hload. rewrite Hload in Hrun. now inversion Hrun.
  - intros mdl Hload i j lesson room Hi Hj. rewrite Hload in Hrun.
    destruct (dt_gt (start_datetime lesson) (seven_days_from_now self))
      as [beyond|e] eqn:Hb.
    + exists beyond. split; [reflexivity |].
      apply (foldM_inv_establish (same_inputs self)
               (fun s => temperature_predictions s !! (i, j)
                         = Some (if beyond then 21
                                 else pair_forecast E mdl i lesson j room))
               _ _ (i, lesson)) in Hrun;
        [exact Hrun | | | now apply in_enumerate | apply same_inputs_refl].
      * intros b [i' lesson'] b' Hin Hstep Hinv.
        destruct (predict_lesson_step_spec E mdl b b' i' lesson' Hstep)
          as (Hsame & (beyond' & Hb' & Hset) & Hother).
        split; [eapply same_inputs_trans; eauto |].
        intros Hprev. destruct (Nat.eq_dec i' i) as [-> | Hne].
        -- assert (lesson' = lesson).
           { apply in_enumerate in Hin. congruence. }
           subst lesson'. destruct Hinv as (Hr & _ & _ & Hh).
           rewrite Hh, Hb in Hb'. inversion Hb'; subst beyond'.
           apply Hset. now rewrite Hr.
        -- rewrite Hother; [exact Hprev | congruence].
      * intros b b' Hstep Hinv.
        destruct (predict_lesson_step_spec E mdl b b' i lesson Hstep)
          as (_ & (beyond' & Hb' & Hset) & _).
        destruct Hinv as (Hr & _ & _ & Hh).
        rewrite Hh, Hb in Hb'. inversion Hb'; subst beyond'.
        apply Hset. now rewrite Hr.
    + exfalso.
      apply (foldM_inv_establish (same_inputs self) (fun _ => False)
               _ _ (i, lesson)) in Hrun;
        [exact Hrun | | | now apply in_enumerate | apply same_inputs_refl].
      * intros b [i' lesson'] b' Hin Hstep Hinv.
        destruct (predict_lesson_step_spec E mdl b b' i' lesson' Hstep)
          as (Hsame & _).
        split; [eapply same_inputs_trans; eauto | tauto].
      * intros b b' Hstep Hinv.
        destruct (predict_lesson_step_spec E mdl b b' i lesson Hstep)
          as (_ & (beyond' & Hb' & _) & _).
        destruct Hinv as (_ & _ & _ & Hh). rewrite Hh, Hb in Hb'. discriminate.
  - intros mdl i lesson j room. unfold pair_forecast.
    now destruct (forecast_temperatures E mdl i lesson j room
                    (start_datetime lesson)) as [[|t ts]|e].
  - intros i j Hnone. unfold get_prediction. now rewrite Hnone.
Qed.

(** C6, as first stated, fails when the model cannot be loaded: the map has
    no entry for the pair (0, 0) of the example timetable. *)
Lemma predictions_missing_without_model :
  let E := ex_world false true in
  let self := __init__ E ex_rooms ex_lessons None in
  exists s1,
    _calculate_all_temperature_predictions E self = Ok s1 /\
    lessons s1 !! 0%nat = Some ex_lesson_math /\
    rooms s1 !! 0%nat = Some ex_room_large /\
    temperature_predictions s1 !! (0%nat, 0%nat) = None.
Proof.
  eexists. split; [reflexivity |]. repeat split.
Qed.

(** ** Extraction *)


(** ** Exceptions *)

(** C8. A lesson whose timestamps end in "Z" makes [optimize] raise, with
    the default preferences and whatever the clock, the regression model,
    the forecasts and the solver are: [TypeError] when the aware start time
    is compared with the naive horizon, or [ValueError] when the raw string
    is parsed by an interpreter that does not read the suffix. *)
Theorem optimize_raises_on_utc_suffix (E : World) :
  optimize E (__init__ E [ex_room_large] [ex_lesson_zulu] None)
  = Raise match joblib_load E with
          | Some _ => TypeError
          | None => if accepts_zulu E then TypeError else ValueError
          end.
Proof.
  destruct E as [now0 zulu mdlT load forecast solve]. simpl.
  destruct load as [mdl|], zulu; vm_compute; reflexivity.
Qed.

(** C9 (amended). The preferences are optional as a whole: when they are
    absent or empty the weights are capacity 0.5, equipment 0.2 and
    temperature 0.3, and [optimize] runs as with these weights given; a
    non-empty mapping is kept as it is, and reading a weight that it lacks
    raises [KeyError]. *)
Theorem preferences_default_as_a_whole (E : World) (rs : list Room)
    (ls : list Lesson) :
  preferences (__init__ E rs ls None) = default_preferences /\
  preferences (__init__ E rs ls (Some ∅)) = default_preferences /\
  default_preferences !! "capacity_weight"%string = Some 0.5 /\
  default_preferences !! "equipment_weight"%string = Some 0.2 /\
  default_preferences !! "temperature_weight"%string = Some 0.3 /\
  optimize E (__init__ E rs ls None)
  = optimize E (__init__ E rs ls (Some default_preferences)) /\
  optimize E (__init__ E rs ls (Some ∅))
  = optimize E (__init__ E rs ls (Some default_preferences)) /\
  (forall d : gmap string Q,
      d <> ∅ ->
      preferences (__init__ E rs ls (Some d)) = d /\
      forall key, d !! key = None ->
        getitem (preferences (__init__ E rs ls (Some d))) key
        = Raise (KeyError key)).
Proof.
  repeat split; try reflexivity.
  - simpl. destruct (Nat.eqb (size d) 0) eqn:Hsize; [| reflexivity].
    apply Nat.eqb_eq, map_size_empty_iff in Hsize. contradiction.
  - intros key Hkey. simpl.
    destruct (Nat.eqb (size d) 0) eqn:Hsize.
    + apply Nat.eqb_eq, map_size_empty_iff in Hsize. contradiction.
    + unfold getitem. now rewrite Hkey.
Qed.

(** C9, as first stated, fails for a mapping that gives the capacity weight
    only: the equipment weight is not defaulted and [optimize] raises. *)
Lemma partial_preferences_raise :
  let E := ex_world true true in
  let self := __init__ E ex_rooms ex_lessons (Some ex_partial_preferences) in
  preferences self !! "capacity_weight"%string = Some 0.7 /\
  preferences self !! "equipment_weight"%string = None /\
  optimize E self = Raise (KeyError "equipment_weight").
Proof.
  repeat split; vm_compute; reflexivity.
Qed.

(** ** [optimize] returns on naive timestamps *)








(** * The properties on the example timetable *)

Lemma satisfiesb_sound (sol : BoolVar -> bool) (m : CpModel) :
  satisfiesb sol m = true -> satisfies sol m.
Proof.
  unfold satisfiesb, satisfies. intros H.
  apply List.Forall_forall. intros c Hc.
  apply (proj1 (forallb_forall _ _) H) in Hc.
  destruct c as [x | xs | x y]; simpl in Hc |- *.
  - now apply negb_true_iff.
  - now apply Nat.eqb_eq.
  - now apply Z.leb_le.
Qed.

Lemma ex_ready_prepared : prepare (ex_world true true) ex_optimizer = Ok ex_ready.
Proof. vm_compute. reflexivity. Qed.

Lemma ex_response_satisfies : satisfies (Value ex_response) (model ex_ready).
Proof. apply satisfiesb_sound. vm_compute. reflexivity. Qed.



Lemma capacity_constraints_enforced_witness :
  prepare (ex_world true true) ex_optimizer = Ok ex_ready /\
  satisfies (Value ex_response) (model ex_ready) /\
  lessons ex_optimizer !! 2%nat = Some ex_lesson_assembly /\
  find_assigned_room ex_ready ex_response 2 = None.
Proof.
  split; [exact ex_ready_prepared |].
  split; [exact ex_response_satisfies |].
  split; [reflexivity |].
  apply (capacity_constraints_enforced (ex_world true true) ex_optimizer
           ex_ready ex_response 2 ex_lesson_assembly
           ex_ready_prepared ex_response_satisfies eq_refl).
  intros j room Hj.
  destruct j as [|[|j]]; vm_compute in Hj; inversion Hj; reflexivity.
Defined.

Lemma no_overlap_enforced_witness :
  overlapping (ex_world true true) ex_lesson_math ex_lesson_physics /\
  In (SumAtMostOne (0, 0)%nat (1, 0)%nat) (constraints (model ex_ready)).
Proof.
  assert (Hov : overlapping (ex_world true true) ex_lesson_math ex_lesson_physics).
  { unfold overlapping. do 4 eexists. repeat split; vm_compute; reflexivity. }
  split; [exact Hov |].
  apply (no_overlap_enforced (ex_world true true) ex_optimizer ex_ready
           0 0 1 ex_room_large ex_lesson_math ex_lesson_physics
           ex_ready_prepared eq_refl eq_refl eq_refl).
  - lia.
  - exact Hov.
Defined.




Lemma predictions_defined_witness :
  _calculate_all_temperature_predictions (ex_world true true) ex_optimizer
  = Ok ex_predicted /\
  temperature_predictions ex_predicted !! (0, 0)%nat = Some (average [20; 23]) /\
  temperature_predictions ex_predicted !! (1, 0)%nat = Some 21.
Proof.
  assert (Hrun : _calculate_all_temperature_predictions (ex_world true true)
                   ex_optimizer = Ok ex_predicted) by (vm_compute; reflexivity).
  split; [exact Hrun |].
  destruct (predictions_defined (ex_world true true) ex_optimizer ex_predicted Hrun)
    as (_ & Hloaded & _).
  split.
  - destruct (Hloaded tt eq_refl 0%nat 0%nat ex_lesson_math ex_room_large
                eq_refl eq_refl) as (beyond & Hb & Hlookup).
    vm_compute in Hb. inversion Hb; subst beyond. exact Hlookup.
  - destruct (Hloaded tt eq_refl 1%nat 0%nat ex_lesson_physics ex_room_large
                eq_refl eq_refl) as (beyond & Hb & Hlookup).
    vm_compute in Hb. inversion Hb; subst beyond. exact Hlookup.
Defined.


Lemma preferences_default_as_a_whole_witness :
  ex_partial_preferences <> ∅ /\
  ex_partial_preferences !! "equipment_weight"%string = None /\
  getitem (preferences (__init__ (ex_world true true) ex_rooms ex_lessons
                          (Some ex_partial_preferences)))
          "equipment_weight"
  = Raise (KeyError "equipment_weight").
Proof.
  assert (Hne : ex_partial_preferences <> ∅).
  { intros Heq.
    assert (Hl : ex_partial_preferences !! "capacity_weight"%string
                 = (∅ : gmap string Q) !! "capacity_weight"%string)
      by (rewrite Heq; reflexivity).
    vm_compute in Hl. discriminate Hl. }
  assert (Hkey : ex_partial_preferences !! "equipment_weight"%string = None)
    by (vm_compute; reflexivity).
  split; [exact Hne |]. split; [exact Hkey |].
  destruct (preferences_default_as_a_whole (ex_world true true) ex_rooms ex_lessons)
    as (_ & _ & _ & _ & _ & _ & _ & Hpartial).
  destruct (Hpartial ex_partial_preferences Hne) as [_ Hraise].
  apply Hraise. exact Hkey.
Defined.

(** * Further properties of the optimizer *)

(** ** Decision variables *)

Lemma fold_left_append {A T : Type} (f : list T -> A -> list T)
    (g : A -> list T) (l : list A) :
  (forall acc x, In x l -> f acc x = acc ++ g x) ->
  forall acc, fold_left f l acc = acc ++ flat_map g l.
Proof.
  induction l as [|x l IH]; intros Hf acc; simpl.
  - now rewrite app_nil_r.
  - rewrite Hf by (now left).
    rewrite IH by (intros; apply Hf; now right).
    now rewrite <- app_assoc.
Qed.

Lemma create_variables_closed (self : RoomOptimizer) :
  model (_create_assignment_variables self)
  = {| variables :=
         variables (model self)
         ++ flat_map
              (fun il => flat_map (fun jr => [(fst il, fst jr)])
                                  (enumerate (rooms self)))
              (enumerate (lessons self));
       constraints := constraints (model self);
       objective := objective (model self) |}.
Proof.
  unfold _create_assignment_variables. simpl.
  generalize (enumerate (lessons self)) as ils.
  generalize (model self) as m.
  intros m ils. revert m.
  induction ils as [|il ils IH]; intros m; simpl.
  - rewrite app_nil_r. now destruct m.
  - rewrite IH. clear IH.
    assert (Hrow : forall (jrs : list (nat * Room)) m0,
               fold_left (fun m' jr => NewBoolVar m' (fst il, fst jr)) jrs m0
               = {| variables :=
                      variables m0 ++ flat_map (fun jr => [(fst il, fst jr)]) jrs;
                    constraints := constraints m0;
                    objective := objective m0 |}).
    { induction jrs as [|jr jrs IHj]; intros m0; simpl.
      - rewrite app_nil_r. now destruct m0.
      - rewrite IHj. simpl. now rewrite <- app_assoc. }
    rewrite Hrow. simpl. now rewrite <- app_assoc.
Qed.

Lemma grid_row_NoDup {A : Type} (i : nat) (l : list A) (n : nat) :
  List.NoDup (flat_map (fun jr => [(i, fst jr)]) (enumerate_from n l)).
Proof.
  revert n. induction l as [|x l IH]; intros n; simpl; constructor.
  - rewrite in_flat_map. intros ([j y] & Hin & Heq).
    apply in_enumerate_from in Hin as [Hle _].
    destruct Heq as [Heq | []]. inversion Heq. simpl in *. lia.
  - apply IH.
Qed.

Lemma grid_NoDup {A B : Type} (la : list A) (lb : list B) (n : nat) :
  List.NoDup
    (flat_map (fun il => flat_map (fun jr => [(fst il, fst jr)]) (enumerate lb))
              (enumerate_from n la)).
Proof.
  revert n. induction la as [|a la IH]; intros n; simpl; [constructor |].
  apply List.NoDup_app; [apply grid_row_NoDup | apply IH |].
  intros [i j] Hrow Hrest.
  apply in_flat_map in Hrow as ([j1 b1] & _ & [Heq | []]).
  inversion Heq; subst i j. clear Heq.
  apply in_flat_map in Hrest as ([i2 a2] & Hin2 & Hrow2).
  apply in_enumerate_from in Hin2 as [Hle _].
  apply in_flat_map in Hrow2 as ([j2 b2] & _ & [Heq | []]).
  inversion Heq. simpl in *. lia.
Qed.

Lemma grid_length {A B : Type} (la : list A) (lb : list B) (n : nat) :
  length
    (flat_map (fun il => flat_map (fun jr => [(fst il, fst jr)]) (enumerate lb))
              (enumerate_from n la))
  = (length la * length lb)%nat.
Proof.
  assert (Hrow : forall (i m : nat) (l : list B),
             length (flat_map (fun jr => [(i, fst jr)]) (enumerate_from m l))
             = length l).
  { intros i m l. revert m. induction l as [|x l IHl]; intros m; simpl; auto. }
  revert n. induction la as [|a la IH]; intros n; simpl; [reflexivity |].
  rewrite length_app, IH. unfold enumerate. now rewrite Hrow.
Qed.

(** X1. [_create_assignment_variables] registers one variable for each
    (lesson index, room index) pair and nothing else: the variables it adds
    are exactly the in-range pairs, none twice, and it leaves the
    constraints and the objective of the model as they were. *)
Theorem create_variables_grid (self : RoomOptimizer) :
  exists new : list BoolVar,
    variables (model (_create_assignment_variables self))
    = variables (model self) ++ new /\
    (forall i j,
        In (i, j) new <->
        (i < length (lessons self))%nat /\ (j < length (rooms self))%nat) /\
    List.NoDup new /\
    length new = (length (lessons self) * length (rooms self))%nat /\
    constraints (model (_create_assignment_variables self))
    = constraints (model self) /\
    objective (model (_create_assignment_variables self))
    = objective (model self).
Proof.
  rewrite create_variables_closed. simpl. eexists.
  split; [reflexivity |].
  split; [| split; [apply grid_NoDup | split; [apply grid_length | auto]]].
  intros i j.
  rewrite (in_pairs (lessons self) (rooms self) (fun i _ j _ => [(i, j)])).
  split.
  - intros (i' & a & j' & b & Hi & Hj & [Heq | []]). inversion Heq; subst.
    split; eapply lookup_lt_Some; eauto.
  - intros [Hi Hj].
    apply lookup_lt_is_Some_2 in Hi as [a Ha].
    apply lookup_lt_is_Some_2 in Hj as [b Hb].
    exists i, a, j, b. repeat split; auto. now left.
Qed.

(** ** Constraints *)

(** X2. [_add_capacity_constraints] adds exactly these constraints: the
    variable of a pair whose room is too small is set to 0, and each lesson
    with at least one large-enough room gets one exactly-one constraint over
    the variables of all its large-enough rooms.  A lesson with no such room
    gets no exactly-one constraint. *)
Theorem capacity_constraints_exactly (self : RoomOptimizer) :
  (forall c,
      In c (constraints (model (_add_capacity_constraints self))) <->
      In c (constraints (model self)) \/
      (exists i j lesson room,
          lessons self !! i = Some lesson /\ rooms self !! j = Some room /\
          (capacity room < get_student_count lesson)%Z /\
          c = EqZero (i, j)) \/
      (exists i lesson,
          lessons self !! i = Some lesson /\
          valid_vars i (get_student_count lesson) (enumerate (rooms self)) <> [] /\
          c = ExactlyOne
                (valid_vars i (get_student_count lesson) (enumerate (rooms self))))) /\
  (forall i count x,
      In x (valid_vars i count (enumerate (rooms self))) <->
      exists j room,
        x = (i, j) /\ rooms self !! j = Some room /\ (capacity room >= count)%Z).
Proof.
  split; [| intros i count x; apply in_valid_vars].
  intros c.
  rewrite capacity_constraints_closed, in_app_iff, in_flat_map.
  unfold lesson_capacity_constraints.
  split.
  - intros [Hold | ([i lesson] & Hin & Hc)]; [now left | right].
    apply in_enumerate in Hin. simpl in Hc.
    apply in_app_or in Hc as [Hzero | Hone].
    + left. apply in_map_iff in Hzero as (x & <- & Hx).
      apply in_invalid_vars in Hx as (j & room & -> & Hj & Hlt).
      exists i, j, lesson, room. auto.
    + right. exists i, lesson. split; [exact Hin |].
      destruct (valid_vars i (get_student_count lesson) (enumerate (rooms self)))
        as [|x xs]; [destruct Hone |].
      destruct Hone as [<- | []]. split; [discriminate | reflexivity].
  - intros [Hold | [(i & j & lesson & room & Hi & Hj & Hlt & ->)
                   | (i & lesson & Hi & Hne & ->)]];
      [now left | right | right];
      exists (i, lesson); (split; [now apply in_enumerate |]); simpl;
      apply in_or_app.
    + left. apply in_map. apply in_invalid_vars. exists j, room. auto.
    + right.
      destruct (valid_vars i (get_student_count lesson) (enumerate (rooms self)));
        [contradiction | now left].
Qed.

Lemma foldM_keep_in {A B : Type} (P : B -> Prop) (f : B -> A -> result B)
    (l : list A) :
  (forall b y b', In y l -> f b y = Ok b' -> P b -> P b') ->
  forall b b', foldM f l b = Ok b' -> P b -> P b'.
Proof.
  induction l as [|y l IH]; intros Hkeep b b' Hrun Hb; simpl in Hrun.
  - now inversion Hrun; subst.
  - destruct (f b y) as [b1|e] eqn:Hstep; [|discriminate].
    apply (IH (fun b0 z b0' Hz => Hkeep b0 z b0' (or_intror Hz)) b1 b' Hrun).
    apply (Hkeep b y b1 (or_introl eq_refl) Hstep Hb).
Qed.

Lemma mapM_lookup_rev {A B : Type} (f : A -> result B) (l : list A)
    (ys : list B) :
  mapM f l = Ok ys ->
  forall i y, ys !! i = Some y -> exists x, l !! i = Some x /\ f x = Ok y.
Proof.
  revert ys. induction l as [|a l IH]; intros ys Hrun i y Hi; simpl in Hrun.
  - inversion Hrun; subst. discriminate.
  - destruct (f a) as [b|e] eqn:Hfa; [|discriminate]. simpl in Hrun.
    destruct (mapM f l) as [ys'|e]; [|discriminate]. simpl in Hrun.
    inversion Hrun; subst ys. destruct i as [|i]; simpl in Hi |- *.
    + inversion Hi; subst. eauto.
    + eapply IH; eauto.
Qed.

Lemma no_overlap_added_only (E : World) (self s' : RoomOptimizer)
    (c : Constraint)
    (Hrun : _add_no_overlap_constraints E self = Ok s')
    (Hc : In c (constraints (model s'))) :
  In c (constraints (model self)) \/
  exists j room i1 i2 l1 l2,
    rooms self !! j = Some room /\
    lessons self !! i1 = Some l1 /\ lessons self !! i2 = Some l2 /\
    (i1 < i2)%nat /\ overlapping E l1 l2 /\
    c = SumAtMostOne (i1, j) (i2, j).
Proof.
  unfold _add_no_overlap_constraints in Hrun.
  destruct (mapM (lesson_interval E) (lessons self)) as [ivs|e] eqn:Hivs;
    [|discriminate].
  simpl in Hrun.
  destruct (foldM (overlap_room_step ivs) (enumerate (rooms self)) (model self))
    as [m|e] eqn:Hm; [|discriminate].
  simpl in Hrun. inversion Hrun; subst s'; clear Hrun. simpl in Hc.
  set (Good := fun c0 : Constraint =>
         exists j room i1 i2 l1 l2,
           rooms self !! j = Some room /\
           lessons self !! i1 = Some l1 /\ lessons self !! i2 = Some l2 /\
           (i1 < i2)%nat /\ overlapping E l1 l2 /\
           c0 = SumAtMostOne (i1, j) (i2, j)).
  set (P := fun m0 : CpModel =>
         forall c0, In c0 (constraints m0) ->
                    In c0 (constraints (model self)) \/ Good c0).
  assert (HP : P m).
  { eapply (foldM_keep_in P); [| exact Hm | intros c0 H0; now left].
    intros b [j room] b' Hj Hroom Hb. apply in_enumerate in Hj.
    unfold overlap_room_step in Hroom.
    eapply (foldM_keep_in P); [| exact Hroom | exact Hb].
    intros b1 [i1 [s1 e1]] b1' Hi1 Hinner Hb1. apply in_enumerate in Hi1.
    eapply (foldM_keep_in P); [| exact Hinner | exact Hb1].
    intros b2 [i2 [s2 e2]] b2' Hi2 Hstep Hb2. apply in_enumerate in Hi2.
    unfold overlap_pair_step in Hstep. simpl in Hstep.
    destruct (i1 <? i2)%nat eqn:Hlt; [| now inversion Hstep; subst].
    destruct (dt_lt s1 e2) as [[|]|e] eqn:Hc1; simpl in Hstep;
      try discriminate; [| now inversion Hstep; subst].
    destruct (dt_lt s2 e1) as [[|]|e] eqn:Hc2; simpl in Hstep;
      try discriminate; inversion Hstep; subst b2'; [| exact Hb2].
    intros c0 Hc0. simpl in Hc0.
    apply in_app_or in Hc0 as [Hold | [<- | []]]; [now apply Hb2 |].
    right.
    destruct (mapM_lookup_rev _ _ _ Hivs i1 _ Hi1) as (l1 & Hl1 & Hiv1).
    destruct (mapM_lookup_rev _ _ _ Hivs i2 _ Hi2) as (l2 & Hl2 & Hiv2).
    exists j, room, i1, i2, l1, l2. repeat split; auto.
    - now apply Nat.ltb_lt.
    - exists s1, e1, s2, e2. auto. }
  apply (HP c Hc).
Qed.

(** X3. [_add_no_overlap_constraints] adds a constraint only for a room and
    two lessons [i1 < i2] whose intervals overlap: every constraint of the
    resulting model was there before or is [x(i1,j) + x(i2,j) <= 1] for such
    a pair.  Lessons that do not overlap, back-to-back ones included, are
    never constrained against each other. *)
Theorem no_overlap_only_for_overlapping (E : World) (self s' : RoomOptimizer)
    (c : Constraint)
    (Hrun : _add_no_overlap_constraints E self = Ok s')
    (Hc : In c (constraints (model s'))) :
  In c (constraints (model self)) \/
  exists j room i1 i2 l1 l2,
    rooms self !! j = Some room /\
    lessons self !! i1 = Some l1 /\ lessons self !! i2 = Some l2 /\
    (i1 < i2)%nat /\ overlapping E l1 l2 /\
    c = SumAtMostOne (i1, j) (i2, j).
Proof. exact (no_overlap_added_only E self s' c Hrun Hc). Qed.

(** ** Solutions of the model *)

Lemma invalid_room_zero (E : World) (self ready : RoomOptimizer)
    (sol : BoolVar -> bool) (i j : nat) (lesson : Lesson) (room : Room) :
  prepare E self = Ok ready -> satisfies sol (model ready) ->
  lessons self !! i = Some lesson -> rooms self !! j = Some room ->
  (capacity room < get_student_count lesson)%Z ->
  sol (i, j) = false.
Proof.
  intros Hready Hsol Hi Hj Hlt.
  destruct (prepare_model E self ready Hready) as (_ & Hcap & _).
  apply (satisfies_holds sol (model ready) (EqZero (i, j)) Hsol).
  apply (Hcap i lesson _ Hi).
  unfold lesson_capacity_constraints. apply in_or_app. left.
  apply in_map. apply in_invalid_vars. exists j, room. auto.
Qed.

Lemma valid_room_chosen (E : World) (self ready : RoomOptimizer)
    (sol : BoolVar -> bool) (i j0 : nat) (lesson : Lesson) (room0 : Room) :
  prepare E self = Ok ready -> satisfies sol (model ready) ->
  lessons self !! i = Some lesson -> rooms self !! j0 = Some room0 ->
  (capacity room0 >= get_student_count lesson)%Z ->
  exists j room,
    rooms self !! j = Some room /\
    (capacity room >= get_student_count lesson)%Z /\
    sol (i, j) = true /\
    forall j' room',
      rooms self !! j' = Some room' ->
      (capacity room' >= get_student_count lesson)%Z ->
      sol (i, j') = true -> j' = j.
Proof.
  intros Hready Hsol Hi Hj0 Hv0.
  destruct (prepare_model E self ready Hready) as (_ & Hcap & _).
  assert (Hin0 : In (i, j0) (valid_vars i (get_student_count lesson)
                               (enumerate (rooms self)))).
  { apply in_valid_vars. exists j0, room0. auto. }
  assert (Hex : In (ExactlyOne (valid_vars i (get_student_count lesson)
                                  (enumerate (rooms self))))
                   (constraints (model ready))).
  { apply (Hcap i lesson _ Hi).
    unfold lesson_capacity_constraints. apply in_or_app. right. simpl.
    destruct (valid_vars i (get_student_count lesson) (enumerate (rooms self)));
      [destruct Hin0 | now left]. }
  pose proof (satisfies_holds _ _ _ Hsol Hex) as Hone. simpl in Hone.
  destruct (exactly_one_unique _ _ (valid_vars_NoDup _ _ _) Hone)
    as (x & Hx & Htrue & Huniq).
  apply in_valid_vars in Hx as (j & room & -> & Hj & Hv).
  exists j, room. repeat split; try assumption.
  intros j' room' Hj' Hv' Htrue'.
  assert (Heq : (i, j') = (i, j)).
  { apply Huniq; [| exact Htrue']. apply in_valid_vars. exists j', room'. auto. }
  now inversion Heq.
Qed.

(** X4. When two overlapping lessons both fit in one room and in no other,
    the model has no solution: each lesson must take that room and the two
    may not share it.  With a solver that only reports assignments meeting
    the constraints, [optimize] then answers "infeasible" with no
    assignment at all, rather than placing one of the two lessons. *)
Theorem shared_only_room_infeasible (E : World) (self ready : RoomOptimizer)
    (j i1 i2 : nat) (room : Room) (l1 l2 : Lesson)
    (Hready : prepare E self = Ok ready)
    (Hj : rooms self !! j = Some room)
    (Hi1 : lessons self !! i1 = Some l1)
    (Hi2 : lessons self !! i2 = Some l2)
    (Hlt : (i1 < i2)%nat)
    (Hov : overlapping E l1 l2)
    (Hfit1 : (capacity room >= get_student_count l1)%Z)
    (Hfit2 : (capacity room >= get_student_count l2)%Z)
    (Honly1 : forall j' room',
        rooms self !! j' = Some room' ->
        (capacity room' >= get_student_count l1)%Z -> j' = j)
    (Honly2 : forall j' room',
        rooms self !! j' = Some room' ->
        (capacity room' >= get_student_count l2)%Z -> j' = j) :
  (forall sol, ~ satisfies sol (model ready)) /\
  (sound_solver E ->
   optimize E self = Ok (_format_infeasible_result (Solve E (model ready)))).
Proof.
  assert (Hnone : forall sol, ~ satisfies sol (model ready)).
  { intros sol Hsol.
    destruct (valid_room_chosen E self ready sol i1 j l1 room
                Hready Hsol Hi1 Hj Hfit1) as (j1 & r1 & Hj1 & Hv1 & Ht1 & _).
    destruct (valid_room_chosen E self ready sol i2 j l2 room
                Hready Hsol Hi2 Hj Hfit2) as (j2 & r2 & Hj2 & Hv2 & Ht2 & _).
    pose proof (Honly1 j1 r1 Hj1 Hv1) as He1.
    pose proof (Honly2 j2 r2 Hj2 Hv2) as He2. subst j1 j2.
    destruct (prepare_model E self ready Hready) as (_ & _ & Hover).
    pose proof (satisfies_holds _ _ _ Hsol
                  (Hover j room i1 i2 l1 l2 Hj Hi1 Hi2 Hlt Hov)) as Hle.
    simpl in Hle. rewrite Ht1, Ht2 in Hle. simpl in Hle. lia. }
  split; [exact Hnone |].
  intros Hsound. unfold optimize.
  destruct (lessons self) as [|l0 ls0] eqn:Hls; [discriminate |].
  rewrite Hready. simpl.
  specialize (Hsound (model ready)).
  destruct (status (Solve E (model ready))); try reflexivity;
    exfalso; exact (Hnone _ Hsound).
Qed.

(** ** Extracted assignments *)

(** The entries that one iteration of the extraction loop appends. *)
Lemma extract_lesson_step_shape (self : RoomOptimizer) (r : SolverResponse)
    (out out' : list Assignment) (i : nat) (lesson : Lesson) :
  extract_lesson_step self r out (i, lesson) = Ok out' ->
  match find_assigned_room self r i with
  | None => out' = out
  | Some room =>
      exists sc, out' = out ++ [{| lesson_of := lesson;
                                   assigned_room := room;
                                   scores := sc |}]
  end.
Proof.
  unfold extract_lesson_step. simpl.
  destruct (find_assigned_room self r i) as [room|];
    [| intros H; now inversion H].
  destruct (getitem (preferences self) "capacity_weight") as [cw|e];
    [|discriminate]. simpl.
  destruct (getitem (preferences self) "equipment_weight") as [ew|e];
    [|discriminate]. simpl.
  destruct (getitem (preferences self) "temperature_weight") as [tw|e];
    [|discriminate]. simpl.
  intros H. inversion H; subst out'. eauto.
Qed.

Lemma find_assigned_room_Some (self : RoomOptimizer) (r : SolverResponse)
    (i : nat) (room : Room) :
  find_assigned_room self r i = Some room ->
  exists j, rooms self !! j = Some room /\ Value r (i, j) = true /\
            forall j', (j' < j)%nat -> Value r (i, j') = false.
Proof.
  unfold find_assigned_room, enumerate.
  assert (Hgen : forall (l : list Room) (n : nat) (jr : nat * Room),
             List.find (fun jr => Value r (i, fst jr)) (enumerate_from n l)
             = Some jr ->
             (n <= fst jr)%nat /\ l !! (fst jr - n)%nat = Some (snd jr) /\
             Value r (i, fst jr) = true /\
             forall j', (n <= j')%nat -> (j' < fst jr)%nat ->
                        Value r (i, j') = false).
  { induction l as [|x l IH]; intros n jr Hfind; simpl in Hfind; [discriminate |].
    destruct (Value r (i, n)) eqn:Hv.
    - inversion Hfind; subst jr. simpl. rewrite Nat.sub_diag.
      repeat split; auto. intros j' H1 H2. lia.
    - apply IH in Hfind as (Hle & Hl & Ht & Hbefore).
      split; [lia |]. split.
      + replace (fst jr - n)%nat with (S (fst jr - S n)) by lia. exact Hl.
      + split; [exact Ht |]. intros j' H1 H2.
        destruct (Nat.eq_dec j' n) as [-> | Hne]; [exact Hv |].
        apply Hbefore; lia. }
  destruct (List.find (fun jr => Value r (i, fst jr)) (enumerate_from 0 (rooms self)))
    as [[j room']|] eqn:Hfind; simpl; [| discriminate].
  intros Heq. inversion Heq; subst room'.
  apply Hgen in Hfind as (_ & Hl & Ht & Hbefore). simpl in *.
  rewrite Nat.sub_0_r in Hl. exists j. repeat split; auto.
  intros j' Hlt. apply Hbefore; lia.
Qed.

Lemma find_assigned_room_None (self : RoomOptimizer) (r : SolverResponse)
    (i j : nat) (room : Room) :
  find_assigned_room self r i = None ->
  rooms self !! j = Some room -> Value r (i, j) = false.
Proof.
  unfold find_assigned_room. intros Hnone Hj.
  destruct (List.find (fun jr => Value r (i, fst jr)) (enumerate (rooms self)))
    eqn:Hfind; [discriminate |].
  apply (find_none _ _ Hfind (j, room)). now apply in_enumerate.
Qed.

Lemma extract_solution_assignments (self : RoomOptimizer) (r : SolverResponse)
    (res : OptimizationResult) :
  _extract_solution self r = Ok res ->
  foldM (extract_lesson_step self r) (enumerate (lessons self)) []
  = Ok (assignments res).
Proof.
  unfold _extract_solution. intros Hrun.
  destruct (foldM (extract_lesson_step self r) (enumerate (lessons self)) [])
    as [out|e]; [|discriminate].
  simpl in Hrun. now inversion Hrun.
Qed.

(** X5. Every assignment extracted from a solution of the model pairs a
    lesson of the input with a room of the input that has at least as many
    seats as the lesson has students, and whose variable the solver set. *)
Theorem extracted_assignments_fit (E : World) (self ready : RoomOptimizer)
    (r : SolverResponse) (res : OptimizationResult)
    (Hready : prepare E self = Ok ready)
    (Hsol : satisfies (Value r) (model ready))
    (Hrun : _extract_solution ready r = Ok res) :
  forall a, In a (assignments res) ->
    exists i j,
      lessons self !! i = Some (lesson_of a) /\
      rooms self !! j = Some (assigned_room a) /\
      Value r (i, j) = true /\
      (capacity (assigned_room a) >= get_student_count (lesson_of a))%Z.
Proof.
  destruct (prepare_model E self ready Hready) as ((Hr & Hl & _) & _).
  apply extract_solution_assignments in Hrun. rewrite Hl in Hrun.
  eapply (foldM_keep_in
            (fun out => forall a, In a out ->
               exists i j,
                 lessons self !! i = Some (lesson_of a) /\
                 rooms self !! j = Some (assigned_room a) /\
                 Value r (i, j) = true /\
                 (capacity (assigned_room a) >= get_student_count (lesson_of a))%Z));
    [| exact Hrun | intros a []].
  intros out [i lesson] out' Hin Hstep Hout. apply in_enumerate in Hin.
  apply extract_lesson_step_shape in Hstep.
  destruct (find_assigned_room ready r i) as [room|] eqn:Hfind;
    [| now subst out'].
  destruct Hstep as [sc ->]. intros a Ha.
  apply in_app_or in Ha as [Ha | [<- | []]]; [now apply Hout |].
  apply find_assigned_room_Some in Hfind as (j & Hj & Htrue & _).
  rewrite Hr in Hj. exists i, j. simpl. repeat split; auto.
  destruct (Z_lt_ge_dec (capacity room) (get_student_count lesson)) as [Hlt | Hge];
    [| exact Hge].
  rewrite (invalid_room_zero E self ready (Value r) i j lesson room
             Hready Hsol Hin Hj Hlt) in Htrue.
  discriminate.
Qed.

(** X6. Two lessons whose intervals overlap are never extracted into the
    same room: the rooms found for them have different indices. *)
Theorem extracted_rooms_differ (E : World) (self ready : RoomOptimizer)
    (r : SolverResponse) (i1 i2 j1 j2 : nat) (l1 l2 : Lesson)
    (room1 room2 : Room)
    (Hready : prepare E self = Ok ready)
    (Hsol : satisfies (Value r) (model ready))
    (Hi1 : lessons self !! i1 = Some l1)
    (Hi2 : lessons self !! i2 = Some l2)
    (Hlt : (i1 < i2)%nat)
    (Hov : overlapping E l1 l2)
    (Hf1 : List.find (fun jr => Value r (i1, fst jr)) (enumerate (rooms ready))
           = Some (j1, room1))
    (Hf2 : List.find (fun jr => Value r (i2, fst jr)) (enumerate (rooms ready))
           = Some (j2, room2)) :
  j1 <> j2.
Proof.
  destruct (prepare_model E self ready Hready) as ((Hr & _) & _ & Hover).
  apply find_some in Hf1 as [Hin1 Ht1]. apply find_some in Hf2 as [Hin2 Ht2].
  apply in_enumerate in Hin1. apply in_enumerate in Hin2.
  rewrite Hr in Hin1, Hin2. simpl in Ht1, Ht2.
  intros Heq. subst j2.
  pose proof (satisfies_holds _ _ _ Hsol
                (Hover j1 room1 i1 i2 l1 l2 Hin1 Hi1 Hi2 Hlt Hov)) as Hle.
  simpl in Hle. rewrite Ht1, Ht2 in Hle. simpl in Hle. lia.
Qed.

Lemma map_flat_map_enumerate {A B : Type} (f : B -> A) (p : A -> bool)
    (g : nat * A -> list B) (l : list A) (n : nat) :
  (forall i x, In (i, x) (enumerate_from n l) ->
               map f (g (i, x)) = if p x then [x] else []) ->
  map f (flat_map g (enumerate_from n l)) = List.filter p l.
Proof.
  revert n. induction l as [|x l IH]; intros n Hg; simpl; [reflexivity |].
  rewrite map_app, (Hg n x) by (now left).
  rewrite IH by (intros i y Hy; apply Hg; now right).
  now destruct (p x).
Qed.

(** X7. In a solution of the model the extraction keeps exactly the lessons
    that fit in some room, in their input order, one assignment each; the
    lessons that fit in no room are the ones left out. *)
Theorem extracted_lessons_are_the_placeable (E : World)
    (self ready : RoomOptimizer) (r : SolverResponse)
    (res : OptimizationResult)
    (Hready : prepare E self = Ok ready)
    (Hsol : satisfies (Value r) (model ready))
    (Hrun : _extract_solution ready r = Ok res) :
  map lesson_of (assignments res)
  = List.filter
      (fun lesson =>
         existsb (fun room => (capacity room >=? get_student_count lesson)%Z)
                 (rooms self))
      (lessons self).
Proof.
  destruct (prepare_model E self ready Hready) as ((Hr & Hl & _) & _).
  apply extract_solution_assignments in Hrun. rewrite Hl in Hrun.
  set (g := fun il : nat * Lesson =>
              match extract_lesson_step ready r [] il with
              | Ok out => out
              | Raise _ => []
              end).
  assert (Hstep : forall acc il out,
             extract_lesson_step ready r acc il = Ok out -> out = acc ++ g il).
  { intros acc [i lesson] out Hout. unfold g.
    unfold extract_lesson_step in *. simpl in *.
    destruct (find_assigned_room ready r i) as [room|];
      [| inversion Hout; now rewrite app_nil_r].
    destruct (getitem (preferences ready) "capacity_weight") as [cw|e];
      [|discriminate]. simpl in *.
    destruct (getitem (preferences ready) "equipment_weight") as [ew|e];
      [|discriminate]. simpl in *.
    destruct (getitem (preferences ready) "temperature_weight") as [tw|e];
      [|discriminate]. simpl in *.
    now inversion Hout. }
  pose proof Hrun as Hclosed.
  apply (foldM_append_ok _ g) in Hclosed;
    [| intros acc x out _ Hx; now apply Hstep].
  simpl in Hclosed. rewrite Hclosed.
  apply map_flat_map_enumerate. intros i lesson Hin.
  destruct (foldM_step_ok _ _ (i, lesson) Hin _ _ Hrun) as (acc & out & Hout).
  apply in_enumerate in Hin.
  pose proof (extract_lesson_step_shape ready r acc out i lesson Hout) as Hshape.
  apply Hstep in Hout.
  destruct (existsb (fun room => (capacity room >=? get_student_count lesson)%Z)
                    (rooms self)) eqn:Hex.
  - apply existsb_exists in Hex as (room0 & Hroom0 & Hfit).
    apply list_elem_of_In, list_elem_of_lookup_1 in Hroom0 as [j0 Hj0].
    apply Z.geb_le in Hfit.
    destruct (valid_room_chosen E self ready (Value r) i j0 lesson room0
                Hready Hsol Hin Hj0) as (j & room & Hj & _ & Htrue & _); [lia |].
    destruct (find_assigned_room ready r i) as [room'|] eqn:Hfind.
    + destruct Hshape as [sc Hsc]. rewrite Hsc in Hout.
      apply app_inv_head in Hout. now rewrite <- Hout.
    + rewrite <- Hr in Hj.
      rewrite (find_assigned_room_None ready r i j room Hfind Hj) in Htrue.
      discriminate.
  - destruct (find_assigned_room ready r i) as [room'|] eqn:Hfind.
    + exfalso.
      apply find_assigned_room_Some in Hfind as (j & Hj & Htrue & _).
      rewrite Hr in Hj.
      destruct (Z_lt_ge_dec (capacity room') (get_student_count lesson))
        as [Hlt | Hge].
      * rewrite (invalid_room_zero E self ready (Value r) i j lesson room'
                   Hready Hsol Hin Hj Hlt) in Htrue. discriminate.
      * assert (Hex' : existsb
                  (fun room => (capacity room >=? get_student_count lesson)%Z)
                  (rooms self) = true).
        { apply existsb_exists. exists room'. split.
          - eapply list_elem_of_In, list_elem_of_lookup_2. exact Hj.
          - apply Z.geb_le. lia. }
        congruence.
    + rewrite Hshape in Hout.
      rewrite <- (app_nil_r acc) in Hout at 1.
      apply app_inv_head in Hout. now rewrite <- Hout.
Qed.

(** ** Scores *)

Lemma Qabs_cases (x : Q) :
  (0 <= x /\ Qabs x == x) \/ (x <= 0 /\ Qabs x == - x).
Proof.
  destruct (Qlt_le_dec x 0) as [Hneg | Hpos].
  - right. split; [lra |]. apply Qabs_neg. lra.
  - left. split; [exact Hpos |]. now apply Qabs_pos.
Qed.

(** X8. The comfort band lies between 0 and 100 and never increases with the
    distance from 21 degrees: a prediction at least as close to 21 as
    another scores at least as much. *)
Theorem temp_score_closer_is_better (p q : Q) :
  0 <= temp_score p <= 100 /\
  (Qabs (p - 21) <= Qabs (q - 21) -> temp_score q <= temp_score p).
Proof.
  split.
  - split; [apply temp_score_nonneg |].
    unfold temp_score, py_max.
    destruct (Qabs_cases (p - 21)) as [[Hp Hap] | [Hp Hap]];
      repeat qstep; lra.
  - intros Hclose. unfold temp_score, py_max.
    destruct (Qabs_cases (p - 21)) as [[Hp Hap] | [Hp Hap]];
      destruct (Qabs_cases (q - 21)) as [[Hq Haq] | [Hq Haq]];
      repeat qstep; lra.
Qed.

Lemma equipment_score_zero_at_21 (room : Room) :
  forecast_equipment_score room 21 = 0%Z /\
  temp_score 21 = 100.
Proof.
  split; [| reflexivity].
  unfold forecast_equipment_score.
  destruct (get_hasAC room), (get_hasHeater room); reflexivity.
Qed.

(** X9. Within the horizon the unweighted equipment score of a room is 0,
    10, 30 or 50: the air-conditioning bonus needs a prediction above 21 and
    the heating bonus one below 21, so the two are never added together,
    and at the default prediction of 21 the score is 0 whatever the room
    has.  Beyond the horizon the score is 0, 20 or 40. *)
Theorem equipment_score_values (room : Room) (p : Q) :
  (forecast_equipment_score room p = 0%Z \/
   forecast_equipment_score room p = 10%Z \/
   forecast_equipment_score room p = 30%Z \/
   forecast_equipment_score room p = 50%Z) /\
  (p == 21 -> forecast_equipment_score room p = 0%Z) /\
  ((0 < forecast_equipment_score room p)%Z ->
   (21 < p /\ get_hasAC room = true) \/ (p < 21 /\ get_hasHeater room = true)) /\
  (static_equipment_score room = 0%Z \/
   static_equipment_score room = 20%Z \/
   static_equipment_score room = 40%Z).
Proof.
  unfold forecast_equipment_score, static_equipment_score.
  destruct (get_hasAC room), (get_hasHeater room).
  all: split; [repeat qstep; lia |].
  all: split; [intros H; repeat qstep; lia |].
  all: split; [| lia].
  all: repeat qstep; intros H;
    first [ lia
          | left; split; [lra | reflexivity]
          | right; split; [lra | reflexivity] ].
Qed.

(** ** The steps of [optimize] in sequence *)

Lemma prepare_stages (E : World) (self ready : RoomOptimizer) :
  prepare E self = Ok ready ->
  exists s1 s4 t1 t2 t3,
    _calculate_all_temperature_predictions E self = Ok s1 /\
    _add_no_overlap_constraints E
      (_add_capacity_constraints (_create_assignment_variables s1)) = Ok s4 /\
    _add_capacity_fit_objective s4 = Ok t1 /\
    _add_equipment_objective E s4 = Ok t2 /\
    _add_temperature_objective s4 = Ok t3 /\
    ready = set_model s4 (Maximize (model s4) (t1 ++ t2 ++ t3)) /\
    same_inputs self s4 /\
    temperature_predictions s4 = temperature_predictions s1.
Proof.
  unfold prepare. intros Hrun.
  destruct (_calculate_all_temperature_predictions E self) as [s1|e] eqn:H1;
    [|discriminate].
  simpl in Hrun.
  destruct (_add_no_overlap_constraints E
              (_add_capacity_constraints (_create_assignment_variables s1)))
    as [s4|e] eqn:H4; [|discriminate].
  simpl in Hrun.
  destruct (_add_capacity_fit_objective s4) as [t1|e] eqn:Ht1; [|discriminate].
  destruct (_add_equipment_objective E s4) as [t2|e] eqn:Ht2; [|discriminate].
  destruct (_add_temperature_objective s4) as [t3|e] eqn:Ht3; [|discriminate].
  simpl in Hrun. inversion Hrun; subst ready; clear Hrun.
  exists s1, s4, t1, t2, t3. repeat split; auto.
  - apply predictions_keep_inputs in H1 as [(Hr1 & _) _].
    destruct (no_overlap_keeps E _ s4 H4) as ((Hr4 & _) & _).
    now rewrite Hr4.
  - apply predictions_keep_inputs in H1 as [(_ & Hl1 & _) _].
    destruct (no_overlap_keeps E _ s4 H4) as ((_ & Hl4 & _) & _).
    now rewrite Hl4.
  - apply predictions_keep_inputs in H1 as [(_ & _ & Hp1 & _) _].
    destruct (no_overlap_keeps E _ s4 H4) as ((_ & _ & Hp4 & _) & _).
    now rewrite Hp4.
  - apply predictions_keep_inputs in H1 as [(_ & _ & _ & Hh1) _].
    destruct (no_overlap_keeps E _ s4 H4) as ((_ & _ & _ & Hh4) & _).
    now rewrite Hh4.
  - now destruct (no_overlap_keeps E _ s4 H4) as (_ & Hp & _).
Qed.

Lemma py_int_nonneg (x : Q) : 0 <= x -> (0 <= py_int x)%Z.
Proof.
  destruct x as [n d]. unfold Qle, py_int. simpl. intros H.
  apply Z.quot_pos; lia.
Qed.

Lemma inject_Z_nonneg (z : Z) : (0 <= z)%Z -> 0 <= inject_Z z.
Proof. intros H. unfold Qle. simpl. lia. Qed.

(** X10. With non-negative weights and student counts, every term of the
    objective that [optimize] maximizes has a non-negative coefficient and
    a variable of an existing (lesson, room) pair. *)
Theorem objective_terms_nonnegative (E : World) (self ready : RoomOptimizer)
    (cw ew tw : Q)
    (Hready : prepare E self = Ok ready)
    (Hcw : preferences self !! "capacity_weight"%string = Some cw)
    (Hew : preferences self !! "equipment_weight"%string = Some ew)
    (Htw : preferences self !! "temperature_weight"%string = Some tw)
    (Hcw0 : 0 <= cw) (Hew0 : 0 <= ew) (Htw0 : 0 <= tw)
    (Hcount : forall i lesson,
        lessons self !! i = Some lesson -> (0 <= get_student_count lesson)%Z) :
  forall t, In t (objective (model ready)) ->
    (0 <= coef t)%Z /\
    (fst (tvar t) < length (lessons self))%nat /\
    (snd (tvar t) < length (rooms self))%nat.
Proof.
  destruct (prepare_stages E self ready Hready)
    as (s1 & s4 & t1 & t2 & t3 & _ & _ & Ht1 & Ht2 & Ht3 & -> & Hsame & _).
  destruct Hsame as (Hr & Hl & Hp & Hh).
  rewrite <- Hp in Hcw, Hew, Htw. rewrite <- Hl in Hcount.
  rewrite <- Hl, <- Hr. simpl.
  rewrite (capacity_fit_objective_closed s4 cw Hcw) in Ht1.
  rewrite (temperature_objective_closed s4 tw Htw) in Ht3.
  apply (equipment_objective_ok E s4 ew t2 Hew) in Ht2.
  inversion Ht1; subst t1; clear Ht1. inversion Ht3; subst t3; clear Ht3.
  subst t2.
  intros t Ht. apply in_app_or in Ht as [Ht | Ht];
    [| apply in_app_or in Ht as [Ht | Ht]].
  - apply (in_pairs (lessons s4) (rooms s4)
             (fun i lesson j room =>
                if (capacity room >=? get_student_count lesson)%Z
                then [{| coef :=
                           py_int (capacity_ratio (get_student_count lesson)
                                                  (capacity room) * 100 * cw);
                         tvar := (i, j) |}]
                else [])) in Ht.
    destruct Ht as (i & lesson & j & room & Hi & Hj & Ht).
    destruct (capacity room >=? get_student_count lesson)%Z; [| destruct Ht].
    destruct Ht as [<- | []]. simpl. split; [| split].
    + apply py_int_nonneg.
      apply Qmult_le_0_compat; [| exact Hcw0].
      apply Qmult_le_0_compat; [| lra].
      apply capacity_ratio_nonneg. eauto.
    + eapply lookup_lt_Some; eauto.
    + eapply lookup_lt_Some; eauto.
  - apply (in_pairs (lessons s4) (rooms s4)
             (fun i lesson j room =>
                match fromisoformat E (replace_Z (start_time lesson)) with
                | Ok dt =>
                    match dt_gt dt (seven_days_from_now s4) with
                    | Ok beyond =>
                        [{| coef :=
                              py_int
                                (inject_Z
                                   (if beyond then static_equipment_score room
                                    else forecast_equipment_score room
                                           (get_prediction s4 i j))
                                 * ew);
                            tvar := (i, j) |}]
                    | Raise _ => []
                    end
                | Raise _ => []
                end)) in Ht.
    destruct Ht as (i & lesson & j & room & Hi & Hj & Ht).
    destruct (fromisoformat E (replace_Z (start_time lesson))) as [dt|e];
      [| destruct Ht].
    destruct (dt_gt dt (seven_days_from_now s4)) as [beyond|e]; [| destruct Ht].
    destruct Ht as [<- | []]. simpl. split; [| split].
    + apply py_int_nonneg.
      apply Qmult_le_0_compat; [| exact Hew0].
      apply inject_Z_nonneg.
      destruct beyond;
        [apply static_equipment_score_nonneg
        | apply forecast_equipment_score_nonneg].
    + eapply lookup_lt_Some; eauto.
    + eapply lookup_lt_Some; eauto.
  - apply (in_pairs (lessons s4) (rooms s4)
             (fun i _ j _ =>
                [{| coef := py_int (temp_score (get_prediction s4 i j) * tw);
                    tvar := (i, j) |}])) in Ht.
    destruct Ht as (i & lesson & j & room & Hi & Hj & [<- | []]).
    simpl. split; [| split].
    + apply py_int_nonneg.
      apply Qmult_le_0_compat; [apply temp_score_nonneg | exact Htw0].
    + eapply lookup_lt_Some; eauto.
    + eapply lookup_lt_Some; eauto.
Qed.

(** X11. When the regression model cannot be loaded, a fresh optimizer reads
    21 degrees for every pair; the temperature terms then all carry the same
    coefficient [int(100 * w)], and the equipment terms of the lessons
    within the horizon are all 0, so that among such lessons only the
    capacity fit tells rooms apart. *)
Theorem no_model_flat_objective (E : World) (rs : list Room) (ls : list Lesson)
    (prefs : option (gmap string Q)) (ready : RoomOptimizer)
    (Hload : joblib_load E = None)
    (Hready : prepare E (__init__ E rs ls prefs) = Ok ready) :
  (forall i j, get_prediction ready i j = 21) /\
  (forall terms tw,
      preferences ready !! "temperature_weight"%string = Some tw ->
      _add_temperature_objective ready = Ok terms ->
      forall t, In t terms -> coef t = py_int (100 * tw)) /\
  (forall terms ew,
      preferences ready !! "equipment_weight"%string = Some ew ->
      _add_equipment_objective E ready = Ok terms ->
      forall t lesson,
        In t terms ->
        ls !! fst (tvar t) = Some lesson ->
        dt_gt (start_datetime lesson) (seven_days_from_now ready) = Ok false ->
        coef t = 0%Z).
Proof.
  destruct (prepare_stages E _ ready Hready)
    as (s1 & s4 & t1 & t2 & t3 & H1 & _ & _ & _ & _ & -> & Hsame & Hpred).
  destruct Hsame as (Hr & Hl & Hp & Hh).
  unfold _calculate_all_temperature_predictions in H1. rewrite Hload in H1.
  inversion H1; subst s1; clear H1. simpl in Hpred, Hl.
  assert (Hget : forall i j,
             get_prediction (set_model s4 (Maximize (model s4) (t1 ++ t2 ++ t3)))
               i j = 21).
  { intros i j. unfold get_prediction. simpl. rewrite Hpred.
    now rewrite lookup_empty. }
  split; [exact Hget |]. split.
  - intros terms tw Htw Hrun t Ht.
    rewrite (temperature_objective_closed _ tw Htw) in Hrun.
    inversion Hrun; subst terms; clear Hrun.
    apply in_flat_map in Ht as (il & _ & Ht).
    apply in_flat_map in Ht as (jr & _ & [<- | []]). simpl.
    now rewrite Hget.
  - intros terms ew Hew Hrun t lesson Ht Hlesson Hwithin.
    apply (equipment_objective_ok E _ ew terms Hew) in Hrun. subst terms.
    apply in_flat_map in Ht as ([i lesson'] & Hil & Ht).
    apply in_flat_map in Ht as ([j room] & _ & Ht).
    apply in_enumerate in Hil. simpl in Hil, Ht.
    rewrite fromisoformat_replace_Z in Ht.
    destruct (dt_gt (start_datetime lesson') (seven_days_from_now s4))
      as [beyond|e] eqn:Hb; [| destruct Ht].
    destruct Ht as [<- | []]. simpl in Hlesson |- *.
    rewrite Hl in Hil. assert (lesson' = lesson) by congruence. subst lesson'.
    simpl in Hwithin. rewrite Hb in Hwithin. inversion Hwithin; subst beyond.
    rewrite Hget.
    destruct (equipment_score_zero_at_21 room) as [-> _]. reflexivity.
Qed.

(** X12. What [optimize] answers: "empty", with no solver statistics,
    exactly when there is no lesson; otherwise "optimal" when the solver
    reports OPTIMAL, "feasible" when it reports FEASIBLE, and "infeasible"
    with an empty assignment list for every other solver status, unknown
    and invalid included; the solver statistics are those of the run. *)
Theorem optimize_result_status (E : World) (self : RoomOptimizer)
    (res : OptimizationResult)
    (Hrun : optimize E self = Ok res) :
  (lessons self = [] /\ res = _format_empty_result) \/
  (lessons self <> [] /\
   exists ready,
     prepare E self = Ok ready /\
     solver_stats res = Some (stats_of (Solve E (model ready))) /\
     match status (Solve E (model ready)) with
     | OPTIMAL =>
         result_status res = "optimal"%string /\
         _extract_solution ready (Solve E (model ready)) = Ok res
     | FEASIBLE =>
         result_status res = "feasible"%string /\
         _extract_solution ready (Solve E (model ready)) = Ok res
     | _ =>
         result_status res = "infeasible"%string /\ assignments res = []
     end).
Proof.
  unfold optimize in Hrun.
  destruct (lessons self) as [|l0 ls0] eqn:Hls.
  - left. inversion Hrun. auto.
  - right. split; [discriminate |].
    destruct (prepare E self) as [ready|e]; [|discriminate].
    simpl in Hrun. exists ready. split; [reflexivity |].
    assert (Hextract : forall res0,
               _extract_solution ready (Solve E (model ready)) = Ok res0 ->
               solver_stats res0 = Some (stats_of (Solve E (model ready))) /\
               result_status res0
               = match status (Solve E (model ready)) with
                 | OPTIMAL => "optimal"%string
                 | _ => "feasible"%string
                 end).
    { intros res0 H0. unfold _extract_solution in H0.
      destruct (foldM (extract_lesson_step ready (Solve E (model ready)))
                  (enumerate (lessons ready)) []) as [out|e]; [|discriminate].
      simpl in H0. inversion H0. simpl. auto. }
    destruct (status (Solve E (model ready))) eqn:Hst;
      try (inversion Hrun; subst res; simpl; auto; fail).
    + destruct (Hextract res Hrun) as [Hs Hr]. auto.
    + destruct (Hextract res Hrun) as [Hs Hr]. auto.
Qed.

(** ** The prediction pass and time zones *)

Lemma predict_lesson_step_range (E : World) (mdl : regression_model E)
    (s s' : RoomOptimizer) (i : nat) (lesson : Lesson) (j : nat) :
  predict_lesson_step E mdl s (i, lesson) = Ok s' ->
  (length (rooms s) <= j)%nat ->
  temperature_predictions s' !! (i, j) = temperature_predictions s !! (i, j).
Proof.
  unfold predict_lesson_step. simpl. rewrite fromisoformat_replace_Z. simpl.
  destruct (dt_gt (start_datetime lesson) (seven_days_from_now s))
    as [beyond|e]; [|discriminate].
  simpl. intros Hs' Hj.
  destruct beyond; inversion Hs'; subst s'; clear Hs'.
  - apply (fold_left_keep_in
             (fun s0 => temperature_predictions s0 !! (i, j)
                        = temperature_predictions s !! (i, j)));
      [| reflexivity].
    intros b j' Hin Hb. apply in_seq in Hin. simpl.
    rewrite lookup_insert_ne; [exact Hb |]. intros Heq. inversion Heq. lia.
  - apply (fold_left_keep_in
             (fun s0 => temperature_predictions s0 !! (i, j)
                        = temperature_predictions s !! (i, j)));
      [| reflexivity].
    intros b [j' room'] Hin Hb. apply in_enumerate in Hin.
    apply lookup_lt_Some in Hin.
    rewrite predict_room_step_eq. simpl.
    rewrite lookup_insert_ne; [exact Hb |]. intros Heq. inversion Heq. lia.
Qed.

Lemma predictions_out_of_range (E : World) (self s1 : RoomOptimizer)
    (i j : nat) :
  _calculate_all_temperature_predictions E self = Ok s1 ->
  (length (lessons self) <= i)%nat \/ (length (rooms self) <= j)%nat ->
  temperature_predictions s1 !! (i, j) = temperature_predictions self !! (i, j).
Proof.
  intros Hrun Hout. unfold _calculate_all_temperature_predictions in Hrun.
  destruct (joblib_load E) as [mdl|]; [| now inversion Hrun].
  eapply (foldM_keep_in
            (fun s => same_inputs self s /\
                      temperature_predictions s !! (i, j)
                      = temperature_predictions self !! (i, j)));
    [| exact Hrun | split; [apply same_inputs_refl | reflexivity]].
  intros b [i' lesson'] b' Hin Hstep [Hinv Hb].
  apply in_enumerate in Hin. apply lookup_lt_Some in Hin.
  destruct (predict_lesson_step_spec E mdl b b' i' lesson' Hstep)
    as (Hsame & _ & Hother).
  split; [eapply same_inputs_trans; eauto |].
  destruct (Nat.eq_dec i i') as [-> | Hne].
  - destruct Hout as [Hi | Hj]; [lia |].
    rewrite (predict_lesson_step_range E mdl b b' i' lesson' j Hstep);
      [exact Hb |].
    destruct Hinv as (Hrb & _). now rewrite Hrb.
  - rewrite Hother; [exact Hb | exact Hne].
Qed.

(** X13. The prediction pass writes predictions for pairs of an existing
    lesson and an existing room only, and touches nothing else of the
    optimizer: rooms, lessons, preferences, horizon and model are as
    before, and so is every entry of the map under an out-of-range key. *)
Theorem predictions_only_in_range (E : World) (self s1 : RoomOptimizer)
    (Hrun : _calculate_all_temperature_predictions E self = Ok s1) :
  rooms s1 = rooms self /\ lessons s1 = lessons self /\
  preferences s1 = preferences self /\ model s1 = model self /\
  seven_days_from_now s1 = seven_days_from_now self /\
  forall i j,
    temperature_predictions s1 !! (i, j) <> temperature_predictions self !! (i, j) ->
    (i < length (lessons self))%nat /\ (j < length (rooms self))%nat.
Proof.
  destruct (predictions_keep_inputs E self s1 Hrun) as [(Hr & Hl & Hp & Hh) Hm].
  do 5 (split; [assumption |]).
  intros i j Hne.
  destruct (le_lt_dec (length (lessons self)) i) as [Hi | Hi].
  { exfalso. apply Hne. apply (predictions_out_of_range E self s1 i j Hrun). auto. }
  destruct (le_lt_dec (length (rooms self)) j) as [Hj | Hj].
  { exfalso. apply Hne. apply (predictions_out_of_range E self s1 i j Hrun). auto. }
  auto.
Qed.

Lemma aware_start_raises (E : World) (rs : list Room)
    (ls : list Lesson) (prefs : option (gmap string Q))
    (i : nat) (lesson : Lesson)
    (Hrooms : rs <> [])
    (Hi : ls !! i = Some lesson)
    (Haware : iso_tz (start_time lesson) <> NoTz) :
  exists e, optimize E (__init__ E rs ls prefs) = Raise e.
Proof.
  destruct (optimize E (__init__ E rs ls prefs)) as [res|e] eqn:Hrun;
    [exfalso | eauto].
  unfold optimize in Hrun. simpl in Hrun.
  destruct ls as [|l0 ls0] eqn:Hls; [discriminate |]. rewrite <- Hls in *.
  assert (Hls' : lessons (__init__ E rs ls prefs) = ls) by reflexivity.
  destruct (prepare E (__init__ E rs ls prefs)) as [ready|e] eqn:Hready;
    [| discriminate].
  destruct (prepare_stages E _ ready Hready)
    as (s1 & s4 & t1 & t2 & t3 & _ & _ & _ & Ht2 & _ & _ & Hsame & _).
  destruct Hsame as (Hr & Hl & _ & Hh). simpl in Hr, Hl, Hh.
  destruct rs as [|room0 rs0]; [contradiction |].
  destruct (equipment_objective_steps E s4 t2 i 0 lesson room0 Ht2)
    as (dt & beyond & Hdt & Hb).
  { now rewrite Hl. }
  { now rewrite Hr. }
  rewrite fromisoformat_replace_Z in Hdt. inversion Hdt; subst dt.
  rewrite Hh in Hb. unfold dt_gt, dt_lt, start_datetime in Hb. simpl in Hb.
  destruct (iso_tz (start_time lesson)); [contradiction | |]; discriminate.
Qed.

(** X14. Whenever there is at least one room and some lesson's start time
    carries a time-zone designator ("Z" or an offset such as "+00:00"),
    [optimize] on a fresh optimizer raises an exception: no input of this
    kind ever gets a result. *)
Theorem optimize_raises_on_aware_start (E : World) (rs : list Room)
    (ls : list Lesson) (prefs : option (gmap string Q))
    (i : nat) (lesson : Lesson)
    (Hrooms : rs <> [])
    (Hi : ls !! i = Some lesson)
    (Haware : iso_tz (start_time lesson) <> NoTz) :
  exists e, optimize E (__init__ E rs ls prefs) = Raise e.
Proof. exact (aware_start_raises E rs ls prefs i lesson Hrooms Hi Haware). Qed.

(** ** Reported sub-scores *)

Lemma round_half_even_range (x : Q) (n : Z) :
  0 <= x -> x <= inject_Z n ->
  (0 <= round_half_even x <= n)%Z.
Proof.
  intros H0 Hn. unfold round_half_even.
  pose proof (Qfloor_le x) as Hfl. pose proof (Qlt_floor x) as Hlt.
  assert (Hf0 : (0 <= Qfloor x)%Z).
  { change 0%Z with (Qfloor 0). now apply Qfloor_resp_le. }
  assert (Hfn : (Qfloor x <= n)%Z).
  { rewrite <- (Qfloor_Z n). now apply Qfloor_resp_le. }
  rewrite inject_Z_plus in Hlt.
  assert (Hhalf : 1 # 2 <= x - inject_Z (Qfloor x) -> (Qfloor x + 1 <= n)%Z).
  { intros Hr.
    assert (Hlt' : inject_Z (Qfloor x) < inject_Z n) by (simpl in *; lra).
    rewrite <- Zlt_Qlt in Hlt'. lia. }
  repeat qstep; try lia.
  all: destruct (Z.even (Qfloor x)); try lia.
  all: assert (Qfloor x + 1 <= n)%Z by (apply Hhalf; lra); lia.
Qed.

Lemma py_round3_unit (x : Q) : 0 <= x <= 1 -> 0 <= py_round3 x <= 1.
Proof.
  intros [H0 H1]. unfold py_round3.
  destruct (round_half_even_range (x * 1000) 1000) as [Hlo Hhi];
    [lra | unfold inject_Z; lra |].
  split; unfold Qle; cbn [Qnum Qden]; lia.
Qed.

Lemma reported_capacity_fit_unit (count cap : Z) :
  (0 <= count)%Z -> 0 <= reported_capacity_fit count cap <= 1.
Proof.
  intros Hc. unfold reported_capacity_fit.
  destruct (cap >? 0)%Z eqn:Hcap; [| lra].
  apply Z.gtb_lt in Hcap.
  assert (Hq : 0 <= inject_Z count / inject_Z cap).
  { unfold Qdiv. apply Qmult_le_0_compat; [now apply inject_Z_nonneg |].
    apply Qinv_le_0_compat. apply inject_Z_nonneg. lia. }
  unfold py_min. repeat qstep; lra.
Qed.

Lemma extract_assignment_scores (self : RoomOptimizer) (r : SolverResponse)
    (res : OptimizationResult) :
  _extract_solution self r = Ok res ->
  forall a, In a (assignments res) ->
    In (lesson_of a) (lessons self) /\
    capacity_fit (scores a)
    = py_round3 (reported_capacity_fit (get_student_count (lesson_of a))
                                       (capacity (assigned_room a))) /\
    equipment (scores a) = py_round3 (reported_equipment (assigned_room a)).
Proof.
  intros Hrun. apply extract_solution_assignments in Hrun.
  eapply (foldM_keep_in
            (fun out => forall a, In a out ->
               In (lesson_of a) (lessons self) /\
               capacity_fit (scores a)
               = py_round3 (reported_capacity_fit
                              (get_student_count (lesson_of a))
                              (capacity (assigned_room a))) /\
               equipment (scores a)
               = py_round3 (reported_equipment (assigned_room a))));
    [| exact Hrun | intros a []].
  intros out [i lesson] out' Hin Hstep Hout. apply in_enumerate in Hin.
  unfold extract_lesson_step in Hstep. simpl in Hstep.
  destruct (find_assigned_room self r i) as [room|];
    [| now inversion Hstep; subst].
  destruct (getitem (preferences self) "capacity_weight") as [cw|e];
    [|discriminate]. simpl in Hstep.
  destruct (getitem (preferences self) "equipment_weight") as [ew|e];
    [|discriminate]. simpl in Hstep.
  destruct (getitem (preferences self) "temperature_weight") as [tw|e];
    [|discriminate]. simpl in Hstep.
  inversion Hstep; subst out'; clear Hstep.
  intros a Ha. apply in_app_or in Ha as [Ha | [<- | []]]; [now apply Hout |].
  simpl. repeat split.
  eapply list_elem_of_In, list_elem_of_lookup_2. exact Hin.
Qed.

(** X15. In every extracted assignment the reported capacity fit lies
    between 0 and 1 (for non-negative student counts), and the reported
    equipment score is exactly 0.5 plus 0.25 for air conditioning plus 0.25
    for heating: rounding to 3 decimals does not change it. *)
Theorem reported_subscores_bounds (self : RoomOptimizer) (r : SolverResponse)
    (res : OptimizationResult)
    (Hrun : _extract_solution self r = Ok res)
    (Hcount : forall lesson,
        In lesson (lessons self) -> (0 <= get_student_count lesson)%Z) :
  forall a, In a (assignments res) ->
    0 <= capacity_fit (scores a) <= 1 /\
    equipment (scores a)
    == 0.5 + (if get_hasAC (assigned_room a) then 0.25 else 0)
           + (if get_hasHeater (assigned_room a) then 0.25 else 0).
Proof.
  intros a Ha.
  destruct (extract_assignment_scores self r res Hrun a Ha) as (Hl & -> & ->).
  split.
  - apply py_round3_unit. apply reported_capacity_fit_unit. now apply Hcount.
  - unfold reported_equipment.
    destruct (get_hasAC (assigned_room a)), (get_hasHeater (assigned_room a));
      reflexivity.
Qed.

(** * Date utilities *)

Lemma toordinal_midnight (n : Z) : toordinal (midnight_of_ordinal n) = n.
Proof.
  unfold toordinal, midnight_of_ordinal. simpl.
  apply Z.div_mul. unfold day_us. lia.
Qed.

Lemma add_days_ok (d d' : datetime) (n : Z) :
  add_days d n = inr d' ->
  wall d' = (wall d + n * day_us)%Z /\ utcoffset d' = utcoffset d /\
  toordinal d' = (toordinal d + n)%Z /\
  (0 < toordinal d' <= max_ordinal)%Z.
Proof.
  unfold add_days.
  destruct (Z.abs n >? max_timedelta_days)%Z; [discriminate |].
  destruct ((0 <? toordinal d + n) && (toordinal d + n <=? max_ordinal))%Z
    eqn:Hrange; [| discriminate].
  intros H. inversion H; subst d'; clear H. simpl.
  apply andb_true_iff in Hrange as [H0 H1].
  apply Z.ltb_lt in H0. apply Z.leb_le in H1.
  assert (Hord : toordinal {| wall := (wall d + n * day_us)%Z;
                              utcoffset := utcoffset d |}
                 = (toordinal d + n)%Z).
  { unfold toordinal. simpl. apply Z.div_add. unfold day_us. lia. }
  rewrite Hord. repeat split; auto.
Qed.

(** X16. When [get_week_dates] returns, the week starts on a Monday at
    midnight and ends at midnight six days later, on the Sunday: the end is
    the first instant of the last day, not its last.  Week 1 is the week
    holding January 1st, and each week starts the day after the previous
    one's end date. *)
Theorem get_week_dates_monday_to_sunday (year week_number : Z)
    (week_start week_end : datetime)
    (Hrun : get_week_dates year week_number = inr (week_start, week_end)) :
  weekday week_start = 0%Z /\ weekday week_end = 6%Z /\
  wall week_start = (toordinal week_start * day_us)%Z /\
  wall week_end = (wall week_start + 6 * day_us)%Z /\
  utcoffset week_start = None /\ utcoffset week_end = None /\
  toordinal week_start
  = (ordinal_jan_first year - (ordinal_jan_first year + 6) mod 7
     + (week_number - 1) * 7)%Z /\
  (week_number = 1%Z ->
   (toordinal week_start <= ordinal_jan_first year <= toordinal week_end)%Z) /\
  (forall next_start next_end,
      get_week_dates year (week_number + 1) = inr (next_start, next_end) ->
      toordinal next_start = (toordinal week_end + 1)%Z).
Proof.
  unfold get_week_dates in *.
  destruct ((1 <=? year) && (year <=? 9999))%Z; [| discriminate].
  set (jan := midnight_of_ordinal (ordinal_jan_first year)) in *.
  assert (Hjan : toordinal jan = ordinal_jan_first year)
    by apply toordinal_midnight.
  assert (Hwd : weekday jan = ((ordinal_jan_first year + 6) mod 7)%Z).
  { unfold weekday. now rewrite Hjan. }
  destruct (add_days jan ((week_number - 1) * 7 - weekday jan))
    as [e|ws] eqn:Hs; [discriminate |].
  destruct (add_days ws 6) as [e|we] eqn:He; [discriminate |].
  inversion Hrun; subst ws we; clear Hrun.
  apply add_days_ok in Hs as (Hws & Hos & Hords & _).
  apply add_days_ok in He as (Hwe & Hoe & Horde & _).
  rewrite Hjan, Hwd in Hords.
  assert (Hmod : ((toordinal week_start + 6) mod 7 = 0)%Z).
  { rewrite Hords.
    pose proof (Z.mod_pos_bound (ordinal_jan_first year + 6) 7 ltac:(lia)).
    pose proof (Z.div_mod (ordinal_jan_first year + 6) 7 ltac:(lia)).
    replace (ordinal_jan_first year
             + ((week_number - 1) * 7 - (ordinal_jan_first year + 6) mod 7) + 6)%Z
      with (0 + ((ordinal_jan_first year + 6) / 7 + (week_number - 1)) * 7)%Z
      by lia.
    now rewrite Z.mod_add by lia. }
  split; [exact Hmod |]. split.
  { unfold weekday. rewrite Horde.
    replace (toordinal week_start + 6 + 6)%Z
      with ((toordinal week_start + 6) + 6)%Z by lia.
    rewrite Z.add_mod, Hmod by lia. reflexivity. }
  split.
  { rewrite Hws, Hords, Hwd. unfold jan, midnight_of_ordinal. simpl. lia. }
  split; [exact Hwe |].
  split; [now rewrite Hos |]. split; [now rewrite Hoe, Hos |].
  split; [rewrite Hords; lia |]. split.
  { intros ->. rewrite Horde, Hords.
    pose proof (Z.mod_pos_bound (ordinal_jan_first year + 6) 7 ltac:(lia)). lia. }
  intros ns ne Hnext. fold jan in Hnext.
  destruct (add_days jan ((week_number + 1 - 1) * 7 - weekday jan))
    as [e|ns'] eqn:Hs'; [discriminate |].
  destruct (add_days ns' 6) as [e|ne'] eqn:He'; [discriminate |].
  inversion Hnext; subst ns' ne'; clear Hnext.
  apply add_days_ok in Hs' as (_ & _ & Hords' & _).
  rewrite Hjan, Hwd in Hords'. rewrite Hords', Horde, Hords. lia.
Qed.

(** X17. [get_week_dates] returns for every year from 1 to 9998 and every
    week number from 1 to 53; the two additions of days stay within the
    range of dates. *)
Theorem get_week_dates_returns (year week_number : Z)
    (Hyear : (1 <= year <= 9998)%Z)
    (Hweek : (1 <= week_number <= 53)%Z) :
  exists week_start week_end,
    get_week_dates year week_number = inr (week_start, week_end).
Proof.
  unfold get_week_dates.
  assert (Hy : ((1 <=? year) && (year <=? 9999))%Z = true).
  { apply andb_true_iff. split; [apply Z.leb_le | apply Z.leb_le]; lia. }
  rewrite Hy.
  set (jan := midnight_of_ordinal (ordinal_jan_first year)).
  assert (Hjan : toordinal jan = ordinal_jan_first year)
    by apply toordinal_midnight.
  assert (Hwd : weekday jan = ((ordinal_jan_first year + 6) mod 7)%Z).
  { unfold weekday. now rewrite Hjan. }
  assert (Hbounds :
            (1 <= ordinal_jan_first year - (ordinal_jan_first year + 6) mod 7)%Z /\
            (ordinal_jan_first year <= 3651330)%Z /\
            (0 <= (ordinal_jan_first year + 6) mod 7 < 7)%Z).
  { unfold ordinal_jan_first, days_before_year.
    Z.div_mod_to_equations. lia. }
  destruct Hbounds as (Hlow & Hhigh & Hmod).
  unfold add_days at 1. rewrite Hjan, Hwd.
  assert (H1 : (Z.abs ((week_number - 1) * 7 - (ordinal_jan_first year + 6) mod 7)
                >? max_timedelta_days)%Z = false).
  { rewrite Z.gtb_ltb. apply Z.ltb_ge. unfold max_timedelta_days. lia. }
  rewrite H1.
  assert (H2 : ((0 <? ordinal_jan_first year
                      + ((week_number - 1) * 7
                         - (ordinal_jan_first year + 6) mod 7))
                && (ordinal_jan_first year
                    + ((week_number - 1) * 7
                       - (ordinal_jan_first year + 6) mod 7)
                    <=? max_ordinal))%Z = true).
  { apply andb_true_iff. unfold max_ordinal.
    split; [apply Z.ltb_lt | apply Z.leb_le]; lia. }
  rewrite H2.
  unfold add_days.
  assert (H3 : (Z.abs 6 >? max_timedelta_days)%Z = false) by reflexivity.
  rewrite H3.
  match goal with
  | |- context [toordinal ?d] =>
      assert (Hord : toordinal d
                     = (ordinal_jan_first year
                        + ((week_number - 1) * 7
                           - (ordinal_jan_first year + 6) mod 7))%Z)
  end.
  { unfold toordinal, jan, midnight_of_ordinal. simpl.
    rewrite <- Z.mul_add_distr_r. apply Z.div_mul. unfold day_us. lia. }
  rewrite Hord.
  assert (H4 : ((0 <? ordinal_jan_first year
                      + ((week_number - 1) * 7
                         - (ordinal_jan_first year + 6) mod 7) + 6)
                && (ordinal_jan_first year
                    + ((week_number - 1) * 7
                       - (ordinal_jan_first year + 6) mod 7) + 6
                    <=? max_ordinal))%Z = true).
  { apply andb_true_iff. unfold max_ordinal.
    split; [apply Z.ltb_lt | apply Z.leb_le]; lia. }
  rewrite H4. eauto.
Qed.

(** The last week of the last year cannot be built: its end falls after
    9999-12-31. *)
Lemma get_week_dates_last_week_overflows :
  get_week_dates 9999 53 = inl DateOverflowError /\
  get_week_dates 0 1 = inl DateValueError.
Proof. split; vm_compute; reflexivity. Qed.

Lemma toordinal_bounds (d : datetime) :
  (toordinal d * day_us <= wall d < toordinal d * day_us + day_us)%Z.
Proof.
  unfold toordinal.
  pose proof (Z.div_mod (wall d) day_us ltac:(unfold day_us; lia)) as Hdm.
  pose proof (Z.mod_pos_bound (wall d) day_us ltac:(unfold day_us; lia)) as Hb.
  lia.
Qed.

(** X18. When [parse_date_range] returns, the start is the midnight that
    opens the day of the parsed start and the end is the last microsecond
    of the day of the parsed end, each with the time zone of its string.
    Every instant of a day from the start date to the end date lies within
    the range, and an end date before the start date gives a range whose
    end precedes its start.  The function raises only where
    [fromisoformat] does. *)
Theorem parse_date_range_covers_days (E : World)
    (start_date_str end_date_str : iso_string) (start_date end_date : datetime)
    (Hrun : parse_date_range E start_date_str end_date_str
            = Ok (start_date, end_date)) :
  exists s0 e0,
    fromisoformat E start_date_str = Ok s0 /\
    fromisoformat E end_date_str = Ok e0 /\
    utcoffset start_date = utcoffset s0 /\ utcoffset end_date = utcoffset e0 /\
    wall start_date = (toordinal s0 * day_us)%Z /\
    wall end_date = (toordinal e0 * day_us + day_us - 1)%Z /\
    (wall start_date <= wall s0)%Z /\ (wall e0 <= wall end_date)%Z /\
    (forall t : datetime,
        (toordinal s0 <= toordinal t <= toordinal e0)%Z ->
        (wall start_date <= wall t <= wall end_date)%Z) /\
    ((toordinal e0 < toordinal s0)%Z -> (wall end_date < wall start_date)%Z).
Proof.
  unfold parse_date_range in Hrun.
  destruct (fromisoformat E start_date_str) as [s0|e] eqn:Hs; [| discriminate].
  simpl in Hrun.
  destruct (fromisoformat E end_date_str) as [e0|e] eqn:He; [| discriminate].
  simpl in Hrun. inversion Hrun; subst start_date end_date; clear Hrun.
  exists s0, e0. simpl.
  pose proof (toordinal_bounds s0) as Hbs.
  pose proof (toordinal_bounds e0) as Hbe.
  assert (Hday : (0 < day_us)%Z) by (unfold day_us; lia).
  repeat split; auto; try lia.
  - destruct H as [H1 _]. pose proof (toordinal_bounds t). nia.
  - destruct H as [_ H2]. pose proof (toordinal_bounds t). nia.
  - nia.
Qed.

Lemma parse_date_range_raises (E : World) (s e : iso_string) :
  (exists r, parse_date_range E s e = Ok r) \/
  (parse_date_range E s e = Raise ValueError /\
   accepts_zulu E = false /\ (iso_tz s = Zulu \/ iso_tz e = Zulu)).
Proof.
  unfold parse_date_range, fromisoformat.
  destruct (iso_tz s) eqn:Hs, (iso_tz e) eqn:He, (accepts_zulu E) eqn:Hz;
    simpl; eauto; right; auto.
Qed.

(** * The services and the planning route *)

(** X19. A lesson built by the lesson service from a database row reads
    back as the row's timestamps, on every interpreter version: the strings
    written by [isoformat] never end in "Z", so the replacement of "Z" leaves
    them alone and [fromisoformat] never rejects them.  The student count is
    always present, so its default of 0 is never used. *)
Theorem lesson_of_row_round_trip (E : World) (row : LessonRow) :
  fromisoformat E (start_time (lesson_of_row row)) = Ok (row_start_time row) /\
  fromisoformat E (end_time (lesson_of_row row)) = Ok (row_end_time row) /\
  replace_Z (start_time (lesson_of_row row)) = start_time (lesson_of_row row) /\
  replace_Z (end_time (lesson_of_row row)) = end_time (lesson_of_row row) /\
  lesson_interval E (lesson_of_row row)
  = Ok (row_start_time row, row_end_time row) /\
  get_student_count (lesson_of_row row) = row_student_count row.
Proof.
  assert (Hrt : forall d, fromisoformat E (isoformat d) = Ok d).
  { intros [w [m|]]; reflexivity. }
  assert (Hrep : forall d, replace_Z (isoformat d) = isoformat d).
  { intros [w [m|]]; reflexivity. }
  unfold lesson_interval. simpl. rewrite !Hrt, !Hrep. simpl.
  repeat split; reflexivity.
Qed.

Lemma update_rooms_count {Db : Type} (svc : Services Db) (todo : list Assignment) :
  forall db n db' m,
    update_rooms svc db todo n = (db', Some m) ->
    (n <= m <= n + length todo)%nat.
Proof.
  induction todo as [|a todo IH]; intros db n db' m Hrun; simpl in Hrun.
  - inversion Hrun. simpl. lia.
  - destruct (update_lesson_room svc db (lesson_of a) (assigned_room a))
      as [db1 [[|]|]]; [| | discriminate];
      apply IH in Hrun; simpl; lia.
Qed.

Lemma extract_loop_length (self : RoomOptimizer) (r : SolverResponse)
    (l : list (nat * Lesson)) :
  forall acc out,
    foldM (extract_lesson_step self r) l acc = Ok out ->
    (length out <= length acc + length l)%nat.
Proof.
  induction l as [|[i lesson] l IH]; intros acc out Hrun; simpl in Hrun.
  - inversion Hrun. simpl. lia.
  - destruct (extract_lesson_step self r acc (i, lesson)) as [acc'|e] eqn:Hstep;
      [| discriminate].
    apply IH in Hrun. apply extract_lesson_step_shape in Hstep.
    destruct (find_assigned_room self r i).
    + destruct Hstep as [sc ->]. rewrite length_app in Hrun. simpl in *. lia.
    + subst acc'. simpl. lia.
Qed.

Lemma enumerate_from_length {A : Type} (l : list A) (n : nat) :
  length (enumerate_from n l) = length l.
Proof. revert n. induction l as [|x l IH]; intros n; simpl; auto. Qed.

(** What [optimize] can answer when there is at least one lesson. *)
Lemma optimize_nonempty_result (E : World) (self : RoomOptimizer)
    (res : OptimizationResult) :
  lessons self <> [] -> optimize E self = Ok res ->
  (is_success_status (result_status res) = true \/
   (result_status res = "infeasible"%string /\ assignments res = [])) /\
  (exists stats, solver_stats res = Some stats) /\
  (length (assignments res) <= length (lessons self))%nat.
Proof.
  intros Hne Hrun. unfold optimize in Hrun.
  destruct (lessons self) as [|l0 ls0] eqn:Hls; [contradiction |].
  destruct (prepare E self) as [ready|e] eqn:Hready; [| discriminate].
  simpl in Hrun.
  destruct (prepare_model E self ready Hready) as ((_ & Hl & _) & _).
  assert (Hextract : forall res0,
             _extract_solution ready (Solve E (model ready)) = Ok res0 ->
             (is_success_status (result_status res0) = true \/
              (result_status res0 = "infeasible"%string /\ assignments res0 = [])) /\
             (exists stats, solver_stats res0 = Some stats) /\
             (length (assignments res0) <= length (l0 :: ls0))%nat).
  { intros res0 H0.
    pose proof (extract_solution_assignments _ _ _ H0) as Hloop.
    apply extract_loop_length in Hloop.
    unfold enumerate in Hloop. rewrite enumerate_from_length, Hl, Hls in Hloop.
    unfold _extract_solution in H0.
    destruct (foldM (extract_lesson_step ready (Solve E (model ready)))
                (enumerate (lessons ready)) []) as [out|e]; [|discriminate].
    simpl in H0. inversion H0; subst res0. simpl in *.
    split; [| split; [eauto | exact Hloop]].
    left. now destruct (status (Solve E (model ready))). }
  destruct (status (Solve E (model ready)));
    try (apply Hextract; exact Hrun);
    inversion Hrun; subst res; simpl;
    (split; [right; auto | split; [eauto | lia]]).
Qed.

(** X20. What the planning route answers.  A missing date key gives 400
    and no lessons gives 200, both without touching the database.  Success
    gives 200 with the status "optimal" or "feasible", the solver
    statistics, and a count of updated lessons that never exceeds the total
    number of lessons.  Failure gives 400, always with the status
    "infeasible" and the solver statistics, and leaves the database as it
    was.  Every exception gives 500. *)
Theorem planning_response_shape {Db : Type} (E : World) (svc : Services Db)
    (db db' : Db) (request_json : option RequestData)
    (body : ResponseBody) (code : Z)
    (Hrun : optimize_weekly_planning E svc db request_json = (db', (body, code))) :
  match body with
  | MissingFieldsBody =>
      code = 400%Z /\ db' = db /\
      exists data, request_json = Some data /\
                   (start_date_field data = None \/ end_date_field data = None)
  | ExceptionBody => code = 500%Z
  | NoLessonsBody range_start range_end => code = 200%Z /\ db' = db
  | OptimizedBody status_text updated total stats =>
      code = 200%Z /\
      (status_text = "optimal"%string \/ status_text = "feasible"%string) /\
      (updated <= total)%nat /\ (exists s, stats = Some s)
  | FailedBody status_text stats =>
      code = 400%Z /\ status_text = "infeasible"%string /\ db' = db /\
      (exists s, stats = Some s)
  end.
Proof.
  unfold optimize_weekly_planning, planning_try in Hrun.
  destruct request_json as [data|]; [| now inversion Hrun].
  destruct (start_date_field data) as [sd|] eqn:Hsd;
    [| inversion Hrun; subst; repeat split; eauto].
  destruct (end_date_field data) as [ed|] eqn:Hed;
    [| inversion Hrun; subst; repeat split; eauto].
  destruct (json_fromisoformat E sd) as [s0|e]; [| now inversion Hrun].
  destruct (json_fromisoformat E ed) as [e0|e]; [| now inversion Hrun].
  destruct (get_lessons_for_date_range svc db s0 e0) as [[|l ls]|];
    [now inversion Hrun | | now inversion Hrun].
  destruct (get_all_rooms svc db) as [rooms0|]; [| now inversion Hrun].
  destruct (optimize E (__init__ E rooms0 (l :: ls) (get_preferences data)))
    as [res|e] eqn:Hopt; [| now inversion Hrun].
  assert (Hne : lessons (__init__ E rooms0 (l :: ls) (get_preferences data)) <> [])
    by (simpl; discriminate).
  destruct (optimize_nonempty_result E _ res Hne Hopt)
    as (Hstatus & Hstats & Hlen).
  destruct (is_success_status (result_status res)) eqn:Hsucc.
  - destruct (update_rooms svc db (assignments res) 0) as [db1 [n|]] eqn:Hupd;
      [| now inversion Hrun].
    inversion Hrun; subst. apply update_rooms_count in Hupd.
    split; [reflexivity |]. split.
    + unfold is_success_status in Hsucc. apply orb_true_iff in Hsucc.
      destruct Hsucc as [H | H]; apply String.eqb_eq in H; auto.
    + split; [simpl in *; lia | exact Hstats].
  - inversion Hrun; subst.
    destruct Hstatus as [Hs | [Hs _]]; [congruence |].
    repeat split; auto.
Qed.

Lemma init_defaults (E : World) (rs : list Room) (ls : list Lesson)
    (p : option (gmap string Q)) :
  p = None \/ p = Some ∅ \/ p = Some default_preferences ->
  __init__ E rs ls p = __init__ E rs ls (Some default_preferences).
Proof.
  intros [-> | [-> | ->]]; reflexivity.
Qed.

(** X21. A request without a "preferences" key, with [null] under it or
    with an empty object is answered exactly as a request that spells out
    the default weights (capacity 0.5, equipment 0.2, temperature 0.3). *)
Theorem planning_default_preferences {Db : Type} (E : World) (svc : Services Db)
    (db : Db) (sd ed : option json_date)
    (p : option (option (gmap string Q)))
    (Hp : p = None \/ p = Some None \/ p = Some (Some ∅)) :
  optimize_weekly_planning E svc db
    (Some {| start_date_field := sd; end_date_field := ed;
             preferences_field := p |})
  = optimize_weekly_planning E svc db
      (Some {| start_date_field := sd; end_date_field := ed;
               preferences_field := Some (Some default_preferences) |}).
Proof.
  unfold optimize_weekly_planning, planning_try. simpl.
  destruct sd as [sd|], ed as [ed|]; try reflexivity.
  destruct (json_fromisoformat E sd) as [s0|e]; [| reflexivity].
  destruct (json_fromisoformat E ed) as [e0|e]; [| reflexivity].
  destruct (get_lessons_for_date_range svc db s0 e0) as [[|l ls]|];
    try reflexivity.
  destruct (get_all_rooms svc db) as [rooms0|]; [| reflexivity].
  unfold get_preferences. simpl.
  rewrite (init_defaults E rooms0 (l :: ls)
             (match p with None => Some ∅ | Some v => v end)).
  - reflexivity.
  - destruct Hp as [-> | [-> | ->]]; auto.
Qed.




(** X23. When some lesson row holds a timestamp with a time zone and there
    is at least one room, the route answers 500 and the database is left as
    it was: the optimizer raises before any room is written back. *)
Theorem planning_fails_on_aware_rows {Db : Type} (E : World)
    (svc : Services Db) (db : Db) (data : RequestData)
    (sd ed : json_date) (s0 e0 : datetime)
    (rows : list LessonRow) (room_rows : list RoomRow) (row : LessonRow)
    (Hsd : start_date_field data = Some sd)
    (Hed : end_date_field data = Some ed)
    (Hs0 : json_fromisoformat E sd = Ok s0)
    (He0 : json_fromisoformat E ed = Ok e0)
    (Hrows : query_lessons svc db s0 e0 = Some rows)
    (Hrow : In row rows)
    (Haware : utcoffset (row_start_time row) <> None)
    (Hrooms : query_rooms svc db = Some room_rows)
    (Hsome : room_rows <> []) :
  optimize_weekly_planning E svc db (Some data) = (db, (ExceptionBody, 500%Z)).
Proof.
  unfold optimize_weekly_planning, planning_try.
  rewrite Hsd, Hed, Hs0, He0.
  unfold get_lessons_for_date_range, get_all_rooms. rewrite Hrows, Hrooms.
  simpl.
  assert (Hin : In (lesson_of_row row) (map lesson_of_row rows))
    by (now apply in_map).
  apply list_elem_of_In, list_elem_of_lookup_1 in Hin as [i Hi].
  destruct (aware_start_raises E (map room_of_row room_rows)
              (map lesson_of_row rows) (get_preferences data) i
              (lesson_of_row row)) as [e He]; auto.
  { destruct room_rows; [contradiction | discriminate]. }
  { unfold lesson_of_row, isoformat. simpl.
    destruct (utcoffset (row_start_time row)); [discriminate | contradiction]. }
  destruct (map lesson_of_row rows) as [|l ls] eqn:Hls; [discriminate |].
  now rewrite He.
Qed.

(** * Sensor data *)




Lemma start_of_hour_bounds (d : datetime) :
  (wall (start_of_hour d) <= wall d < wall (start_of_hour d) + hour_us)%Z /\
  utcoffset (start_of_hour d) = utcoffset d.
Proof.
  unfold start_of_hour. simpl.
  pose proof (Z.div_mod (wall d) hour_us ltac:(unfold hour_us; lia)) as Hdm.
  pose proof (Z.mod_pos_bound (wall d) hour_us ltac:(unfold hour_us; lia)) as Hb.
  split; [lia | reflexivity].
Qed.

(** X25. The hourly reading falls back on the latest readings in two ways:
    when the hour holds no temperature reading it takes the latest readings
    before the start of the hour, and when one of its queries raises it
    takes the latest readings before the requested instant itself.  The
    start of the hour is at most one hour before the requested instant. *)
Theorem hourly_data_fallbacks (db : SensorDb) (now0 : datetime)
    (room_id : string) (target_datetime hour_end : datetime)
    (Hend : add_hour (start_of_hour target_datetime) = inr hour_end) :
  let hour_start := start_of_hour target_datetime in
  (wall hour_start <= wall target_datetime < wall hour_start + hour_us)%Z /\
  wall hour_end = (wall hour_start + hour_us)%Z /\
  ((select_hour_temperature db room_id hour_start hour_end = None \/
    select_hour_average db HumidityTable room_id hour_start hour_end = None \/
    select_hour_average db PressureTable room_id hour_start hour_end = None) ->
   get_room_data_for_hour db now0 room_id target_datetime
   = inr (inr (get_latest_room_data db now0 room_id (Some target_datetime)))) /\
  (forall temp_result humidity_result pressure_result,
      select_hour_temperature db room_id hour_start hour_end = Some temp_result ->
      select_hour_average db HumidityTable room_id hour_start hour_end
      = Some humidity_result ->
      select_hour_average db PressureTable room_id hour_start hour_end
      = Some pressure_result ->
      (temp_result = None \/
       exists agg, temp_result = Some agg /\ avg_temperature agg = None) ->
      get_room_data_for_hour db now0 room_id target_datetime
      = inr (inr (get_latest_room_data db now0 room_id (Some hour_start)))).
Proof.
  intros hour_start. fold hour_start in Hend.
  split; [apply start_of_hour_bounds |].
  split.
  { unfold add_hour in Hend.
    destruct (wall hour_start + hour_us <? (max_ordinal + 1) * day_us)%Z;
      [| discriminate].
    now inversion Hend. }
  unfold get_room_data_for_hour. fold hour_start. rewrite Hend.
  split.
  - intros [H | [H | H]].
    + now rewrite H.
    + rewrite H.
      now destruct (select_hour_temperature db room_id hour_start hour_end).
    + rewrite H.
      destruct (select_hour_temperature db room_id hour_start hour_end);
        [| reflexivity].
      now destruct (select_hour_average db HumidityTable room_id
                      hour_start hour_end).
  - intros temp_result humidity_result pressure_result -> -> ->
      [-> | (agg & -> & Havg)]; [reflexivity |].
    now rewrite Havg.
Qed.


(** * The further properties on the examples *)

Lemma checking_solver_sound (loaded zulu : bool) :
  sound_solver (ex_world loaded zulu).
Proof.
  intros m. simpl. destruct (satisfiesb ex_values m) eqn:Hsat; simpl; auto.
  now apply satisfiesb_sound.
Qed.

Lemma ex_single_room_prepared :
  prepare (ex_world true true) ex_single_room_optimizer = Ok ex_single_room_ready.
Proof. vm_compute. reflexivity. Qed.

Lemma ex_math_physics_overlap :
  overlapping (ex_world true true) ex_lesson_math ex_lesson_physics.
Proof.
  unfold overlapping. do 4 eexists. repeat split; vm_compute; reflexivity.
Qed.

Lemma ex_result_extracted : _extract_solution ex_ready ex_response = Ok ex_result.
Proof. vm_compute. reflexivity. Qed.

Lemma ex_lessons_counts_in (lesson : Lesson) :
  In lesson (lessons ex_ready) -> (0 <= get_student_count lesson)%Z.
Proof.
  intros [<- | [<- | [<- | []]]]; vm_compute; discriminate.
Qed.

Lemma ex_optimizer_counts (i : nat) (lesson : Lesson) :
  lessons ex_optimizer !! i = Some lesson -> (0 <= get_student_count lesson)%Z.
Proof.
  destruct i as [|[|[|i]]]; intros H; vm_compute in H; inversion H;
    vm_compute; discriminate.
Qed.

Lemma no_overlap_only_for_overlapping_witness :
  _add_no_overlap_constraints (ex_world true true) ex_optimizer
  = Ok ex_overlap_checked /\
  In (SumAtMostOne (0, 0)%nat (1, 0)%nat) (constraints (model ex_overlap_checked)) /\
  exists j room i1 i2 l1 l2,
    rooms ex_optimizer !! j = Some room /\
    lessons ex_optimizer !! i1 = Some l1 /\ lessons ex_optimizer !! i2 = Some l2 /\
    (i1 < i2)%nat /\ overlapping (ex_world true true) l1 l2 /\
    SumAtMostOne (0, 0)%nat (1, 0)%nat = SumAtMostOne (i1, j) (i2, j).
Proof.
  assert (Hrun : _add_no_overlap_constraints (ex_world true true) ex_optimizer
                 = Ok ex_overlap_checked) by (vm_compute; reflexivity).
  assert (Hin : In (SumAtMostOne (0, 0)%nat (1, 0)%nat)
                   (constraints (model ex_overlap_checked)))
    by (vm_compute; auto).
  split; [exact Hrun |]. split; [exact Hin |].
  destruct (no_overlap_only_for_overlapping (ex_world true true) ex_optimizer
              ex_overlap_checked _ Hrun Hin) as [Hold | Hnew].
  - destruct Hold.
  - exact Hnew.
Defined.

Lemma shared_only_room_infeasible_witness :
  prepare (ex_world true true) ex_single_room_optimizer = Ok ex_single_room_ready /\
  sound_solver (ex_world true true) /\
  optimize (ex_world true true) ex_single_room_optimizer
  = Ok (_format_infeasible_result
          (Solve (ex_world true true) (model ex_single_room_ready))).
Proof.
  split; [exact ex_single_room_prepared |].
  split; [apply checking_solver_sound |].
  apply (shared_only_room_infeasible (ex_world true true)
           ex_single_room_optimizer ex_single_room_ready 0 0 1
           ex_room_large ex_lesson_math ex_lesson_physics
           ex_single_room_prepared eq_refl eq_refl eq_refl).
  - lia.
  - exact ex_math_physics_overlap.
  - vm_compute. discriminate.
  - vm_compute. discriminate.
  - intros [|j'] room' Hj' _; [reflexivity | discriminate].
  - intros [|j'] room' Hj' _; [reflexivity | discriminate].
  - apply checking_solver_sound.
Defined.

Lemma extracted_assignments_fit_witness :
  _extract_solution ex_ready ex_response = Ok ex_result /\
  forall a, In a (assignments ex_result) ->
    (capacity (assigned_room a) >= get_student_count (lesson_of a))%Z.
Proof.
  split; [exact ex_result_extracted |].
  intros a Ha.
  destruct (extracted_assignments_fit (ex_world true true) ex_optimizer ex_ready
              ex_response ex_result ex_ready_prepared ex_response_satisfies
              ex_result_extracted a Ha) as (i & j & _ & _ & _ & Hfit).
  exact Hfit.
Defined.

Lemma extracted_rooms_differ_witness :
  List.find (fun jr => Value ex_response (0%nat, fst jr)) (enumerate (rooms ex_ready))
  = Some (0%nat, ex_room_large) /\
  List.find (fun jr => Value ex_response (1%nat, fst jr)) (enumerate (rooms ex_ready))
  = Some (1%nat, ex_room_small) /\
  0%nat <> 1%nat.
Proof.
  assert (H0 : List.find (fun jr => Value ex_response (0%nat, fst jr))
                 (enumerate (rooms ex_ready)) = Some (0%nat, ex_room_large))
    by (vm_compute; reflexivity).
  assert (H1 : List.find (fun jr => Value ex_response (1%nat, fst jr))
                 (enumerate (rooms ex_ready)) = Some (1%nat, ex_room_small))
    by (vm_compute; reflexivity).
  split; [exact H0 |]. split; [exact H1 |].
  apply (extracted_rooms_differ (ex_world true true) ex_optimizer ex_ready
           ex_response 0 1 0 1 ex_lesson_math ex_lesson_physics
           ex_room_large ex_room_small
           ex_ready_prepared ex_response_satisfies eq_refl eq_refl).
  - lia.
  - exact ex_math_physics_overlap.
  - exact H0.
  - exact H1.
Defined.

Lemma extracted_lessons_are_the_placeable_witness :
  map lesson_of (assignments ex_result) = [ex_lesson_math; ex_lesson_physics].
Proof.
  rewrite (extracted_lessons_are_the_placeable (ex_world true true) ex_optimizer
             ex_ready ex_response ex_result
             ex_ready_prepared ex_response_satisfies ex_result_extracted).
  vm_compute. reflexivity.
Defined.

Lemma temp_score_closer_is_better_witness :
  Qabs (22 - 21) <= Qabs (17 - 21) /\ temp_score 17 <= temp_score 22.
Proof.
  assert (H : Qabs (22 - 21) <= Qabs (17 - 21)) by (vm_compute; discriminate).
  split; [exact H |].
  apply (proj2 (temp_score_closer_is_better 22 17) H).
Defined.

Lemma equipment_score_values_witness :
  (0 < forecast_equipment_score ex_room_large 26)%Z /\
  ((21 < 26 /\ get_hasAC ex_room_large = true) \/
   (26 < 21 /\ get_hasHeater ex_room_large = true)).
Proof.
  assert (H : (0 < forecast_equipment_score ex_room_large 26)%Z)
    by (vm_compute; reflexivity).
  split; [exact H |].
  destruct (equipment_score_values ex_room_large 26) as (_ & _ & Hpos & _).
  exact (Hpos H).
Defined.

Lemma objective_terms_nonnegative_witness :
  prepare (ex_world true true) ex_optimizer = Ok ex_ready /\
  forall t, In t (objective (model ex_ready)) -> (0 <= coef t)%Z.
Proof.
  split; [exact ex_ready_prepared |].
  intros t Ht.
  apply (objective_terms_nonnegative (ex_world true true) ex_optimizer ex_ready
           0.5 0.2 0.3 ex_ready_prepared eq_refl eq_refl eq_refl);
    try (unfold Qle; simpl; lia); try exact Ht.
  exact ex_optimizer_counts.
Defined.

Lemma no_model_flat_objective_witness :
  joblib_load (ex_world false true) = None /\
  prepare (ex_world false true)
    (__init__ (ex_world false true) ex_rooms ex_lessons None)
  = Ok ex_ready_no_model /\
  get_prediction ex_ready_no_model 0 0 = 21.
Proof.
  assert (Hready : prepare (ex_world false true)
                     (__init__ (ex_world false true) ex_rooms ex_lessons None)
                   = Ok ex_ready_no_model) by (vm_compute; reflexivity).
  split; [reflexivity |]. split; [exact Hready |].
  apply (proj1 (no_model_flat_objective (ex_world false true) ex_rooms ex_lessons
                  None ex_ready_no_model eq_refl Hready)).
Defined.

Lemma optimize_result_status_witness :
  optimize (ex_world true true) ex_optimizer = Ok ex_optimized /\
  lessons ex_optimizer <> [] /\
  exists ready,
    prepare (ex_world true true) ex_optimizer = Ok ready /\
    solver_stats ex_optimized
    = Some (stats_of (Solve (ex_world true true) (model ready))).
Proof.
  assert (Hrun : optimize (ex_world true true) ex_optimizer = Ok ex_optimized)
    by (vm_compute; reflexivity).
  split; [exact Hrun |].
  destruct (optimize_result_status (ex_world true true) ex_optimizer
              ex_optimized Hrun) as [[Hnil _] | (Hne & ready & Hready & Hstats & _)].
  - discriminate Hnil.
  - split; [exact Hne |]. exists ready. split; [exact Hready | exact Hstats].
Defined.

Lemma predictions_only_in_range_witness :
  _calculate_all_temperature_predictions (ex_world true true) ex_optimizer
  = Ok ex_predicted /\
  temperature_predictions ex_predicted !! (0, 0)%nat
  <> temperature_predictions ex_optimizer !! (0, 0)%nat /\
  (0 < length (lessons ex_optimizer))%nat /\
  (0 < length (rooms ex_optimizer))%nat.
Proof.
  assert (Hrun : _calculate_all_temperature_predictions (ex_world true true)
                   ex_optimizer = Ok ex_predicted) by (vm_compute; reflexivity).
  assert (Hne : temperature_predictions ex_predicted !! (0, 0)%nat
                <> temperature_predictions ex_optimizer !! (0, 0)%nat)
    by (vm_compute; discriminate).
  split; [exact Hrun |]. split; [exact Hne |].
  destruct (predictions_only_in_range (ex_world true true) ex_optimizer
              ex_predicted Hrun) as (_ & _ & _ & _ & _ & Hrange).
  exact (Hrange 0%nat 0%nat Hne).
Defined.

Lemma optimize_raises_on_aware_start_witness :
  iso_tz (start_time ex_lesson_zulu) <> NoTz /\
  exists e,
    optimize (ex_world true true)
      (__init__ (ex_world true true) [ex_room_large] [ex_lesson_zulu] None)
    = Raise e.
Proof.
  assert (H : iso_tz (start_time ex_lesson_zulu) <> NoTz) by discriminate.
  split; [exact H |].
  apply (optimize_raises_on_aware_start (ex_world true true) [ex_room_large]
           [ex_lesson_zulu] None 0 ex_lesson_zulu);
    [discriminate | reflexivity | exact H].
Defined.

Lemma reported_subscores_bounds_witness :
  _extract_solution ex_ready ex_response = Ok ex_result /\
  forall a, In a (assignments ex_result) -> 0 <= capacity_fit (scores a) <= 1.
Proof.
  split; [exact ex_result_extracted |].
  intros a Ha.
  apply (proj1 (reported_subscores_bounds ex_ready ex_response ex_result
                  ex_result_extracted ex_lessons_counts_in a Ha)).
Defined.

Lemma get_week_dates_monday_to_sunday_witness :
  get_week_dates 2024 10 = inr (ex_week_start, ex_week_end) /\
  weekday ex_week_start = 0%Z /\ weekday ex_week_end = 6%Z.
Proof.
  assert (Hrun : get_week_dates 2024 10 = inr (ex_week_start, ex_week_end))
    by (vm_compute; reflexivity).
  split; [exact Hrun |].
  destruct (get_week_dates_monday_to_sunday 2024 10 ex_week_start ex_week_end Hrun)
    as (Hs & He & _).
  split; [exact Hs | exact He].
Defined.

Lemma get_week_dates_returns_witness :
  exists week_start week_end,
    get_week_dates 2024 10 = inr (week_start, week_end).
Proof.
  apply (get_week_dates_returns 2024 10); lia.
Defined.

Lemma parse_date_range_covers_days_witness :
  parse_date_range (ex_world true true)
    {| iso_wall := 738949 * day_us + 10 * hour; iso_tz := NoTz |}
    {| iso_wall := 738955 * day_us + 8 * hour; iso_tz := NoTz |}
  = Ok ({| wall := 738949 * day_us; utcoffset := None |},
        {| wall := 738955 * day_us + day_us - 1; utcoffset := None |}) /\
  (738949 * day_us <= wall ex_instant <= 738955 * day_us + day_us - 1)%Z.
Proof.
  assert (Hrun : parse_date_range (ex_world true true)
                   {| iso_wall := 738949 * day_us + 10 * hour; iso_tz := NoTz |}
                   {| iso_wall := 738955 * day_us + 8 * hour; iso_tz := NoTz |}
                 = Ok ({| wall := 738949 * day_us; utcoffset := None |},
                       {| wall := 738955 * day_us + day_us - 1;
                          utcoffset := None |}))
    by (vm_compute; reflexivity).
  split; [exact Hrun |].
  destruct (parse_date_range_covers_days _ _ _ _ _ Hrun)
    as (s0 & e0 & Hs0 & He0 & _ & _ & _ & _ & _ & _ & Hcover & _).
  vm_compute in Hs0. inversion Hs0; subst s0.
  vm_compute in He0. inversion He0; subst e0.
  apply (Hcover ex_instant). vm_compute. split; discriminate.
Defined.

Lemma planning_response_shape_witness :
  optimize_weekly_planning (ex_world true true)
    (ex_services [ex_row_math; ex_row_physics]) 0%nat (Some ex_request)
  = (2%nat,
     (OptimizedBody "optimal" 2 2
        (Some {| conflicts := 0; branches := 0; wall_time := 0 |}), 200%Z)) /\
  (2 <= 2)%nat.
Proof.
  assert (Hrun : optimize_weekly_planning (ex_world true true)
                   (ex_services [ex_row_math; ex_row_physics]) 0%nat
                   (Some ex_request)
                 = (2%nat,
                    (OptimizedBody "optimal" 2 2
                       (Some {| conflicts := 0; branches := 0; wall_time := 0 |}),
                     200%Z)))
    by (vm_compute; reflexivity).
  split; [exact Hrun |].
  destruct (planning_response_shape _ _ _ _ _ _ _ Hrun) as (_ & _ & Hle & _).
  exact Hle.
Defined.

Lemma planning_default_preferences_witness :
  optimize_weekly_planning (ex_world true true)
    (ex_services [ex_row_math; ex_row_physics]) 0%nat (Some ex_request)
  = optimize_weekly_planning (ex_world true true)
      (ex_services [ex_row_math; ex_row_physics]) 0%nat
      (Some {| start_date_field := start_date_field ex_request;
               end_date_field := end_date_field ex_request;
               preferences_field := Some (Some default_preferences) |}).
Proof.
  apply (planning_default_preferences (ex_world true true)
           (ex_services [ex_row_math; ex_row_physics]) 0%nat
           (start_date_field ex_request) (end_date_field ex_request) None).
  left. reflexivity.
Defined.


Lemma planning_fails_on_aware_rows_witness :
  utcoffset (row_start_time ex_row_aware) <> None /\
  optimize_weekly_planning (ex_world true true)
    (ex_services [ex_row_math; ex_row_aware]) 0%nat (Some ex_request)
  = (0%nat, (ExceptionBody, 500%Z)).
Proof.
  assert (H : utcoffset (row_start_time ex_row_aware) <> None) by discriminate.
  split; [exact H |].
  apply (planning_fails_on_aware_rows (ex_world true true)
           (ex_services [ex_row_math; ex_row_aware]) 0%nat ex_request
           (IsoText {| iso_wall := 0; iso_tz := NoTz |})
           (IsoText {| iso_wall := 7 * day_us; iso_tz := NoTz |})
           {| wall := 0; utcoffset := None |}
           {| wall := 7 * day_us; utcoffset := None |}
           [ex_row_math; ex_row_aware] ex_room_rows ex_row_aware);
    try reflexivity.
  - right. left. reflexivity.
  - exact H.
  - discriminate.
Defined.


Lemma hourly_data_fallbacks_witness :
  add_hour (start_of_hour ex_instant)
  = inr {| wall := 738949 * day_us + 11 * hour; utcoffset := None |} /\
  (wall (start_of_hour ex_instant) <= wall ex_instant)%Z.
Proof.
  assert (Hend : add_hour (start_of_hour ex_instant)
                 = inr {| wall := 738949 * day_us + 11 * hour;
                          utcoffset := None |})
    by (vm_compute; reflexivity).
  split; [exact Hend |].
  destruct (hourly_data_fallbacks ex_sensor_db ex_instant "A101" ex_instant _ Hend)
    as ([Hle _] & _).
  exact Hle.
Defined.


(** * The solutions of the model, and the capacity-fit preference *)

Lemma exactly_one_from_unique {A : Type} (f : A -> bool) (l : list A) (x : A) :
  List.NoDup l -> In x l -> f x = true ->
  (forall y, In y l -> f y = true -> y = x) ->
  length (List.filter f l) = 1%nat.
Proof.
  induction l as [|a l IH]; intros Hnd Hx Hfx Huniq; [destruct Hx |].
  inversion Hnd as [|? ? Hnotin Hnd']; subst. simpl.
  destruct Hx as [-> | Hx].
  - rewrite Hfx. simpl. f_equal.
    assert (Hnone : List.filter f l = []).
    { destruct (List.filter f l) as [|y ys] eqn:Hfl; [reflexivity |].
      assert (Hy : In y (List.filter f l)) by (rewrite Hfl; now left).
      apply filter_In in Hy as [Hyl Hfy].
      assert (y = x) by (apply Huniq; [now right | exact Hfy]).
      subst y. contradiction. }
    now rewrite Hnone.
  - destruct (f a) eqn:Hfa.
    + assert (a = x) by (apply Huniq; [now left | exact Hfa]).
      subst a. contradiction.
    + apply IH; auto. intros y Hy. apply Huniq. now right.
Qed.

(** X27. The solutions of the model that a fresh optimizer hands to the
    solver are exactly the assignments that keep every lesson out of the
    rooms too small for it, give every lesson that fits somewhere exactly
    one of the rooms it fits in, and never give one room to two lessons
    whose intervals overlap.  The model holds no other constraint. *)
Theorem model_solutions_exactly (E : World) (rs : list Room) (ls : list Lesson)
    (prefs : option (gmap string Q)) (ready : RoomOptimizer)
    (sol : BoolVar -> bool)
    (Hready : prepare E (__init__ E rs ls prefs) = Ok ready) :
  satisfies sol (model ready) <->
  (forall i j lesson room,
      ls !! i = Some lesson -> rs !! j = Some room ->
      (capacity room < get_student_count lesson)%Z -> sol (i, j) = false) /\
  (forall i j0 lesson room0,
      ls !! i = Some lesson -> rs !! j0 = Some room0 ->
      (capacity room0 >= get_student_count lesson)%Z ->
      exists j room,
        rs !! j = Some room /\
        (capacity room >= get_student_count lesson)%Z /\
        sol (i, j) = true /\
        forall j' room',
          rs !! j' = Some room' ->
          (capacity room' >= get_student_count lesson)%Z ->
          sol (i, j') = true -> j' = j) /\
  (forall j room i1 i2 l1 l2,
      rs !! j = Some room -> ls !! i1 = Some l1 -> ls !! i2 = Some l2 ->
      (i1 < i2)%nat -> overlapping E l1 l2 ->
      ~ (sol (i1, j) = true /\ sol (i2, j) = true)).
Proof.
  split.
  - intros Hsol. split; [| split].
    + intros i j lesson room Hi Hj Hlt.
      apply (invalid_room_zero E _ ready sol i j lesson room Hready Hsol Hi Hj Hlt).
    + intros i j0 lesson room0 Hi Hj0 Hfit.
      apply (valid_room_chosen E _ ready sol i j0 lesson room0
               Hready Hsol Hi Hj0 Hfit).
    + intros j room i1 i2 l1 l2 Hj Hi1 Hi2 Hlt Hov [H1 H2].
      destruct (prepare_model E _ ready Hready) as (_ & _ & Hover).
      pose proof (satisfies_holds _ _ _ Hsol
                    (Hover j room i1 i2 l1 l2 Hj Hi1 Hi2 Hlt Hov)) as Hle.
      simpl in Hle. rewrite H1, H2 in Hle. simpl in Hle. lia.
  - intros (Hzero & Hone & Hpair).
    destruct (prepare_stages E _ ready Hready)
      as (s1 & s4 & t1 & t2 & t3 & H1 & H4 & _ & _ & _ & -> & _ & _).
    destruct (predictions_keep_inputs E _ s1 H1) as [(Hr1 & Hl1 & _) Hm1].
    simpl in Hr1, Hl1, Hm1.
    unfold satisfies. simpl. apply List.Forall_forall. intros c Hc.
    destruct (no_overlap_added_only E _ s4 c H4 Hc) as [Hcap | Hnew].
    + rewrite capacity_constraints_closed in Hcap.
      destruct (create_variables_keeps s1) as [_ Hcv].
      rewrite Hcv, Hm1 in Hcap. simpl in Hcap.
      apply in_flat_map in Hcap as ([i lesson] & Hil & Hc').
      apply in_enumerate in Hil.
      change (lessons (_create_assignment_variables s1)) with (lessons s1) in Hil.
      change (rooms (_create_assignment_variables s1)) with (rooms s1) in Hc'.
      rewrite Hl1 in Hil. rewrite Hr1 in Hc'.
      unfold lesson_capacity_constraints in Hc'. simpl in Hc'.
      apply in_app_or in Hc' as [Hz | Hx].
      * apply in_map_iff in Hz as (x & <- & Hx).
        apply in_invalid_vars in Hx as (j & room & -> & Hj & Hlt).
        simpl. eapply Hzero; eauto.
      * destruct (valid_vars i (get_student_count lesson) (enumerate rs))
          as [|x xs] eqn:Hvv; [destruct Hx |].
        destruct Hx as [<- | []]. unfold holds. rewrite <- Hvv.
        assert (Hx : In x (valid_vars i (get_student_count lesson) (enumerate rs)))
          by (rewrite Hvv; now left).
        apply in_valid_vars in Hx as (j0 & room0 & _ & Hj0 & Hfit0).
        destruct (Hone i j0 lesson room0 Hil Hj0 Hfit0)
          as (j & room & Hj & Hfit & Htrue & Huniq).
        apply (exactly_one_from_unique sol _ (i, j));
          [apply valid_vars_NoDup | | exact Htrue |].
        -- apply in_valid_vars. exists j, room. auto.
        -- intros y Hy Hty.
           apply in_valid_vars in Hy as (j' & room' & -> & Hj' & Hfit').
           f_equal. eapply Huniq; eauto.
    + destruct Hnew as (j & room & i1 & i2 & l1 & l2 & Hj & Hi1 & Hi2 & Hlt & Hov & ->).
      change (rooms (_add_capacity_constraints (_create_assignment_variables s1)))
        with (rooms s1) in Hj.
      change (lessons (_add_capacity_constraints (_create_assignment_variables s1)))
        with (lessons s1) in Hi1, Hi2.
      rewrite Hr1 in Hj. rewrite Hl1 in Hi1, Hi2.
      simpl.
      pose proof (Hpair j room i1 i2 l1 l2 Hj Hi1 Hi2 Hlt Hov) as Hnot.
      destruct (sol (i1, j)), (sol (i2, j)); simpl; try lia.
      all: exfalso; apply Hnot; auto.
Qed.



Lemma model_solutions_exactly_witness :
  prepare (ex_world true true) ex_optimizer = Ok ex_ready /\
  satisfies ex_values (model ex_ready) /\
  ex_values (2%nat, 0%nat) = false.
Proof.
  split; [exact ex_ready_prepared |].
  split; [exact ex_response_satisfies |].
  destruct (proj1 (model_solutions_exactly (ex_world true true) ex_rooms
                     ex_lessons None ex_ready ex_values ex_ready_prepared)
              ex_response_satisfies) as (Hzero & _).
  apply (Hzero 2%nat 0%nat ex_lesson_assembly ex_room_large eq_refl eq_refl).
  vm_compute. reflexivity.
Defined.

